(** * Health-metrics dashboard: navigation, registry and data-state logic

    A shallow embedding of the hooks of the dashboard
    ([useChartNavigation], [useVisualizations], [useVisualizationHelpers],
    [usePatientData]), of the two dashboards, the role switch and the error
    boundary, and of the computations of the sleep, blood pressure and pain
    charts, followed by the properties established about them.

    Part I holds the definitions, Part II the lemmas and theorems about the
    hooks and the sleep summary, Part III further properties of the hooks,
    the dashboards and the charts. *)

From Stdlib Require Import ZArith QArith Qround Qabs Lia Lqa Bool List Ascii.
From stdpp Require Import base strings pretty gmap list.

(* ===================================================================== *)
(** * Part I: the embedding                                               *)
(* ===================================================================== *)

(** ** ECMAScript [Date] arithmetic

    A [Date] object is represented by its time value read on the local
    clock, in milliseconds.  The host time zone is taken to have a fixed
    offset from UTC (no daylight-saving jumps), so local time and the stored
    time value differ by a constant and every comparison between two dates
    is the comparison of their local time values.  Every [Date] is a valid
    one: the [Invalid Date] object and the [TimeClip] bound of 8.64e15 ms are
    outside the model.

    The functions below are the abstract operations of ECMA-262 (section
    "Date Objects"): [Day], [TimeWithinDay], [DaysInYear], [DayFromYear],
    [YearFromTime], [InLeapYear], [MonthFromTime], [DateFromTime],
    [WeekDay], [MakeTime], [MakeDay], [MakeDate].

    Module [Host] further down has the same methods on the time values
    themselves, for any host time zone, clock changes included: each method
    there is the function of this module between ECMA-262's [LocalTime] and
    [UTC]. *)

Module JSDate.
Local Open Scope Z_scope.

Definition msPerDay : Z := 86400000.
Definition msPerHour : Z := 3600000.
Definition msPerMinute : Z := 60000.
Definition msPerSecond : Z := 1000.

Definition Day (t : Z) : Z := t / msPerDay.
Definition TimeWithinDay (t : Z) : Z := t mod msPerDay.

Definition DaysInYear (y : Z) : Z :=
  if negb (y mod 4 =? 0) then 365
  else if negb (y mod 100 =? 0) then 366
  else if negb (y mod 400 =? 0) then 365
  else 366.

Definition DayFromYear (y : Z) : Z :=
  365 * (y - 1970) + (y - 1969) / 4 - (y - 1901) / 100 + (y - 1601) / 400.

(** ECMA-262 defines [YearFromTime t] as the largest [y] whose first day is
    not after [t].  It is computed here from the mean length of a Gregorian
    year (146097 days in 400 years), with one step of adjustment;
    [YearFromDay_spec] and [YearFromDay_unique] in Part II show that this
    is the year of the definition. *)
Definition YearFromDay (d : Z) : Z :=
  let y0 := 1970 + (400 * d) / 146097 in
  if d <? DayFromYear y0 then y0 - 1
  else if DayFromYear (y0 + 1) <=? d then y0 + 1
  else y0.

Definition YearFromTime (t : Z) : Z := YearFromDay (Day t).

(** 1 in a leap year, 0 otherwise. *)
Definition LeapOfYear (y : Z) : Z := if DaysInYear y =? 366 then 1 else 0.
Definition InLeapYear (t : Z) : Z := LeapOfYear (YearFromTime t).

Definition DayWithinYear (t : Z) : Z := Day t - DayFromYear (YearFromTime t).

(** Day number within the year of the first day of month [mn] (0 = January);
    the thresholds of the [MonthFromTime] table. *)
Definition MonthStart (mn leap : Z) : Z :=
  match mn with
  | 0 => 0
  | 1 => 31
  | 2 => 59 + leap
  | 3 => 90 + leap
  | 4 => 120 + leap
  | 5 => 151 + leap
  | 6 => 181 + leap
  | 7 => 212 + leap
  | 8 => 243 + leap
  | 9 => 273 + leap
  | 10 => 304 + leap
  | 11 => 334 + leap
  | _ => 365 + leap
  end.

Definition MonthOfDay (dwy leap : Z) : Z :=
  if dwy <? 31 then 0
  else if dwy <? 59 + leap then 1
  else if dwy <? 90 + leap then 2
  else if dwy <? 120 + leap then 3
  else if dwy <? 151 + leap then 4
  else if dwy <? 181 + leap then 5
  else if dwy <? 212 + leap then 6
  else if dwy <? 243 + leap then 7
  else if dwy <? 273 + leap then 8
  else if dwy <? 304 + leap then 9
  else if dwy <? 334 + leap then 10
  else 11.

Definition MonthFromTime (t : Z) : Z := MonthOfDay (DayWithinYear t) (InLeapYear t).

Definition DateFromTime (t : Z) : Z :=
  DayWithinYear t - MonthStart (MonthFromTime t) (InLeapYear t) + 1.

(** 0 = Sunday ... 6 = Saturday; day 0 (1 January 1970) was a Thursday. *)
Definition WeekDay (t : Z) : Z := (Day t + 4) mod 7.

Definition MakeTime (hour min sec ms : Z) : Z :=
  hour * msPerHour + min * msPerMinute + sec * msPerSecond + ms.

(** [MakeDay year month date]: months outside 0..11 carry into the year, and
    a [date] outside the month counts days from its first day. *)
Definition MakeDay (year month date : Z) : Z :=
  let ym := year + month / 12 in
  let mn := month mod 12 in
  DayFromYear ym + MonthStart mn (LeapOfYear ym) + date - 1.

Definition MakeDate (day time : Z) : Z := day * msPerDay + time.

(** The number of days of a month, from the first of the month to the first
    of the next. *)
Definition DaysInMonth (year month : Z) : Z :=
  MakeDay year (month + 1) 1 - MakeDay year month 1.

(** *** Methods of [Date.prototype] and the constructor, in local time *)

Definition getFullYear (t : Z) : Z := YearFromTime t.
Definition getMonth (t : Z) : Z := MonthFromTime t.
Definition getDate (t : Z) : Z := DateFromTime t.
Definition getDay (t : Z) : Z := WeekDay t.

Definition setMonth (t month : Z) : Z :=
  MakeDate (MakeDay (YearFromTime t) month (DateFromTime t)) (TimeWithinDay t).

Definition setDate (t date : Z) : Z :=
  MakeDate (MakeDay (YearFromTime t) (MonthFromTime t) date) (TimeWithinDay t).

Definition setHours (t hour min sec ms : Z) : Z :=
  MakeDate (Day t) (MakeTime hour min sec ms).

(** [new Date(year, month, date)]: midnight of that day; a year in 0..99
    stands for 1900 + year. *)
Definition newDate (year month date : Z) : Z :=
  let yr := if (0 <=? year) && (year <=? 99) then 1900 + year else year in
  MakeDate (MakeDay yr month date) (MakeTime 0 0 0 0).

(** [new Date(year, month, date, hours, minutes)], same rule for the year. *)
Definition newDateTime (year month date hour min : Z) : Z :=
  let yr := if (0 <=? year) && (year <=? 99) then 1900 + year else year in
  MakeDate (MakeDay yr month date) (MakeTime hour min 0 0).

(** [date.toDateString()] names the local calendar day of the date (week
    day, month, day of the month and year), so two dates have the same text
    exactly when they fall on the same day.  The text is represented by the
    number of that day. *)
Definition toDateString (t : Z) : Z := Day t.

End JSDate.

(** ** [useChartNavigation]  (src/hooks/useChartNavigation.js)

    The hook keeps one piece of state, [currentDate].  [goToPrevious] and
    [goToNext] are the state updaters handed to [setCurrentDate]; the range
    functions read [currentDate].  Each [new Date(x)] in the source makes a
    fresh copy before it is mutated, so the updaters are pure functions of
    the time value. *)

Module Nav.
Import JSDate.
Local Open Scope Z_scope.

Inductive navigation := week | month.

(** [chartType === 'mood' ? 'month' : 'week'] *)
Definition navigationType (chartType : string) : navigation :=
  if String.eqb chartType "mood" then month else week.

(** The default [initialDate], [new Date(2025, 4, 1)]. *)
Definition initialDate : Z := newDate 2025 4 1.

Definition goToPrevious (chartType : string) (prev : Z) : Z :=
  let newDate := prev in
  match navigationType chartType with
  | month => setMonth newDate (getMonth newDate - 1)
  | week => setDate newDate (getDate newDate - 7)
  end.

Definition goToNext (chartType : string) (prev : Z) : Z :=
  let newDate := prev in
  match navigationType chartType with
  | month => setMonth newDate (getMonth newDate + 1)
  | week => setDate newDate (getDate newDate + 7)
  end.

Record range := { start : Z; end_ : Z }.

Definition getDateRange (chartType : string) (currentDate : Z) : range :=
  match navigationType chartType with
  | month =>
      let startOfMonth := newDate (getFullYear currentDate) (getMonth currentDate) 1 in
      let endOfMonth := newDate (getFullYear currentDate) (getMonth currentDate + 1) 0 in
      {| start := startOfMonth; end_ := endOfMonth |}
  | week =>
      let startOfWeek := currentDate in
      let startOfWeek := setDate startOfWeek (getDate startOfWeek - getDay startOfWeek) in
      let startOfWeek := setHours startOfWeek 0 0 0 0 in
      let endOfWeek := startOfWeek in
      let endOfWeek := setDate endOfWeek (getDate endOfWeek + 6) in
      let endOfWeek := setHours endOfWeek 23 59 59 999 in
      {| start := startOfWeek; end_ := endOfWeek |}
  end.

Definition dataStartDate : Z := newDate 2024 6 1.
Definition dataEndDate : Z := newDate 2025 6 31.

Definition getThreeMonthRange (currentDate : Z) : range :=
  let endOfThreeMonths := currentDate in
  let startOfThreeMonths := currentDate in
  let startOfThreeMonths := setMonth startOfThreeMonths (getMonth startOfThreeMonths - 3) in
  let startOfThreeMonths :=
    if startOfThreeMonths <? dataStartDate then dataStartDate else startOfThreeMonths in
  let endOfThreeMonths :=
    if endOfThreeMonths >? dataEndDate then dataEndDate else endOfThreeMonths in
  {| start := startOfThreeMonths; end_ := endOfThreeMonths |}.

(** The reference date after a sequence of clicks on the navigation
    buttons ([true] = next, [false] = previous). *)
Definition navigate (chartType : string) (clicks : list bool) (d : Z) : Z :=
  fold_left (fun d (next : bool) => if next then goToNext chartType d else goToPrevious chartType d)
            clicks d.

(** The calendar month a date lies in, counted in months from year 0. *)
Definition monthIndex (t : Z) : Z := 12 * getFullYear t + getMonth t.

(** The clicks on "next" less the clicks on "previous". *)
Definition balance (clicks : list bool) : Z :=
  fold_right (fun (next : bool) n => (if next then 1 else -1) + n) 0 clicks.

(** The test the charts apply to a record's date to keep it:
    [date >= start && date <= end]. *)
Definition inRange (r : range) (date : Z) : bool :=
  (start r <=? date) && (date <=? end_ r).

End Nav.

(** ** Dates and navigation in the host's time zone

    A [Date] object holds a time value, in milliseconds of UTC; comparing
    two dates compares their time values, and subtracting them subtracts
    these.  The methods read and write the time value through the local
    time of the host, with ECMA-262's
    [LocalTime(t) = t + LocalTZA(t, true)] and
    [UTC(t) = t - LocalTZA(t, false)].  [LocalTZA] is the offset of the
    host's time zone: the offset in force at the UTC time [t] when the flag
    is [true], and at the local time [t] when it is [false], where a local
    time that a clock change skips or repeats is read with the offset in
    force before the change.  The zone, so [LocalTZA], is a parameter.
    Every method is the function of [JSDate] of the same name taken between
    [LocalTime] and [UTC], as its algorithm in ECMA-262 reads. *)

Module Host.
Import JSDate Nav.
Local Open Scope Z_scope.

Section Zone.
Context (LocalTZA : Z -> bool -> Z).

Definition LocalTime (t : Z) : Z := t + LocalTZA t true.
Definition UTC (t : Z) : Z := t - LocalTZA t false.

Definition getFullYear (tv : Z) : Z := JSDate.getFullYear (LocalTime tv).
Definition getMonth (tv : Z) : Z := JSDate.getMonth (LocalTime tv).
Definition getDate (tv : Z) : Z := JSDate.getDate (LocalTime tv).
Definition getDay (tv : Z) : Z := JSDate.getDay (LocalTime tv).

Definition setMonth (tv month : Z) : Z := UTC (JSDate.setMonth (LocalTime tv) month).
Definition setDate (tv date : Z) : Z := UTC (JSDate.setDate (LocalTime tv) date).
Definition setHours (tv hour min sec ms : Z) : Z :=
  UTC (JSDate.setHours (LocalTime tv) hour min sec ms).

(** [new Date(year, month, date)] and [new Date(year, month, date, hours,
    minutes)] *)
Definition newDate (year month date : Z) : Z := UTC (JSDate.newDate year month date).
Definition newDateTime (year month date hour min : Z) : Z :=
  UTC (JSDate.newDateTime year month date hour min).

(** [date.toDateString()], the local day of the date (see
    [JSDate.toDateString]). *)
Definition toDateString (tv : Z) : Z := JSDate.toDateString (LocalTime tv).

(** The time of day and the number of the day on the local clock. *)
Definition timeOfDay (tv : Z) : Z := TimeWithinDay (LocalTime tv).
Definition localDay (tv : Z) : Z := Day (LocalTime tv).

(** *** [useChartNavigation]  (src/hooks/useChartNavigation.js) *)

(** The default [initialDate], [new Date(2025, 4, 1)]. *)
Definition initialDate : Z := newDate 2025 4 1.

Definition goToPrevious (chartType : string) (prev : Z) : Z :=
  let newDate := prev in
  match navigationType chartType with
  | month => setMonth newDate (getMonth newDate - 1)
  | week => setDate newDate (getDate newDate - 7)
  end.

Definition goToNext (chartType : string) (prev : Z) : Z :=
  let newDate := prev in
  match navigationType chartType with
  | month => setMonth newDate (getMonth newDate + 1)
  | week => setDate newDate (getDate newDate + 7)
  end.

Definition getDateRange (chartType : string) (currentDate : Z) : range :=
  match navigationType chartType with
  | month =>
      let startOfMonth := newDate (getFullYear currentDate) (getMonth currentDate) 1 in
      let endOfMonth := newDate (getFullYear currentDate) (getMonth currentDate + 1) 0 in
      {| start := startOfMonth; end_ := endOfMonth |}
  | week =>
      let startOfWeek := currentDate in
      let startOfWeek := setDate startOfWeek (getDate startOfWeek - getDay startOfWeek) in
      let startOfWeek := setHours startOfWeek 0 0 0 0 in
      let endOfWeek := startOfWeek in
      let endOfWeek := setDate endOfWeek (getDate endOfWeek + 6) in
      let endOfWeek := setHours endOfWeek 23 59 59 999 in
      {| start := startOfWeek; end_ := endOfWeek |}
  end.

Definition dataStartDate : Z := newDate 2024 6 1.
Definition dataEndDate : Z := newDate 2025 6 31.

Definition getThreeMonthRange (currentDate : Z) : range :=
  let endOfThreeMonths := currentDate in
  let startOfThreeMonths := currentDate in
  let startOfThreeMonths := setMonth startOfThreeMonths (getMonth startOfThreeMonths - 3) in
  let startOfThreeMonths :=
    if startOfThreeMonths <? dataStartDate then dataStartDate else startOfThreeMonths in
  let endOfThreeMonths :=
    if endOfThreeMonths >? dataEndDate then dataEndDate else endOfThreeMonths in
  {| start := startOfThreeMonths; end_ := endOfThreeMonths |}.

(** The reference date after a sequence of clicks on the navigation
    buttons ([true] = next, [false] = previous). *)
Definition navigate (chartType : string) (clicks : list bool) (d : Z) : Z :=
  fold_left (fun d (next : bool) => if next then goToNext chartType d else goToPrevious chartType d)
            clicks d.

(** The calendar month a date lies in, counted in months from year 0. *)
Definition monthIndex (tv : Z) : Z := 12 * getFullYear tv + getMonth tv.

End Zone.

(** A time zone without clock changes: the offset is [c] at every time. *)
Definition fixedOffset (LocalTZA : Z -> bool -> Z) (c : Z) : Prop :=
  forall t isUTC, LocalTZA t isUTC = c.

(** Three zones for the examples: UTC; Japan, nine hours ahead all year;
    and the Eastern time of the United States as it is from 10 March 2024
    to 8 March 2026, five hours behind UTC and four while daylight time is
    on, which ends on 3 November 2024 at 02:00 local time (06:00 UTC) and
    lasts from 9 March 2025 02:00 (07:00 UTC) to 2 November 2025 02:00
    (06:00 UTC).  Local times from 02:00 to 03:00 on 9 March 2025 do not
    exist and keep the offset of before the change; those from 01:00 to
    02:00 on the two days in November occur twice and are read as the
    first. *)
Definition utc : Z -> bool -> Z := fun _ _ => 0.
Definition japan : Z -> bool -> Z := fun _ _ => 9 * msPerHour.
Definition newYork (t : Z) (isUTC : bool) : Z :=
  let standard := -5 * msPerHour in
  let daylight := -4 * msPerHour in
  let november3 := MakeDay 2024 10 3 in
  let march9 := MakeDay 2025 2 9 in
  let november2 := MakeDay 2025 10 2 in
  if isUTC
  then if (t <? MakeDate november3 (MakeTime 6 0 0 0))
          || (MakeDate march9 (MakeTime 7 0 0 0) <=? t)
             && (t <? MakeDate november2 (MakeTime 6 0 0 0))
       then daylight else standard
  else if (t <? MakeDate november3 (MakeTime 2 0 0 0))
          || (MakeDate march9 (MakeTime 3 0 0 0) <=? t)
             && (t <? MakeDate november2 (MakeTime 2 0 0 0))
       then daylight else standard.

End Host.

(** ** JavaScript values and objects

    A property of a patient data object holds [null], an array of records,
    or some other object (such as [patientInfo]); reading a property that is
    not there gives [undefined], which is the [None] of a lookup.
    [prop_get] reads the own properties of an object; where the code reads
    an object literal under a key it does not control, the read also finds
    what the literal inherits from [Object.prototype], and is modelled by
    [get]. *)

Module JS.

Inductive value (A : Type) : Type :=
| VNull
| VObject
| VArray (items : list A).
Arguments VNull {A}.
Arguments VObject {A}.
Arguments VArray {A} items.

(** The result of reading a property: [None] is [undefined]. *)
Definition truthy {A} (v : option (value A)) : bool :=
  match v with
  | None | Some VNull => false
  | Some VObject | Some (VArray _) => true
  end.

(** [v.length > 0]; an object without a [length] gives
    [undefined > 0], which is false. *)
Definition length_gt_0 {A} (v : option (value A)) : bool :=
  match v with
  | Some (VArray items) => bool_decide (0 < length items)
  | _ => false
  end.

(** A property that holds an array with at least one element. *)
Definition nonempty_array {A} (v : option (value A)) : Prop :=
  exists x items, v = Some (VArray (x :: items)).

(** [x || y] *)
Definition or_else {A} (x : option (value A)) (y : value A) : option (value A) :=
  if truthy x then x else Some y.

(** A data object read by property name. *)
Abbreviation data_object A := (gmap string (value A)).

(** An object whose property order matters ([Object.keys],
    [Object.entries]): its properties in creation order.  None of the keys
    used here is an array index, so creation order is the order of
    enumeration. *)
Definition object (V : Type) : Type := list (string * V).

Fixpoint prop_get {V} (o : object V) (k : string) : option V :=
  match o with
  | [] => None
  | (k', v) :: o' => if String.eqb k' k then Some v else prop_get o' k
  end.

(** [o[k] = v]: an existing property keeps its place, a new one goes last. *)
Fixpoint prop_set {V} (o : object V) (k : string) (v : V) : object V :=
  match o with
  | [] => [(k, v)]
  | (k', v') :: o' =>
      if String.eqb k' k then (k', v) :: o' else (k', v') :: prop_set o' k v
  end.

Definition keys {V} (o : object V) : list string := map fst o.

Definition entries {V} (o : object V) : list (string * V) := o.

(** [xs.sort(cmp)]: the sort is stable, so for a comparator that orders
    the elements consistently the result is fixed: the elements in
    comparator order, equal ones in their original order.  [insert] puts an
    element in front of the first element that does not have to precede
    it. *)
Fixpoint insert {X} (cmp : X -> X -> Z) (x : X) (sorted : list X) : list X :=
  match sorted with
  | [] => [x]
  | y :: rest => if (cmp x y <=? 0)%Z then x :: y :: rest else y :: insert cmp x rest
  end.
Definition sort {X} (cmp : X -> X -> Z) (xs : list X) : list X :=
  foldr (insert cmp) [] xs.

(** [xs.reduce((acc, x, index) => f(acc, x, index), init)] *)
Fixpoint reduce_from {X B} (f : B -> X -> nat -> B) (xs : list X) (index : nat) (acc : B) : B :=
  match xs with
  | [] => acc
  | x :: xs' => reduce_from f xs' (S index) (f acc x index)
  end.
Definition reduce {X B} (f : B -> X -> nat -> B) (xs : list X) (init : B) : B :=
  reduce_from f xs 0 init.

(** [xs.map((x, index) => f(x, index))] *)
Fixpoint map_from {X Y} (f : X -> nat -> Y) (xs : list X) (index : nat) : list Y :=
  match xs with
  | [] => []
  | x :: xs' => f x index :: map_from f xs' (S index)
  end.
Definition map_index {X Y} (f : X -> nat -> Y) (xs : list X) : list Y := map_from f xs 0.

(** The property names that every object literal inherits from
    [Object.prototype]: those of ECMA-262 and the legacy accessors that
    browsers add to them.  Each holds a function, except [__proto__], which
    gives the prototype object itself; so each inherited value is truthy, is
    not [undefined], and has no property [component]. *)
Definition objectPrototype : list string :=
  [ "constructor"; "hasOwnProperty"; "isPrototypeOf"; "propertyIsEnumerable";
    "toLocaleString"; "toString"; "valueOf"; "__proto__";
    "__defineGetter__"; "__defineSetter__"; "__lookupGetter__"; "__lookupSetter__" ].

(** What [o[k]] gives for an object literal [o]: an own property, a value
    inherited from [Object.prototype], or [undefined]. *)
Inductive property (V : Type) : Type :=
| Own (v : V)
| Inherited
| Undefined.
Arguments Own {V} v.
Arguments Inherited {V}.
Arguments Undefined {V}.

Definition get {V} (o : object V) (k : string) : property V :=
  match prop_get o k with
  | Some v => Own v
  | None => if bool_decide (k ∈ objectPrototype) then Inherited else Undefined
  end.

End JS.

(** ** [useVisualizations]  (src/hooks/useVisualizations.js)

    [VISUALIZATION_CONFIG] comes from the constants module, which is taken
    as a parameter: [VISUALIZATION_CONFIG key] stands for the properties
    spread from the entry of [key]. *)

Module Visualizations.
Import JS.

Inductive chart :=
| PainChart | BloodPressureChart | GlucoseChart | ExerciseChart
| MealContentsChart | MoodCalendar | SleepChart.

Record visualization (Cfg : Type) := { config : Cfg; component : chart }.
Arguments config {Cfg} _.
Arguments component {Cfg} _.

Section Registry.
Context {Cfg : Type} (VISUALIZATION_CONFIG : string -> Cfg) {A : Type}.

Definition entry (key : string) (c : chart) : string * visualization Cfg :=
  (key, {| config := VISUALIZATION_CONFIG key; component := c |}).

Definition allVisualizations : object (visualization Cfg) :=
  [ entry "pain" PainChart;
    entry "bloodPressure" BloodPressureChart;
    entry "glucose" GlucoseChart;
    entry "exercise" ExerciseChart;
    entry "mealContents" MealContentsChart;
    entry "mood" MoodCalendar;
    entry "sleep" SleepChart ].

(** The body of the [reduce] callback of [availableVisualizations]. *)
Definition addIfAvailable (data : data_object A)
    (acc : object (visualization Cfg)) (kv : string * visualization Cfg)
    : object (visualization Cfg) :=
  let '(key, viz) := kv in
  let dataKey := key +:+ "Data" in
  if String.eqb key "mealContents" && truthy (data !! "mealData")
     && length_gt_0 (data !! "mealData")
  then prop_set acc key viz
  else if truthy (data !! dataKey) && length_gt_0 (data !! dataKey)
  then prop_set acc key viz
  else acc.

(** The test the callback makes for [key]: either branch adds the key. *)
Definition passesTest (data : data_object A) (key : string) : bool :=
  (String.eqb key "mealContents" && truthy (data !! "mealData")
   && length_gt_0 (data !! "mealData"))
  || (truthy (data !! (key +:+ "Data")) && length_gt_0 (data !! (key +:+ "Data"))).

Definition availableVisualizations (data : option (data_object A))
    : object (visualization Cfg) :=
  match data with
  | None => []
  | Some data => fold_left (addIfAvailable data) (entries allVisualizations) []
  end.

(** The property of the data object that, in the words of the
    specification, is checked for [key]. *)
Definition dataArrayFor (key : string) : string :=
  if String.eqb key "mealContents" then "mealData" else key +:+ "Data".

(** [`${viewMode}-chart-${index}`] *)
Definition chartId (viewMode : string) (index : nat) : string :=
  viewMode +:+ "-chart-" +:+ pretty index.

(** The values of [selectedVisualizations] are what [availableKeys[index]]
    gives, [None] standing for [undefined]. *)
Definition selectedVisualizations (viewMode : string) (data : option (data_object A))
    : object (option string) :=
  let availableKeys := keys (availableVisualizations data) in
  let chartIds := map_index (fun _ index => chartId viewMode index) availableKeys in
  reduce (fun acc chartId index => prop_set acc chartId (availableKeys !! index)) chartIds [].

End Registry.
End Visualizations.

(** ** [useVisualizationHelpers] and [renderVisualizationWithMode]
    (src/hooks/useVisualizationHelpers.js, src/PhysicianDashboard.js) *)

Module Helpers.
Import JS Visualizations.

(** The state [expandedItem]: [None] is [null]. *)
Definition expanded := option string.

(** The updater given to [setExpandedItem]:
    [prev => (prev === itemId ? null : itemId)] *)
Definition handleExpand (itemId : string) (prev : expanded) : expanded :=
  if bool_decide (prev = Some itemId) then None else Some itemId.

(** [expandedItem === itemId] *)
Definition isExpanded (expandedItem : expanded) (itemId : string) : bool :=
  bool_decide (expandedItem = Some itemId).

(** The state after a sequence of [handleExpand] calls. *)
Definition expandAll (itemIds : list string) (s : expanded) : expanded :=
  fold_left (fun s itemId => handleExpand itemId s) itemIds s.

(** [!patientId] for a patient id that is a string, or [null] or
    [undefined] ([None]). *)
Definition absent (patientId : option string) : bool :=
  match patientId with
  | None => true
  | Some s => String.eqb s ""
  end.

(** What is rendered: the [Placeholder] with its props, or an element
    [<Component ... />] with its props.  [component] is [None] when
    [Component] is [undefined]; [onExpand] is the item id the callback hands
    to [handleExpand]; [navigation] is what the [navigation] prop holds:
    [Own type] stands for the result of [useChartNavigation] for that chart
    type, [Undefined] for a prop that is not given or [undefined]. *)
Inductive element :=
| Placeholder (message type : string)
| ElementOf (component : option chart) (patientId : option string) (isExpanded : bool)
            (onExpand : string) (viewMode : string) (navigation : property string).

(** A chart component with its props; [navigation] is the chart type whose
    navigation is passed, [None] when the prop is [undefined]. *)
Definition Chart (component : chart) (patientId : option string) (isExpanded : bool)
    (onExpand : string) (viewMode : string) (navigation : option string) : element :=
  ElementOf (Some component) patientId isExpanded onExpand viewMode
            (match navigation with Some type => Own type | None => Undefined end).

Definition is_placeholder (e : element) : bool :=
  match e with Placeholder _ _ => true | ElementOf _ _ _ _ _ _ => false end.

Section Render.
Context {Cfg : Type}.

(** [allVisualizations[visualizationType]] is a read of an object literal
    under a key given by the caller: an inherited value passes the test
    [!viz], and its [component] is [undefined]. *)
Definition renderVisualization (patientId : option string)
    (allVisualizations : object (visualization Cfg)) (expandedItem : expanded)
    (visualizationType itemId : string) : element :=
  if absent patientId
  then Placeholder "Please select a patient to view data." "select-patient"
  else
    match get allVisualizations visualizationType with
    | Undefined => Placeholder "Invalid visualization" "error"
    | Own viz =>
        let Component := component viz in
        let isExpanded := isExpanded expandedItem itemId in
        Chart Component patientId isExpanded itemId "patient" None
    | Inherited =>
        let isExpanded := isExpanded expandedItem itemId in
        ElementOf None patientId isExpanded itemId "patient" Undefined
    end.

(** [chartNavigation] of the physician dashboard: one navigation per chart
    type, each the result of [useChartNavigation] for that type. *)
Definition chartNavigation : object string :=
  [ ("glucose", "glucose"); ("bloodPressure", "bloodPressure");
    ("exercise", "exercise"); ("sleep", "sleep"); ("pain", "pain");
    ("mood", "mood"); ("mealContents", "mealContents") ].

Definition renderVisualizationWithMode (selectedPatientId : string)
    (allVisualizations : object (visualization Cfg)) (expandedItem : expanded)
    (visualizationType windowId : string) : element :=
  if absent (Some selectedPatientId)
  then Placeholder "Please select a patient to view data." "select-patient"
  else
    match get allVisualizations visualizationType with
    | Undefined => Placeholder "Invalid visualization" "error"
    | Own viz =>
        let Component := component viz in
        let isExpanded := isExpanded expandedItem windowId in
        let navigation := get chartNavigation visualizationType in
        ElementOf (Some Component) (Some selectedPatientId) isExpanded windowId "physician"
                  navigation
    | Inherited =>
        let isExpanded := isExpanded expandedItem windowId in
        let navigation := get chartNavigation visualizationType in
        ElementOf None (Some selectedPatientId) isExpanded windowId "physician" navigation
    end.

End Render.

End Helpers.

(** ** [usePatientData]  (src/hooks/usePatientData.js)

    The hook holds four pieces of state.  [loadData] is an [async]
    function: it runs up to its [await] ([loadData_begin]), and its
    continuation ([loadData_settle]) runs when the promise of
    [DataService.getPatientData] settles, with whatever state the hook has
    by then.  The data service is not part of the model: the way its promise
    settles is an input. *)

Module PatientData.
Import JS.

(** The argument [patientId] of the hook. *)
Inductive patient_id :=
| IdUndefined
| IdNull
| IdString (s : string)
| IdNumber (n : Z).

Definition id_truthy (id : patient_id) : bool :=
  match id with
  | IdUndefined | IdNull => false
  | IdString s => negb (String.eqb s "")
  | IdNumber n => negb (n =? 0)%Z
  end.

(** [typeof id === 'string'] *)
Definition is_string (id : patient_id) : bool :=
  match id with IdString _ => true | _ => false end.

(** What a rejected promise carries: an [Error] with its message, or some
    other value. *)
Inductive thrown :=
| ErrorObject (message : string)
| NotAnError.

(** How the promise of [DataService.getPatientData] settles; a resolved
    value is an object, or [null] or [undefined] ([None]). *)
Inductive outcome (A : Type) :=
| Resolved (patientData : option (data_object A))
| Rejected (err : thrown).
Arguments Resolved {A} patientData.
Arguments Rejected {A} err.

Record state (A : Type) := {
  data : option (data_object A);
  loading : bool;
  error : option string;
  lastFetchedId : option string
}.
Arguments data {A} _.
Arguments loading {A} _.
Arguments error {A} _.
Arguments lastFetchedId {A} _.

Section Hook.
Context {A : Type}.

(** The four [useState] initial values. *)
Definition initial : state A :=
  {| data := None; loading := true; error := None; lastFetchedId := None |}.

Definition setData (d : option (data_object A)) (s : state A) : state A :=
  {| data := d; loading := loading s; error := error s; lastFetchedId := lastFetchedId s |}.
Definition setLoading (b : bool) (s : state A) : state A :=
  {| data := data s; loading := b; error := error s; lastFetchedId := lastFetchedId s |}.
Definition setError (e : option string) (s : state A) : state A :=
  {| data := data s; loading := loading s; error := e; lastFetchedId := lastFetchedId s |}.
Definition setLastFetchedId (i : option string) (s : state A) : state A :=
  {| data := data s; loading := loading s; error := error s; lastFetchedId := i |}.

(** [!error]: the error is [null] or the empty string. *)
Definition no_error (e : option string) : bool :=
  match e with
  | None => true
  | Some msg => String.eqb msg ""
  end.

(** [id === lastFetchedId] *)
Definition same_id (id : patient_id) (last : option string) : bool :=
  match id, last with
  | IdNull, None => true
  | IdString s, Some l => String.eqb s l
  | _, _ => false
  end.

(** [id === lastFetchedId && data && !error] *)
Definition alreadyLoaded (id : patient_id) (s : state A) : bool :=
  same_id id (lastFetchedId s) && bool_decide (is_Some (data s)) && no_error (error s).

(** [patientData && patientData.patientInfo] *)
Definition validData (patientData : option (data_object A)) : bool :=
  match patientData with
  | None => false
  | Some d => truthy (d !! "patientInfo")
  end.

(** [err instanceof Error ? err.message : 'Unknown error occurred'] *)
Definition errorMessage (err : thrown) : string :=
  match err with
  | ErrorObject message => message
  | NotAnError => "Unknown error occurred"
  end.

(** The string of a patient id that is one. *)
Definition id_string (id : patient_id) : option string :=
  match id with IdString i => Some i | _ => None end.

(** [loadData] up to the [await]: the new state, and the id whose data is
    being fetched if execution reached the [await]. *)
Definition loadData_begin (id : patient_id) (s : state A) : state A * option string :=
  if alreadyLoaded id s then (s, None)
  else if negb (id_truthy id) || negb (is_string id)
  then (setError None (setData None (setLoading false s)), None)
  else (setError None (setLoading true s), id_string id).

(** The [catch] block, followed by [finally]. *)
Definition loadData_catch (err : thrown) (s : state A) : state A :=
  setLoading false (setData None (setError (Some (errorMessage err)) s)).

(** [loadData] after the [await], for the fetch of [id]. *)
Definition loadData_settle (id : string) (o : outcome A) (s : state A) : state A :=
  match o with
  | Resolved patientData =>
      if validData patientData
      then setLoading false (setLastFetchedId (Some id) (setData patientData s))
      else loadData_catch (ErrorObject "Invalid data structure received") s
  | Rejected err => loadData_catch err s
  end.

(** The effect of the hook, run for the current [patientId]. *)
Definition useEffect (patientId : patient_id) (s : state A) : state A * option string :=
  if id_truthy patientId
  then loadData_begin patientId s
  else (setLoading false (setLastFetchedId None (setError None (setData None s))), None).

(** A load attempt with nothing else running between its start and its
    completion: the effect, then the continuation if a fetch was started. *)
Definition loadAttempt (patientId : patient_id) (o : outcome A) (s : state A) : state A :=
  let '(s', fetching) := useEffect patientId s in
  match fetching with
  | Some id => loadData_settle id o s'
  | None => s'
  end.

(** After an attempt that nothing interrupts, loading is off and data and
    error are not both set. *)
Definition settled (s : state A) : Prop :=
  loading s = false /\ (data s = None \/ error s = None).

(** The states of the hook when attempts never overlap. *)
Inductive sequential : state A -> Prop :=
| sequential_initial : sequential initial
| sequential_attempt s patientId o :
    sequential s -> sequential (loadAttempt patientId o s).

(** *** Overlapping attempts

    The hook's state together with the fetches that have not settled yet.
    [Effect] is a run of the effect for a patient id, [Settle] the
    settlement of a pending fetch. *)
Record machine := { hook : state A; pending : list string }.

Inductive event :=
| Effect (patientId : patient_id)
| Settle (id : string) (o : outcome A).

Fixpoint remove_first (id : string) (ids : list string) : list string :=
  match ids with
  | [] => []
  | i :: ids' => if String.eqb i id then ids' else i :: remove_first id ids'
  end.

Definition step (m : machine) (ev : event) : machine :=
  match ev with
  | Effect patientId =>
      let '(s', fetching) := useEffect patientId (hook m) in
      {| hook := s'; pending := pending m ++ option_list fetching |}
  | Settle id o =>
      if bool_decide (id ∈ pending m)
      then {| hook := loadData_settle id o (hook m); pending := remove_first id (pending m) |}
      else m
  end.

Definition run (events : list event) : machine :=
  fold_left step events {| hook := initial; pending := [] |}.

(** What every sequence of events keeps true: the hook shows loading only
    while a fetch is pending or before anything has happened, and the data
    it holds was fetched, has its patientInfo and is recorded under an id. *)
Definition consistent (m : machine) : Prop :=
  (loading (hook m) = true -> pending m <> [] \/ hook m = initial) /\
  (forall d, data (hook m) = Some d ->
             validData (Some d) = true /\ lastFetchedId (hook m) <> None).

(** *** The value returned by the hook *)

(** [data?.name || []] *)
Definition accessor (name : string) (s : state A) : option (value A) :=
  or_else (data s ≫= (fun d => d !! name)) (VArray []).

Definition glucoseData := accessor "glucoseData".
Definition bloodPressureData := accessor "bloodPressureData".
Definition exerciseData := accessor "exerciseData".
Definition moodData := accessor "moodData".
Definition painData := accessor "painData".
Definition mealData := accessor "mealData".
Definition sleepData := accessor "sleepData".

(** [!!data]: every object is truthy. *)
Definition hasData (s : state A) : bool := bool_decide (is_Some (data s)).
Definition isError (s : state A) : bool := negb (no_error (error s)).
Definition isEmpty (s : state A) : bool :=
  negb (loading s) && no_error (error s) && negb (hasData s).

(** [(data?.name || []).length > 0] *)
Definition hasItems (name : string) (s : state A) : bool := length_gt_0 (accessor name s).

Definition hasGlucoseData := hasItems "glucoseData".
Definition hasBloodPressureData := hasItems "bloodPressureData".
Definition hasExerciseData := hasItems "exerciseData".
Definition hasMoodData := hasItems "moodData".
Definition hasPainData := hasItems "painData".
Definition hasSleepData := hasItems "sleepData".
Definition hasMealData := hasItems "mealData".

(** The accessors with their flags, as the hook returns them. *)
Definition accessors (s : state A) : list (string * option (value A) * bool) :=
  [ ("glucoseData", glucoseData s, hasGlucoseData s);
    ("bloodPressureData", bloodPressureData s, hasBloodPressureData s);
    ("exerciseData", exerciseData s, hasExerciseData s);
    ("moodData", moodData s, hasMoodData s);
    ("painData", painData s, hasPainData s);
    ("mealData", mealData s, hasMealData s);
    ("sleepData", sleepData s, hasSleepData s) ].

(** [clearData] *)
Definition clearData (s : state A) : state A :=
  setLoading false (setLastFetchedId None (setError None (setData None s))).

(** [data?.patientInfo || null] *)
Definition patientInfo (s : state A) : option (value A) :=
  or_else (data s ≫= (fun d => d !! "patientInfo")) VNull.

End Hook.
End PatientData.

(** ** The two dashboards  (src/PatientDashboard.js, src/PhysicianDashboard.js) *)

Module PatientDashboard.
Import JS Visualizations Helpers PatientData.

(** What [renderVisualizationWithMode] returns: a plain [div] with its
    text, or an element. *)
Inductive rendered :=
| Div (text : string)
| Element (e : element).

(** What the component shows; the dashboard is the patient card with
    [patientInfo] ([None] is [undefined]) and the grid with
    [selectedVisualizations]. *)
Inductive screen (A : Type) :=
| LoadingScreen
| ErrorScreen (error : string)
| Dashboard (patientInfo : option (value A)) (selectedVisualizations : object (option string)).
Arguments LoadingScreen {A}.
Arguments ErrorScreen {A} error.
Arguments Dashboard {A} patientInfo selectedVisualizations.

Section Component.
Context {Cfg : Type} (VISUALIZATION_CONFIG : string -> Cfg) {A : Type}.

Definition renderVisualizationWithMode (patientId : option string)
    (allVisualizations : object (visualization Cfg)) (expandedItem : expanded)
    (visualizationType boxId : string) : rendered :=
  match get allVisualizations visualizationType with
  | Undefined => Div "Invalid visualization"
  | Own viz =>
      let Component := component viz in
      let isExpanded := isExpanded expandedItem boxId in
      let navigation := get chartNavigation visualizationType in
      Element (ElementOf (Some Component) patientId isExpanded boxId "patient" navigation)
  | Inherited =>
      let isExpanded := isExpanded expandedItem boxId in
      let navigation := get chartNavigation visualizationType in
      Element (ElementOf None patientId isExpanded boxId "patient" navigation)
  end.

(** The component for the state [s] of [usePatientData]. *)
Definition render (s : state A) : screen A :=
  let selectedVisualizations := selectedVisualizations VISUALIZATION_CONFIG "patient" (data s) in
  let patientInfo := data s ≫= (fun d => d !! "patientInfo") in
  if loading s then LoadingScreen
  else
    match error s with
    | Some message =>
        if String.eqb message "" then Dashboard patientInfo selectedVisualizations
        else ErrorScreen message
    | None => Dashboard patientInfo selectedVisualizations
    end.

End Component.
End PatientDashboard.

Module PhysicianDashboard.
Import JS Visualizations Helpers.

(** [useState(initialPatientId || '')] *)
Definition initialSelected (initialPatientId : option string) : string :=
  if absent initialPatientId then "" else default "" initialPatientId.

(** The effect that follows the prop:
    [if (initialPatientId && initialPatientId !== selectedPatientId)
       setSelectedPatientId(initialPatientId)] *)
Definition followProp (initialPatientId : option string) (selectedPatientId : string) : string :=
  match initialPatientId with
  | Some i =>
      if negb (absent initialPatientId) && negb (String.eqb i selectedPatientId)
      then i else selectedPatientId
  | None => selectedPatientId
  end.

(** [disabled={Object.keys(availableVisualizations).length === 0}] *)
Definition disabled {V} (availableVisualizations : object V) : bool :=
  bool_decide (length (keys availableVisualizations) = 0%nat).

(** The content below the header is rendered under
    [selectedPatientId && ...]. *)
Definition showsContent (selectedPatientId : string) : bool :=
  negb (absent (Some selectedPatientId)).

End PhysicianDashboard.

(** ** [App]  (src/App.js) *)

Module App.

Definition initialRole : string := "patient".

(** The updater of [toggleRole]:
    [prev => prev === 'patient' ? 'physician' : 'patient'] *)
Definition toggleRole (prev : string) : string :=
  if String.eqb prev "patient" then "physician" else "patient".

(** [checked={currentRole === 'physician'}] *)
Definition checked (currentRole : string) : bool := String.eqb currentRole "physician".

End App.

(** ** [ErrorBoundary]  (src/components/ErrorBoundary.js)

    [E] is what a child can throw, [I] the error info React hands to
    [componentDidCatch], an object with a [componentStack]. *)

Module ErrorBoundary.

Section Boundary.
Context {E I C : Type} (truthy : E -> bool) (toString : E -> string)
        (componentStack : I -> string).

Record state := { hasError : bool; error : option E; errorInfo : option I }.

Definition initial : state := {| hasError := false; error := None; errorInfo := None |}.

(** [getDerivedStateFromError] returns [{ hasError: true }], which React
    merges into the state. *)
Definition getDerivedStateFromError (err : E) (s : state) : state :=
  {| hasError := true; error := error s; errorInfo := errorInfo s |}.

(** [componentDidCatch] sets [error] and [errorInfo]. *)
Definition componentDidCatch (err : E) (info : I) (s : state) : state :=
  {| hasError := hasError s; error := Some err; errorInfo := Some info |}.

(** What [render] gives: the children, the fallback with or without the
    details (the error's text and the component stack), or a TypeError from
    reading [componentStack] of [null]. *)
Inductive output :=
| Children (children : C)
| Fallback (details : option (string * string))
| TypeError.

Definition render (development : bool) (children : C) (s : state) : output :=
  if hasError s then
    match error s with
    | Some err =>
        if development && truthy err then
          match errorInfo s with
          | Some info => Fallback (Some (toString err, componentStack info))
          | None => TypeError
          end
        else Fallback None
    | None => Fallback None
    end
  else Children children.

Inductive event :=
| Derived (err : E)
| Caught (err : E) (info : I).

Definition step (s : state) (ev : event) : state :=
  match ev with
  | Derived err => getDerivedStateFromError err s
  | Caught err info => componentDidCatch err info s
  end.

Definition is_Derived (ev : event) : bool :=
  match ev with Derived _ => true | Caught _ _ => false end.

End Boundary.
End ErrorBoundary.

(** ** The week summary of [SleepChart]
    (src/components/patient_charts/SleepChart.js)

    The arithmetic of JavaScript numbers is an interface: the summary is
    defined, and its properties hold, for whatever the operations compute
    (IEEE 754 doubles in the browser). *)

Module Sleep.
Import JS.

Class Number (num : Type) := {
  (** the number written as a literal, or an array length *)
  num_of_Q : Q -> num;
  num_add : num -> num -> num;
  num_sub : num -> num -> num;
  num_div : num -> num -> num;
  (** [Math.abs] *)
  num_abs : num -> num;
  (** [x >= y] *)
  num_geb : num -> num -> bool;
  (** [x.toFixed(1)] *)
  toFixed1 : num -> string;
  parseFloat : string -> num
}.

Definition num_of_nat {num} `{Number num} (n : nat) : num :=
  num_of_Q (inject_Z (Z.of_nat n)).

Record sleepRecord (num : Type) := { date : Z; hours : num; quality : string }.
Arguments date {num} _.
Arguments hours {num} _.
Arguments quality {num} _.

Record summary := {
  totalHours : string;
  avgHours : string;
  mostCommonQuality : string;
  mostCommonQualityCount : nat;
  avgVariation : string;
  qualityAssessment : string;
  adequateSleepNights : nat;
  daysTracked : nat
}.

(** What evaluating the body of the [useMemo] gives. *)
Inductive result :=
| Null
| Summary (s : summary)
| TypeError.

Definition qualityLevels : object string :=
  [ ("Very good", "var(--chart-color-sleep-very-good)");
    ("Fairly good", "var(--chart-color-sleep-fairly-good)");
    ("Fairly bad", "var(--chart-color-sleep-fairly-bad)");
    ("Very bad", "var(--chart-color-sleep-very-bad)") ].

(** The comparator [([,a], [,b]) => b - a] on entries of [qualityCounts]. *)
Definition byCountDescending (x y : string * nat) : Z :=
  (Z.of_nat y.2 - Z.of_nat x.2)%Z.

(** The body of the [forEach] that counts: a quality that is not a key of
    [qualityCounts] is not counted. *)
Definition countQuality {num} (qualityCounts : object nat) (day : sleepRecord num)
    : object nat :=
  match prop_get qualityCounts (quality day) with
  | Some count => prop_set qualityCounts (quality day) (S count)
  | None => qualityCounts
  end.

Section Summary.
Context {num : Type} `{Number num}.

Definition qualityScores : object num :=
  [ ("Very good", num_of_Q 4); ("Fairly good", num_of_Q 3);
    ("Fairly bad", num_of_Q 2); ("Very bad", num_of_Q 1) ].

Definition weekSummary (weekData : list (sleepRecord num)) : result :=
  if bool_decide (length weekData = 0%nat) then Null
  else
    let totalHours := fold_left (fun sum day => num_add sum (hours day)) weekData (num_of_Q 0) in
    let avgHours := toFixed1 (num_div totalHours (num_of_nat (length weekData))) in
    let qualityCounts :=
      fold_left (fun counts quality => prop_set counts quality 0%nat) (keys qualityLevels) [] in
    let qualityCounts := fold_left countQuality weekData qualityCounts in
    let mostCommonQuality := head (sort byCountDescending (entries qualityCounts)) in
    let hourVariations :=
      map (fun day => num_abs (num_sub (hours day) (parseFloat avgHours))) weekData in
    let avgVariation :=
      toFixed1 (num_div (fold_left (fun sum v => num_add sum v) hourVariations (num_of_Q 0))
                        (num_of_nat (length hourVariations))) in
    let avgQualityScore :=
      num_div
        (fold_left (fun sum day =>
                      num_add sum (default (num_of_Q 0) (prop_get qualityScores (quality day))))
                   weekData (num_of_Q 0))
        (num_of_nat (length weekData)) in
    let qualityAssessment :=
      if num_geb avgQualityScore (num_of_Q (7 # 2)) then "Good"
      else if num_geb avgQualityScore (num_of_Q (5 # 2)) then "Fair"
      else "Poor" in
    let adequateSleepNights :=
      length (List.filter (fun day => num_geb (hours day) (num_of_Q 7)) weekData) in
    match mostCommonQuality with
    | None => TypeError
    | Some mostCommonQuality =>
        Summary {| totalHours := toFixed1 totalHours;
                   avgHours := avgHours;
                   mostCommonQuality := mostCommonQuality.1;
                   mostCommonQualityCount := mostCommonQuality.2;
                   avgVariation := avgVariation;
                   qualityAssessment := qualityAssessment;
                   adequateSleepNights := adequateSleepNights;
                   daysTracked := length weekData |}
    end.

(** *** The words of the specification *)

(** The sum of a list of numbers, added from the left starting at 0. *)
Definition sum (xs : list num) : num := fold_left num_add xs (num_of_Q 0).

(** The sum divided by the count. *)
Definition mean (xs : list num) : num := num_div (sum xs) (num_of_nat (length xs)).

(** The number of records of a quality. *)
Definition countOf (q : string) (weekData : list (sleepRecord num)) : nat :=
  length (List.filter (fun day => String.eqb (quality day) q) weekData).

End Summary.

(** The keys of [qualityLevels], in their order. *)
Definition levels : list string := ["Very good"; "Fairly good"; "Fairly bad"; "Very bad"].

(** *** The rest of the component *)




Record legendItem := { label : string; color : string }.


(** [sleepData.filter(d => d.date >= startOfWeek && d.date <= endOfWeek)],
    the dates compared by their time values. *)
Definition weekData {num} (r : Nav.range) (sleepData : list (sleepRecord num))
    : list (sleepRecord num) :=
  List.filter (fun d => Nav.inRange r (date d)) sleepData.

(** [threeMonthSummary]: the same computation over the three-month window,
    without the quality assessment and the adequate nights. *)
Module ThreeMonth.

Record summary := {
  totalHours : string;
  avgHours : string;
  mostCommonQuality : string;
  mostCommonQualityCount : nat;
  avgVariation : string;
  daysTracked : nat
}.

Inductive result :=
| Null
| Summary (s : summary)
| TypeError.

Section Summary.
Context {num : Type} `{Number num}.

Definition threeMonthSummary (threeMonthData : list (sleepRecord num)) : result :=
  if bool_decide (length threeMonthData = 0%nat) then Null
  else
    let totalHours :=
      fold_left (fun sum day => num_add sum (hours day)) threeMonthData (num_of_Q 0) in
    let avgHours := toFixed1 (num_div totalHours (num_of_nat (length threeMonthData))) in
    let qualityCounts :=
      fold_left (fun counts quality => prop_set counts quality 0%nat) (keys qualityLevels) [] in
    let qualityCounts := fold_left countQuality threeMonthData qualityCounts in
    let mostCommonQuality := head (sort byCountDescending (entries qualityCounts)) in
    let hourVariations :=
      map (fun day => num_abs (num_sub (hours day) (parseFloat avgHours))) threeMonthData in
    let avgVariation :=
      toFixed1 (num_div (fold_left (fun sum v => num_add sum v) hourVariations (num_of_Q 0))
                        (num_of_nat (length hourVariations))) in
    match mostCommonQuality with
    | None => TypeError
    | Some mostCommonQuality =>
        Summary {| totalHours := toFixed1 totalHours;
                   avgHours := avgHours;
                   mostCommonQuality := mostCommonQuality.1;
                   mostCommonQualityCount := mostCommonQuality.2;
                   avgVariation := avgVariation;
                   daysTracked := length threeMonthData |}
    end.

End Summary.
End ThreeMonth.

(** *** Numbers as exact rationals

    An instance of the interface without rounding in the arithmetic, to
    evaluate the summary on examples.  [toFixed1] rounds to the nearest
    tenth, a tie going up in magnitude; [parseFloat] reads an optional
    sign, digits, and an optional fraction. *)

Definition toFixed1_Q (x : Q) : string :=
  let n := Qfloor (Qabs x * inject_Z 10 + (1 # 2)) in
  (if Qle_bool 0 x then "" else "-")
    +:+ pretty (n / 10)%Z +:+ "." +:+ pretty (n mod 10)%Z.

Definition digit_of (c : ascii) : option Z :=
  let n := Z.of_nat (nat_of_ascii c) in
  if ((48 <=? n) && (n <=? 57))%Z then Some (n - 48)%Z else None.

(** The digits at the front of [s], read after the digits [acc] and with
    [scale] counting a power of ten per digit. *)
Fixpoint read_digits (s : string) (acc : Z) (scale : positive) : Z * positive * string :=
  match s with
  | EmptyString => (acc, scale, s)
  | String c s' =>
      match digit_of c with
      | Some d => read_digits s' (10 * acc + d)%Z (10 * scale)%positive
      | None => (acc, scale, s)
      end
  end.

Definition parseUnsigned_Q (s : string) : Q :=
  let '(int, _, rest) := read_digits s 0%Z 1%positive in
  match rest with
  | String "."%char frac =>
      let '(all, scale, _) := read_digits frac int 1%positive in
      all # scale
  | _ => inject_Z int
  end.

Definition parseFloat_Q (s : string) : Q :=
  match s with
  | String "-"%char s' => Qopp (parseUnsigned_Q s')
  | _ => parseUnsigned_Q s
  end.

#[export] Instance exact : Number Q := {
  num_of_Q := fun q => q;
  num_add := Qplus;
  num_sub := Qminus;
  num_div := Qdiv;
  num_abs := Qabs;
  num_geb := fun x y => Qle_bool y x;
  toFixed1 := toFixed1_Q;
  parseFloat := parseFloat_Q
}.

End Sleep.


(** ** [BloodPressureChart]
    (src/components/patient_charts/BloodPressureChart.js)

    A reading that reaches the colour functions has passed the filter
    [d[type] && d[type] > 0], so it is a finite positive number: the values
    are rationals, and the comparisons with the thresholds are exact. *)

Module BloodPressure.
Import JSDate JS.
Local Open Scope Z_scope.

Definition dayNames : list string := ["Sun"; "Mon"; "Tue"; "Wed"; "Thu"; "Fri"; "Sat"].

(** The helpers that work on dates, on time values in the host's zone. *)
Section Zone.
Context (LocalTZA : Z -> bool -> Z).

Definition getWeekStart (date : Z) : Z :=
  let d := date in
  let day := Host.getDay LocalTZA d in
  let diff := Host.getDate LocalTZA d - day in
  Host.setDate LocalTZA d diff.

(** [dayNames[date.getDay()]] *)
Definition formatDayLabel (date : Z) : option string :=
  dayNames !! Z.to_nat (Host.getDay LocalTZA date).

(** [Array.from({ length: 7 }, (_, i) => { const d = new Date(weekStart);
    d.setDate(weekStart.getDate() + i); return d; })] *)
Definition weekDays (weekStart : Z) : list Z :=
  map (fun i => Host.setDate LocalTZA weekStart (Host.getDate LocalTZA weekStart + Z.of_nat i))
      (seq 0 7).

End Zone.

(** [x < y] on numbers *)
Definition lt (x y : Q) : bool := negb (Qle_bool y x).
(** [x >= y] on numbers *)
Definition ge (x y : Q) : bool := Qle_bool y x.

Definition getSystolicColor (value : Q) : string :=
  if lt value 90 then "var(--chart-color-danger)"
  else if lt value 120 then "var(--chart-color-blue)"
  else if lt value 140 then "var(--chart-color-yellow)"
  else "var(--chart-color-orange)".

Definition getDiastolicColor (value : Q) : string :=
  if lt value 60 then "var(--chart-color-danger)"
  else if lt value 80 then "var(--chart-color-blue)"
  else if lt value 90 then "var(--chart-color-yellow)"
  else "var(--chart-color-orange)".

Record legendItem := { color : string; label : string; description : string }.

Definition bloodPressureLegendItems : list legendItem :=
  [ {| color := "var(--chart-color-danger)"; label := "Low";
       description := "Blood pressure below normal range" |};
    {| color := "var(--chart-color-blue)"; label := "Ideal";
       description := "Blood pressure within ideal range" |};
    {| color := "var(--chart-color-yellow)"; label := "Pre-high";
       description := "Blood pressure elevated but not yet high" |};
    {| color := "var(--chart-color-orange)"; label := "High";
       description := "Blood pressure high - requires attention" |} ].

(** The label of the legend item of a colour. *)
Definition legendLabel (c : string) : option string :=
  label <$> List.find (fun item => String.eqb (color item) c) bloodPressureLegendItems.

(** [getRiskCategory], local to the two summaries. *)
Definition getRiskCategory (systolic diastolic : Q) : string :=
  if ge systolic 135 || ge diastolic 85 then "High Risk"
  else if ge systolic 121 || ge diastolic 80 then "Medium Risk"
  else "Low Risk".

(** A reading with its date; a value that is missing, [null] or not a
    number is [None]. *)
Record reading := { date : Z; systolic : option Q; diastolic : option Q }.

(** [bloodPressureData.filter(d => { const readingDate = new Date(d.date);
    return readingDate >= weekStart && readingDate <= weekEnd; })] *)
Definition weekData (r : Nav.range) (bloodPressureData : list reading) : list reading :=
  List.filter (fun d => Nav.inRange r (date d)) bloodPressureData.

(** Two fields of [weekSummary], those that depend on the dates alone:
    [new Set(weekData.map(d => d.date.toDateString())).size] and
    [weekData.length]. *)
Definition daysWithReadings (weekData : list reading) : nat :=
  length (remove_dups (map (fun d => toDateString (date d)) weekData)).

Definition totalReadings (weekData : list reading) : nat := length weekData.

End BloodPressure.

(** ** [PainChart]  (src/components/patient_charts/PainChart.js)

    Pain levels are integers (the scale is 0 to 10). *)

Module Pain.
Import JSDate JS.
Local Open Scope Z_scope.

Record painRecord := { date : Z; level : Z; location : string }.

Definition painColors : list string :=
  [ "#ffffe5"; "#fff7bc"; "#f7f7b3"; "#fee391"; "#fec44f"; "#fe9929";
    "#ec7014"; "#cc4c02"; "#b34703"; "#993404"; "#662506" ].

(** [painColors[Math.min(level, 10)]]; [None] is [undefined], what a
    negative index gives. *)
Definition getPainColor (level : Z) : option string :=
  let index := Z.min level 10 in
  if index <? 0 then None else painColors !! Z.to_nat index.

Module LegendItem.
Record t := { color : option string; label : string }.
End LegendItem.

(** [Array.from({ length: 11 }, (_, i) => i).map(level => ({ color:
    getPainColor(level), label: `${level}` }))] *)
Definition painLegendItems : list LegendItem.t :=
  map (fun level => {| LegendItem.color := getPainColor level; LegendItem.label := pretty level |})
      (map Z.of_nat (seq 0 11)).

(** [painData.filter(d => d.date >= startOfWeek && d.date <= endOfWeek)] *)
Definition weekPainData (r : Nav.range) (painData : list painRecord) : list painRecord :=
  List.filter (fun d => Nav.inRange r (date d)) painData.

Module Point.
Record t := { date : Z; day : option string; level : Z; color : option string }.
End Point.

(** [painData.filter(d => d.date >= startOfThreeMonths && d.date <=
    endOfThreeMonths)] *)
Definition threeMonthPainData (r : Nav.range) (painData : list painRecord) : list painRecord :=
  List.filter (fun d => Nav.inRange r (date d)) painData.

(** Three fields of [threeMonthSummary], those that depend on the dates
    alone.  [daysInThreeMonths] is
    [Math.ceil((endOfThreeMonths - startOfThreeMonths) / (1000 * 60 * 60 * 24)) + 1]:
    the difference is that of the two time values, a whole number of
    milliseconds, so the exact quotient is a whole number or at least
    1/86400000 away from one, which is more than the rounding error of the
    division for dates within fifty thousand years of each other;
    [Math.ceil] then gives the ceiling of the exact quotient. *)
Definition daysInThreeMonths (r : Nav.range) : Z :=
  - ((- (Nav.end_ r - Nav.start r)) / (1000 * 60 * 60 * 24)) + 1.

Definition daysWithPain (LocalTZA : Z -> bool -> Z) (threeMonthPainData : list painRecord) : nat :=
  length (remove_dups (map (fun d => Host.toDateString LocalTZA (date d)) threeMonthPainData)).

Definition totalEntries (threeMonthPainData : list painRecord) : nat :=
  length threeMonthPainData.

(** [locationCounts.set(location, (locationCounts.get(location) || 0) + 1)] *)
Definition bump (locationCounts : object nat) (location : string) : object nat :=
  prop_set locationCounts location (default 0%nat (prop_get locationCounts location) + 1)%nat.

Section Chart.
(** [String.prototype.toLowerCase], and the offset of the host's zone *)
Context (toLowerCase : string -> string) (LocalTZA : Z -> bool -> Z).

(** The body of the [forEach], for the two maps.  [dateMap] is read by key
    only; [locationCounts] is iterated, so it keeps the order in which its
    keys were first set. *)
Definition setLevel (dateMap : gmap Z Z) (item : painRecord) : gmap Z Z :=
  let dateKey := Host.toDateString LocalTZA (date item) in
  <[dateKey := level item]> dateMap.

Definition countLocation (locationCounts : object nat) (item : painRecord) : object nat :=
  let location := toLowerCase (location item) in
  bump locationCounts location.

(** The body of the [for ... of] loop over [locationCounts], on the pair
    ([mostCommon], [maxCount]). *)
Definition moreCommon (acc : option string * nat) (entry : string * nat) : option string * nat :=
  let '(location, count) := entry in
  if (acc.2 <? count)%nat then (Some location, count) else acc.

Definition dayLabels : list string := ["Sun"; "Mon"; "Tue"; "Wed"; "Thu"; "Fri"; "Sat"].

(** [chartData] and [mostCommonLocation] of the [useMemo]; the third
    field, [averagePainLevel], is a quotient of floating-point numbers and
    is left out. *)
Definition chartData (startOfWeek : Z) (weekPainData : list painRecord) : list Point.t :=
  if bool_decide (length weekPainData = 0%nat) then []
  else
    let dateMap := fold_left setLevel weekPainData ∅ in
    map (fun i =>
           let date :=
             Host.setDate LocalTZA startOfWeek (Host.getDate LocalTZA startOfWeek + Z.of_nat i) in
           let dateKey := Host.toDateString LocalTZA date in
           let painLevel := default 0 (dateMap !! dateKey) in
           {| Point.date := date;
              Point.day := dayLabels !! Z.to_nat (Host.getDay LocalTZA date);
              Point.level := painLevel;
              Point.color := getPainColor painLevel |})
        (seq 0 7).

Definition mostCommonLocation (weekPainData : list painRecord) : option string :=
  if bool_decide (length weekPainData = 0%nat) then None
  else
    let locationCounts := fold_left countLocation weekPainData [] in
    (fold_left moreCommon (entries locationCounts) (None, 0%nat)).1.

(** The locations of the records as they are counted, and the number of
    records of a location. *)
Definition locations (weekPainData : list painRecord) : list string :=
  map (fun item => toLowerCase (location item)) weekPainData.

Definition occurrences (l : string) (weekPainData : list painRecord) : nat :=
  count_occ String.string_dec (locations weekPainData) l.

End Chart.
End Pain.
(* ===================================================================== *)
(** * Part II: properties                                                 *)
(* ===================================================================== *)

(** ** Calendar arithmetic *)

(** Linear arithmetic with the quotients and remainders of divisions by
    constants. *)
Ltac div_lia := Z.div_mod_to_equations; lia.

(** One case for each of the twelve months [mn]. *)
Ltac each_month mn :=
  let H := fresh "Hmonth" in
  assert (mn = 0 \/ mn = 1 \/ mn = 2 \/ mn = 3 \/ mn = 4 \/ mn = 5 \/ mn = 6
          \/ mn = 7 \/ mn = 8 \/ mn = 9 \/ mn = 10 \/ mn = 11)%Z as H by lia;
  repeat destruct H as [-> | H]; try subst mn.

Section DateFacts.
Import JSDate.
Local Open Scope Z_scope.

(** The model against the calendar: 1 January 1970 is day 0, a Thursday;
    29 February exists in 2000 and not in 1900; the default reference date
    of the charts, 1 May 2025, is a Thursday. *)
Example epoch_day : (YearFromTime 0, MonthFromTime 0, DateFromTime 0, WeekDay 0) = (1970, 0, 1, 4).
Proof. reflexivity. Qed.

Example leap_day_2000 :
  let t := newDate 2000 1 29 in (getFullYear t, getMonth t, getDate t, getDay t) = (2000, 1, 29, 2).
Proof. vm_compute. reflexivity. Qed.

Example no_leap_day_1900 :
  let t := newDate 1900 1 29 in (getFullYear t, getMonth t, getDate t) = (1900, 2, 1).
Proof. vm_compute. reflexivity. Qed.

Example first_of_may_2025 :
  let t := newDate 2025 4 1 in
  t = 1746057600000 /\ (getFullYear t, getMonth t, getDate t, getDay t) = (2025, 4, 1, 4).
Proof. vm_compute. split; reflexivity. Qed.

Lemma DaysInYear_cases y : DaysInYear y = 365 + LeapOfYear y /\ 0 <= LeapOfYear y <= 1.
Proof.
  unfold LeapOfYear, DaysInYear.
  repeat match goal with
         | |- context [negb (?a =? ?b)] => destruct (Z.eqb_spec a b); simpl negb; cbv iota
         end; simpl; lia.
Qed.

Lemma DayFromYear_succ y : DayFromYear (y + 1) = DayFromYear y + DaysInYear y.
Proof.
  unfold DayFromYear, DaysInYear.
  repeat match goal with
         | |- context [?a =? ?b] => destruct (Z.eqb_spec a b)
         end; simpl negb; cbv iota; div_lia.
Qed.

Lemma DayFromYear_pred y : DayFromYear (y - 1) = DayFromYear y - DaysInYear (y - 1).
Proof. pose proof (DayFromYear_succ (y - 1)) as H. replace (y - 1 + 1) with y in H by lia. lia. Qed.

Lemma DayFromYear_mono y1 y2 : y1 <= y2 -> DayFromYear y1 <= DayFromYear y2.
Proof. unfold DayFromYear. intros H. div_lia. Qed.

Lemma YearFromDay_spec d :
  DayFromYear (YearFromDay d) <= d < DayFromYear (YearFromDay d + 1).
Proof.
  unfold YearFromDay.
  set (y0 := 1970 + 400 * d / 146097).
  destruct (Z.ltb_spec d (DayFromYear y0)).
  - replace (y0 - 1 + 1) with y0 by lia. split; [|lia].
    unfold DayFromYear in *. subst y0. div_lia.
  - destruct (Z.leb_spec (DayFromYear (y0 + 1)) d).
    + split; [lia|].
      unfold DayFromYear in *. subst y0. div_lia.
    + lia.
Qed.

Lemma YearFromDay_unique d y :
  DayFromYear y <= d < DayFromYear (y + 1) -> YearFromDay d = y.
Proof.
  intros [Hlo Hhi]. destruct (YearFromDay_spec d) as [Hlo' Hhi'].
  destruct (Z.lt_trichotomy (YearFromDay d) y) as [Hlt | [Heq | Hgt]]; [exfalso | exact Heq | exfalso].
  - pose proof (DayFromYear_mono (YearFromDay d + 1) y). lia.
  - pose proof (DayFromYear_mono (y + 1) (YearFromDay d)). lia.
Qed.

(** The year of the definition in ECMA-262: the largest year that starts on
    or before the day. *)
Lemma YearFromDay_largest d y : DayFromYear y <= d <-> y <= YearFromDay d.
Proof.
  destruct (YearFromDay_spec d) as [Hlo Hhi]. split; intros H.
  - destruct (Z.le_gt_cases y (YearFromDay d)) as [|Hgt]; [assumption|].
    pose proof (DayFromYear_mono (YearFromDay d + 1) y). lia.
  - pose proof (DayFromYear_mono y (YearFromDay d)). lia.
Qed.

Lemma Day_decompose t : t = Day t * msPerDay + TimeWithinDay t /\ 0 <= TimeWithinDay t < msPerDay.
Proof. unfold Day, TimeWithinDay, msPerDay. div_lia. Qed.

Lemma Day_MakeDate d tod : 0 <= tod < msPerDay -> Day (MakeDate d tod) = d.
Proof. unfold Day, MakeDate, msPerDay. intros H. div_lia. Qed.

Lemma TimeWithinDay_MakeDate d tod : 0 <= tod < msPerDay -> TimeWithinDay (MakeDate d tod) = tod.
Proof. unfold TimeWithinDay, MakeDate, msPerDay. intros H. div_lia. Qed.

Lemma DayWithinYear_bounds t : 0 <= DayWithinYear t < 365 + InLeapYear t.
Proof.
  unfold DayWithinYear, InLeapYear, YearFromTime.
  pose proof (YearFromDay_spec (Day t)) as H.
  rewrite DayFromYear_succ in H.
  pose proof (DaysInYear_cases (YearFromDay (Day t))). lia.
Qed.

Lemma MonthOfDay_spec dwy leap :
  0 <= dwy < 365 + leap -> 0 <= leap <= 1 ->
  0 <= MonthOfDay dwy leap <= 11 /\
  MonthStart (MonthOfDay dwy leap) leap <= dwy < MonthStart (MonthOfDay dwy leap + 1) leap.
Proof.
  intros Hd Hl. unfold MonthOfDay.
  repeat match goal with
         | |- context [?a <? ?b] => destruct (Z.ltb_spec a b); [simpl; lia|]
         end.
  simpl; lia.
Qed.

Lemma MonthOfDay_unique dwy leap mn :
  0 <= mn <= 11 -> 0 <= leap <= 1 ->
  MonthStart mn leap <= dwy < MonthStart (mn + 1) leap ->
  MonthOfDay dwy leap = mn.
Proof.
  intros Hm Hl Hd.
  unfold MonthOfDay.
  each_month mn; simpl in Hd;
    repeat match goal with
           | |- context [?a <? ?b] => destruct (Z.ltb_spec a b); try lia
           end.
Qed.

Lemma InLeapYear_range t : 0 <= InLeapYear t <= 1.
Proof. unfold InLeapYear. apply DaysInYear_cases. Qed.

Lemma MonthFromTime_spec t :
  0 <= MonthFromTime t <= 11 /\
  MonthStart (MonthFromTime t) (InLeapYear t) <= DayWithinYear t
    < MonthStart (MonthFromTime t + 1) (InLeapYear t).
Proof.
  unfold MonthFromTime.
  apply MonthOfDay_spec; [apply DayWithinYear_bounds | apply InLeapYear_range].
Qed.

Lemma MonthStart_step mn leap :
  0 <= mn <= 11 -> 0 <= leap <= 1 ->
  28 <= MonthStart (mn + 1) leap - MonthStart mn leap <= 31.
Proof.
  intros Hm Hl.
  each_month mn; simpl; lia.
Qed.

Lemma MonthStart_bounds mn leap :
  0 <= mn <= 11 -> 0 <= leap <= 1 -> 0 <= MonthStart mn leap <= 335.
Proof.
  intros Hm Hl.
  each_month mn; simpl; lia.
Qed.

Lemma MonthStart_mono a b leap :
  0 <= a <= b -> b <= 11 -> 0 <= leap <= 1 -> MonthStart a leap <= MonthStart b leap.
Proof. intros Ha Hb Hl. each_month a; each_month b; simpl; lia. Qed.

Lemma DateFromTime_range t : 1 <= DateFromTime t <= 31.
Proof.
  unfold DateFromTime.
  destruct (MonthFromTime_spec t) as [Hm Hd].
  pose proof (MonthStart_step (MonthFromTime t) (InLeapYear t) Hm (InLeapYear_range t)).
  lia.
Qed.

(** Within the months 0..11 [MakeDay] counts from the first day of the
    month of the given year. *)
Lemma MakeDay_month y mn d :
  0 <= mn <= 11 -> MakeDay y mn d = DayFromYear y + MonthStart mn (LeapOfYear y) + d - 1.
Proof.
  intros Hm. unfold MakeDay.
  replace (mn / 12) with 0 by div_lia.
  replace (mn mod 12) with mn by div_lia.
  now rewrite Z.add_0_r.
Qed.

(** Rebuilding a day from its own year, month and date gives the day back;
    a shifted date shifts the day. *)
Lemma MakeDay_civil t k :
  MakeDay (YearFromTime t) (MonthFromTime t) (DateFromTime t + k) = Day t + k.
Proof.
  rewrite MakeDay_month by apply MonthFromTime_spec.
  unfold DateFromTime, DayWithinYear, InLeapYear. lia.
Qed.

Lemma setDate_shift t k : setDate t (getDate t + k) = t + k * msPerDay.
Proof.
  unfold setDate, getDate. rewrite MakeDay_civil. unfold MakeDate.
  destruct (Day_decompose t) as [Ht _]. lia.
Qed.

(** The year, month and date of a day given by a date that exists. *)
Lemma civil_of_MakeDate y mn d tod :
  0 <= mn <= 11 -> 1 <= d <= MonthStart (mn + 1) (LeapOfYear y) - MonthStart mn (LeapOfYear y) ->
  0 <= tod < msPerDay ->
  let t := MakeDate (MakeDay y mn d) tod in
  YearFromTime t = y /\ MonthFromTime t = mn /\ DateFromTime t = d /\ TimeWithinDay t = tod.
Proof.
  intros Hm Hd Htod t.
  destruct (DaysInYear_cases y) as [Hdiy Hleap].
  pose proof (MonthStart_bounds mn _ Hm Hleap) as Hms.
  assert (Hend : MonthStart (mn + 1) (LeapOfYear y) <= 365 + LeapOfYear y).
  { each_month mn; simpl; lia. }
  assert (HD : Day t = DayFromYear y + MonthStart mn (LeapOfYear y) + d - 1).
  { unfold t. rewrite Day_MakeDate by assumption. now apply MakeDay_month. }
  assert (HY : YearFromTime t = y).
  { unfold YearFromTime. apply YearFromDay_unique. rewrite DayFromYear_succ. lia. }
  assert (HW : DayWithinYear t = MonthStart mn (LeapOfYear y) + d - 1).
  { unfold DayWithinYear. rewrite HY. lia. }
  assert (HM : MonthFromTime t = mn).
  { unfold MonthFromTime, InLeapYear. rewrite HY, HW.
    apply MonthOfDay_unique; [assumption | assumption | lia]. }
  repeat split; try assumption.
  - unfold DateFromTime, InLeapYear. rewrite HM, HY, HW. lia.
  - unfold t. now apply TimeWithinDay_MakeDate.
Qed.

Lemma MakeDay_carry y M d : MakeDay y M d = MakeDay (y + M / 12) (M mod 12) d.
Proof.
  unfold MakeDay.
  replace (M mod 12 / 12) with 0 by div_lia.
  replace (M mod 12 mod 12) with (M mod 12) by div_lia.
  now rewrite Z.add_0_r.
Qed.


Lemma DaysInMonth_MonthStart y M :
  DaysInMonth y M
  = MonthStart (M mod 12 + 1) (LeapOfYear (y + M / 12))
    - MonthStart (M mod 12) (LeapOfYear (y + M / 12)).
Proof.
  unfold DaysInMonth, MakeDay.
  assert (Hm : 0 <= M mod 12 <= 11) by div_lia.
  assert (M mod 12 = 11 \/ M mod 12 <= 10) as [H11 | Hle] by lia.
  - replace ((M + 1) / 12) with (M / 12 + 1) by div_lia.
    replace ((M + 1) mod 12) with 0 by div_lia.
    rewrite H11, Z.add_assoc, DayFromYear_succ.
    destruct (DaysInYear_cases (y + M / 12)) as [-> _]. simpl MonthStart. lia.
  - replace ((M + 1) / 12) with (M / 12) by div_lia.
    replace ((M + 1) mod 12) with (M mod 12 + 1) by div_lia.
    lia.
Qed.

Lemma DaysInMonth_range y M : 28 <= DaysInMonth y M <= 31.
Proof.
  rewrite DaysInMonth_MonthStart. apply MonthStart_step.
  - div_lia.
  - apply DaysInYear_cases.
Qed.

(** The year, month and date of a day given by a month index of any size
    and a date that the month has. *)
Lemma civil_of_MakeDay y M d tod :
  1 <= d <= DaysInMonth y M -> 0 <= tod < msPerDay ->
  let t := MakeDate (MakeDay y M d) tod in
  YearFromTime t = y + M / 12 /\ MonthFromTime t = M mod 12 /\
  DateFromTime t = d /\ TimeWithinDay t = tod.
Proof.
  intros Hd Htod. rewrite DaysInMonth_MonthStart in Hd. rewrite MakeDay_carry.
  apply civil_of_MakeDate; [div_lia | assumption | assumption].
Qed.

Lemma monthIndex_carry y M : 12 * (y + M / 12) + M mod 12 = 12 * y + M.
Proof. div_lia. Qed.

(** [setMonth] to a month that has the day of the month of the date: the
    month index is reduced into 0..11 with a carry into the year, the day of
    the month and the time of day stay. *)
Lemma setMonth_fits t M :
  DateFromTime t <= DaysInMonth (YearFromTime t) M ->
  let t' := setMonth t M in
  YearFromTime t' = YearFromTime t + M / 12 /\ MonthFromTime t' = M mod 12 /\
  DateFromTime t' = DateFromTime t /\ TimeWithinDay t' = TimeWithinDay t.
Proof.
  intros Hd t'. unfold t', setMonth.
  pose proof (DateFromTime_range t).
  apply civil_of_MakeDay; [lia | apply Day_decompose].
Qed.


(** Every month has its first 28 days. *)
Lemma setMonth_civil t M :
  DateFromTime t <= 28 ->
  let t' := setMonth t M in
  YearFromTime t' = YearFromTime t + M / 12 /\ MonthFromTime t' = M mod 12 /\
  DateFromTime t' = DateFromTime t /\ TimeWithinDay t' = TimeWithinDay t.
Proof.
  intros Hd. apply setMonth_fits.
  pose proof (DaysInMonth_range (YearFromTime t) M). lia.
Qed.



(** Going back by months never moves a date forward. *)
Lemma setMonth_back_le t k :
  0 <= k <= 12 -> setMonth t (getMonth t - k) <= t.
Proof.
  intros Hk. unfold setMonth, getMonth. rewrite MakeDay_carry.
  destruct (MonthFromTime_spec t) as [Hm _].
  set (m := MonthFromTime t) in *. set (y := YearFromTime t).
  assert (Hle : MakeDay (y + (m - k) / 12) ((m - k) mod 12) (DateFromTime t) <= Day t).
  { pose proof (MakeDay_civil t 0) as Hc. rewrite !Z.add_0_r in Hc. rewrite <- Hc.
    fold m y. rewrite (MakeDay_month y m) by assumption.
    rewrite MakeDay_month by div_lia.
    destruct (DaysInYear_cases y) as [_ Hl].
    destruct (Z.le_gt_cases k m) as [Hkm | Hkm].
    - replace ((m - k) / 12) with 0 by div_lia.
      replace ((m - k) mod 12) with (m - k) by div_lia.
      rewrite Z.add_0_r.
      pose proof (MonthStart_mono (m - k) m (LeapOfYear y)). lia.
    - replace ((m - k) / 12) with (-1) by div_lia.
      replace (y + -1) with (y - 1) by lia.
      rewrite DayFromYear_pred.
      destruct (DaysInYear_cases (y - 1)) as [-> Hl'].
      pose proof (MonthStart_bounds ((m - k) mod 12) (LeapOfYear (y - 1))) as Hb.
      pose proof (MonthStart_bounds m (LeapOfYear y) Hm Hl).
      assert (0 <= (m - k) mod 12 <= 11) as Hr by div_lia.
      specialize (Hb Hr Hl'). lia. }
  unfold MakeDate. destruct (Day_decompose t) as [Ht _].
  unfold msPerDay in *. lia.
Qed.

End DateFacts.

(** ** Chart navigation *)

Section NavFacts.
Import JSDate Nav.
Local Open Scope Z_scope.

(** *** Week and month windows *)

Lemma navigationType_mood ct : navigationType ct = month <-> ct = "mood".
Proof.
  unfold navigationType. destruct (String.eqb_spec ct "mood"); split; congruence.
Qed.

Lemma WeekDay_range t : 0 <= WeekDay t <= 6.
Proof. unfold WeekDay. div_lia. Qed.

(** On the local clock: for week navigation the window of [getDateRange]
    starts on the Sunday of the reference date's week at 00:00:00.000, ends
    on the Saturday six days later at 23:59:59.999, spans seven days and
    contains the reference date. *)
Lemma getDateRange_week_local ct t :
  navigationType ct = week ->
  let r := getDateRange ct t in
  getDay (start r) = 0 /\ TimeWithinDay (start r) = MakeTime 0 0 0 0 /\
  getDay (end_ r) = 6 /\ TimeWithinDay (end_ r) = MakeTime 23 59 59 999 /\
  Day (end_ r) = Day (start r) + 6 /\
  end_ r - start r = 7 * msPerDay - 1 /\
  start r <= t <= end_ r.
Proof.
  intros Hnav r. unfold r, getDateRange. rewrite Hnav. cbn [start end_].
  replace (getDate t - getDay t) with (getDate t + - getDay t) by lia.
  rewrite setDate_shift.
  set (s := setHours (t + - getDay t * msPerDay) 0 0 0 0).
  rewrite (setDate_shift s 6).
  destruct (Day_decompose t) as [Ht Htod].
  pose proof (WeekDay_range t) as Hw.
  assert (Hs : s = (Day t - getDay t) * msPerDay).
  { unfold s, setHours, MakeDate, MakeTime. unfold Day at 1.
    replace (t + - getDay t * msPerDay) with (TimeWithinDay t + (Day t - getDay t) * msPerDay) by lia.
    rewrite Z.div_add by (unfold msPerDay; lia).
    rewrite Z.div_small by assumption. lia. }
  assert (Hds : Day s = Day t - getDay t).
  { rewrite Hs. unfold Day. apply Z.div_mul. unfold msPerDay; lia. }
  assert (He : setHours (s + 6 * msPerDay) 23 59 59 999
               = MakeDate (Day t - getDay t + 6) (MakeTime 23 59 59 999)).
  { unfold setHours. f_equal. rewrite Hs. unfold Day.
    rewrite <- Z.mul_add_distr_r. apply Z.div_mul. unfold msPerDay; lia. }
  rewrite He.
  assert (Hlate : 0 <= MakeTime 23 59 59 999 < msPerDay) by (vm_compute; split; congruence).
  repeat split.
  - unfold getDay, WeekDay in *. rewrite Hds. div_lia.
  - rewrite Hs. unfold TimeWithinDay. rewrite Z.mod_mul by (unfold msPerDay; lia). reflexivity.
  - unfold getDay, WeekDay in *. rewrite Day_MakeDate by assumption. div_lia.
  - now apply TimeWithinDay_MakeDate.
  - rewrite Day_MakeDate by assumption. lia.
  - rewrite Hs. unfold MakeDate, MakeTime, msPerDay, msPerHour, msPerMinute, msPerSecond. lia.
  - rewrite Hs. unfold getDay, msPerDay in *. lia.
  - unfold getDay, MakeDate, MakeTime, msPerDay, msPerHour, msPerMinute, msPerSecond in *. lia.
Qed.

(** Month navigation: the window of [getDateRange] starts on the first day
    of the reference date's month and ends on its last day, both at
    00:00:00.000; the reference date is not before the start and is before
    the day after the end. *)
Lemma getDateRange_month ct t :
  navigationType ct = month ->
  ~ (0 <= getFullYear t <= 99) ->
  let r := getDateRange ct t in
  (getFullYear (start r) = getFullYear t /\ getMonth (start r) = getMonth t /\
   getDate (start r) = 1 /\ TimeWithinDay (start r) = 0) /\
  (getFullYear (end_ r) = getFullYear t /\ getMonth (end_ r) = getMonth t /\
   getDate (end_ r + msPerDay) = 1 /\ TimeWithinDay (end_ r) = 0) /\
  start r <= t < end_ r + msPerDay.
Proof.
  intros Hnav Hyr r. unfold r, getDateRange. rewrite Hnav. cbn [start end_].
  unfold newDate, getFullYear, getMonth, getDate in *.
  set (y := YearFromTime t) in *.
  destruct (MonthFromTime_spec t) as [Hm Hdwy].
  set (m := MonthFromTime t) in *.
  replace ((0 <=? y) && (y <=? 99)) with false
    by (symmetry; apply andb_false_iff; destruct (Z.leb_spec 0 y); destruct (Z.leb_spec y 99); auto; lia).
  change (MakeTime 0 0 0 0) with 0.
  destruct (DaysInYear_cases y) as [Hdiy Hl].
  pose proof (MonthStart_step m (LeapOfYear y) Hm Hl) as Hstep.
  assert (Hzero : 0 <= 0 < msPerDay) by (unfold msPerDay; lia).
  (* the last day of the month, as [MakeDay] finds it from month [m + 1] *)
  assert (Hlast : MakeDay y (m + 1) 0
                  = MakeDay y m (MonthStart (m + 1) (LeapOfYear y) - MonthStart m (LeapOfYear y))).
  { rewrite (MakeDay_month y m) by assumption.
    assert (m = 11 \/ m <= 10) as [-> | Hle] by lia.
    - unfold MakeDay. change ((11 + 1) / 12) with 1. change ((11 + 1) mod 12) with 0.
      rewrite DayFromYear_succ. simpl MonthStart. lia.
    - rewrite MakeDay_month by lia. lia. }
  rewrite Hlast.
  destruct (civil_of_MakeDate y m 1 0 Hm ltac:(lia) Hzero) as (HY1 & HM1 & HD1 & HT1).
  destruct (civil_of_MakeDate y m (MonthStart (m + 1) (LeapOfYear y) - MonthStart m (LeapOfYear y))
              0 Hm ltac:(lia) Hzero) as (HY2 & HM2 & HD2 & HT2).
  split; [auto|]. split.
  - repeat split; try assumption.
    (* the day after the end is the first of a month *)
    set (e := MakeDate (MakeDay y m (MonthStart (m + 1) (LeapOfYear y) - MonthStart m (LeapOfYear y))) 0) in *.
    assert (He : e + msPerDay = MakeDate (MakeDay y (m + 1) 1) 0).
    { unfold e. rewrite <- Hlast. unfold MakeDate, MakeDay. lia. }
    rewrite He. rewrite MakeDay_carry.
    assert (Hr : 0 <= (m + 1) mod 12 <= 11) by div_lia.
    destruct (DaysInYear_cases (y + (m + 1) / 12)) as [_ Hl'].
    pose proof (MonthStart_step _ _ Hr Hl').
    apply (civil_of_MakeDate (y + (m + 1) / 12) ((m + 1) mod 12) 1 0 Hr ltac:(lia) Hzero).
  - rewrite !MakeDay_month by assumption.
    unfold DayWithinYear, InLeapYear in Hdwy. fold y in Hdwy.
    destruct (Day_decompose t) as [Ht Htod].
    unfold MakeDate. unfold msPerDay in *. lia.
Qed.

(** In the month window the reference date is not after the end exactly
    when it lies before the last day of its month or at 00:00:00.000 of
    that day. *)
Lemma getDateRange_month_contains ct t :
  navigationType ct = month ->
  ~ (0 <= getFullYear t <= 99) ->
  let r := getDateRange ct t in
  t <= end_ r <-> Day t < Day (end_ r) \/ TimeWithinDay t = 0.
Proof.
  intros Hnav Hyr r.
  destruct (getDateRange_month ct t Hnav Hyr) as (_ & (_ & _ & _ & Hmid) & Hin).
  fold r in Hmid, Hin.
  destruct (Day_decompose t) as [Ht Htod].
  destruct (Day_decompose (end_ r)) as [He _]. rewrite Hmid in He.
  unfold msPerDay in *. lia.
Qed.

(** C2, evaluated where it fails: with month navigation and the reference
    date 31 May 2025, 12:00, the returned end is 31 May 2025 at 00:00:00.000,
    which is before the reference date (the week window, by contrast, ends
    at 23:59:59.999 of its last day). *)
Theorem getDateRange_month_end_before_reference :
  let ref := newDateTime 2025 4 31 12 0 in
  let r := getDateRange "mood" ref in
  (getFullYear (end_ r), getMonth (end_ r), getDate (end_ r)) = (2025, 4, 31) /\
  TimeWithinDay (end_ r) = 0 /\
  start r <= ref /\
  end_ r < ref.
Proof. vm_compute. repeat split; discriminate. Qed.

(** *** The rolling three-month window *)

(** The two ends of the data span. *)
Lemma data_span_dates :
  (getFullYear dataStartDate, getMonth dataStartDate, getDate dataStartDate) = (2024, 6, 1) /\
  (getFullYear dataEndDate, getMonth dataEndDate, getDate dataEndDate) = (2025, 6, 31) /\
  TimeWithinDay dataStartDate = 0 /\ TimeWithinDay dataEndDate = 0.
Proof. vm_compute. auto. Qed.

(** 1 January 2026 is where the default reference date of a week chart
    stands after 35 clicks on "next". *)
Lemma navigate_to_2026 : navigate "sleep" (repeat true 35) initialDate = newDate 2026 0 1.
Proof. vm_compute. reflexivity. Qed.

(** C1, as stated, fails: from the reference date 1 January 2026 the
    returned start is 1 October 2025, after the end of the data span and
    after the returned end (31 July 2025). *)
Lemma getThreeMonthRange_leaves_span :
  let r := getThreeMonthRange (newDate 2026 0 1) in
  ~ (dataStartDate <= start r <= dataEndDate /\
     dataStartDate <= end_ r <= dataEndDate /\
     start r <= end_ r).
Proof. vm_compute. intros [[_ H] _]. apply H. reflexivity. Qed.

(** C1 (amended): for every reference date the returned start is the later
    of the date three months back and 1 July 2024, and the returned end is
    the earlier of the reference date and 31 July 2025; so the start is
    never before 1 July 2024 and the end never after 31 July 2025.  Start and
    end both lie within the data span, and start <= end, exactly when the
    reference date is not before 1 July 2024 and the date three months back
    is not after 31 July 2025; this is so whenever the reference date lies
    within the data span. *)
Theorem getThreeMonthRange_clamped ref :
  let r := getThreeMonthRange ref in
  let threeMonthsBack := setMonth ref (getMonth ref - 3) in
  start r = Z.max threeMonthsBack dataStartDate /\
  end_ r = Z.min ref dataEndDate /\
  dataStartDate <= start r /\
  end_ r <= dataEndDate /\
  (start r <= end_ r <-> dataStartDate <= ref /\ threeMonthsBack <= dataEndDate) /\
  (dataStartDate <= start r <= dataEndDate /\ dataStartDate <= end_ r <= dataEndDate
   <-> dataStartDate <= ref /\ threeMonthsBack <= dataEndDate) /\
  (dataStartDate <= ref <= dataEndDate ->
   dataStartDate <= start r <= dataEndDate /\
   dataStartDate <= end_ r <= dataEndDate /\
   start r <= end_ r).
Proof.
  intros r threeMonthsBack. unfold r, getThreeMonthRange. cbn [start end_].
  pose proof (setMonth_back_le ref 3 ltac:(lia)) as Hback. fold threeMonthsBack in Hback |- *.
  assert (Hspan : dataStartDate <= dataEndDate) by (vm_compute; discriminate).
  destruct (Z.ltb_spec threeMonthsBack dataStartDate);
    destruct (Z.gtb_spec ref dataEndDate); lia.
Qed.

Lemma getThreeMonthRange_clamped_witness :
  dataStartDate <= initialDate <= dataEndDate /\
  let r := getThreeMonthRange initialDate in
  dataStartDate <= start r <= dataEndDate /\
  dataStartDate <= end_ r <= dataEndDate /\
  start r <= end_ r.
Proof.
  assert (H : dataStartDate <= initialDate <= dataEndDate)
    by (split; vm_compute; discriminate).
  split; [exact H|].
  exact (proj2 (proj2 (proj2 (proj2 (proj2 (proj2 (getThreeMonthRange_clamped initialDate)))))) H).
Defined.

(** *** Previous and next *)

Lemma goToPrevious_week ct t : navigationType ct = week -> goToPrevious ct t = t - 7 * msPerDay.
Proof.
  intros H. unfold goToPrevious. rewrite H.
  replace (getDate t - 7) with (getDate t + -7) by lia. rewrite setDate_shift. lia.
Qed.

Lemma goToNext_week ct t : navigationType ct = week -> goToNext ct t = t + 7 * msPerDay.
Proof. intros H. unfold goToNext. rewrite H. apply setDate_shift. Qed.


Lemma goToPrevious_month ct t :
  navigationType ct = month -> goToPrevious ct t = setMonth t (getMonth t - 1).
Proof. intros H. unfold goToPrevious. now rewrite H. Qed.

Lemma goToNext_month ct t :
  navigationType ct = month -> goToNext ct t = setMonth t (getMonth t + 1).
Proof. intros H. unfold goToNext. now rewrite H. Qed.


(** A move of one month from a day that every month has. *)
Lemma setMonth_one_month t k :
  getDate t <= 28 ->
  monthIndex (setMonth t (getMonth t + k)) = monthIndex t + k /\
  getDate (setMonth t (getMonth t + k)) = getDate t /\
  TimeWithinDay (setMonth t (getMonth t + k)) = TimeWithinDay t.
Proof.
  intros Hd.
  destruct (setMonth_civil t (getMonth t + k) Hd) as (HY & HM & HD & HT).
  unfold monthIndex, getFullYear, getMonth, getDate in *.
  rewrite HY, HM, monthIndex_carry. repeat split; try assumption; lia.
Qed.


(** Month navigation from the default reference date stays on the first
    of a month at 00:00:00.000, whatever buttons are clicked. *)
Lemma navigate_month_from_default clicks :
  let t := navigate "mood" clicks initialDate in
  getDate t = 1 /\ TimeWithinDay t = 0.
Proof.
  unfold navigate.
  assert (Hinit : getDate initialDate = 1 /\ TimeWithinDay initialDate = 0)
    by (vm_compute; auto).
  revert Hinit. generalize initialDate as t0.
  induction clicks as [|next clicks IH]; intros t0 [Hd Ht]; [now split|].
  cbn [fold_left]. apply IH.
  assert (Hle : DateFromTime t0 <= 28) by (unfold getDate in Hd; lia).
  unfold goToNext, goToPrevious.
  change (navigationType "mood") with month. cbv iota zeta.
  destruct next;
    [destruct (setMonth_civil t0 (getMonth t0 + 1) Hle) as (_ & _ & HD & HT)
    |destruct (setMonth_civil t0 (getMonth t0 - 1) Hle) as (_ & _ & HD & HT)];
    unfold getDate in *; split; congruence.
Qed.

End NavFacts.

(** ** Objects *)

Section ObjectFacts.
Import JS.
Context {V : Type}.
Implicit Types (o : object V) (k : string) (v : V).

Lemma prop_set_fresh o k v : k ∉ keys o -> prop_set o k v = o ++ [(k, v)].
Proof.
  induction o as [|[k' v'] o IH]; intros Hk; simpl; [reflexivity|].
  simpl in Hk. apply not_elem_of_cons in Hk as [Hne Hk].
  destruct (String.eqb_spec k' k); [congruence|]. now rewrite IH.
Qed.

Lemma prop_get_fresh o k : k ∉ keys o -> prop_get o k = None.
Proof.
  induction o as [|[k' v'] o IH]; intros Hk; simpl; [reflexivity|].
  simpl in Hk. apply not_elem_of_cons in Hk as [Hne Hk].
  destruct (String.eqb_spec k' k); [congruence|]. now apply IH.
Qed.

Lemma prop_get_app_fresh o o' k : k ∉ keys o -> prop_get (o ++ o') k = prop_get o' k.
Proof.
  induction o as [|[k' v'] o IH]; intros Hk; simpl; [reflexivity|].
  simpl in Hk. apply not_elem_of_cons in Hk as [Hne Hk].
  destruct (String.eqb_spec k' k); [congruence|]. now apply IH.
Qed.


Lemma keys_app o o' : keys (o ++ o') = keys o ++ keys o'.
Proof. apply map_app. Qed.

End ObjectFacts.

Section JSListFacts.
Import JS.

Lemma length_gt_0_nonempty {A} (v : option (value A)) :
  truthy v && length_gt_0 v = true <-> nonempty_array v.
Proof.
  split.
  - destruct v as [[| |[|x items]]|]; simpl; try discriminate. intros _. now exists x, items.
  - intros (x & items & ->). reflexivity.
Qed.





End JSListFacts.

(** ** The visualization registry *)

Section RegistryFacts.
Import JS Visualizations.
Context {Cfg : Type} (VISUALIZATION_CONFIG : string -> Cfg) {A : Type}.

Lemma keys_allVisualizations :
  keys (allVisualizations VISUALIZATION_CONFIG)
  = ["pain"; "bloodPressure"; "glucose"; "exercise"; "mealContents"; "mood"; "sleep"].
Proof. reflexivity. Qed.

Lemma NoDup_keys_allVisualizations : NoDup (keys (allVisualizations VISUALIZATION_CONFIG)).
Proof. rewrite keys_allVisualizations. apply (bool_decide_unpack _). vm_compute. exact I. Qed.

Lemma addIfAvailable_passesTest (d : data_object A) acc key viz :
  addIfAvailable (Cfg := Cfg) d acc (key, viz)
  = if passesTest d key then prop_set acc key viz else acc.
Proof.
  unfold addIfAvailable, passesTest.
  destruct (String.eqb key "mealContents" && truthy (d !! "mealData")
            && length_gt_0 (d !! "mealData")); [reflexivity|].
  now destruct (truthy (d !! (key +:+ "Data")) && length_gt_0 (d !! (key +:+ "Data"))).
Qed.

(** The [reduce] over entries with distinct keys keeps, in order, the
    entries whose key passes the test. *)
Lemma fold_addIfAvailable (d : data_object A) (es acc : object (visualization Cfg)) :
  NoDup (keys acc ++ keys es) ->
  fold_left (addIfAvailable d) es acc
  = acc ++ List.filter (fun kv => passesTest d kv.1) es.
Proof.
  revert acc. induction es as [|[key viz] es IH]; intros acc Hnd; cbn [fold_left List.filter].
  - now rewrite app_nil_r.
  - rewrite addIfAvailable_passesTest. cbn [fst].
    simpl in Hnd. apply NoDup_app in Hnd as (Hacc & Hdisj & Hes).
    apply NoDup_cons in Hes as [Hkey Hes].
    assert (Hfresh : key ∉ keys acc).
    { intros Hin. apply (Hdisj key Hin). left. }
    destruct (passesTest d key).
    + rewrite prop_set_fresh by assumption.
      rewrite IH.
      * now rewrite <- app_assoc.
      * rewrite keys_app. simpl. rewrite <- app_assoc. simpl.
        apply NoDup_app. split; [assumption|]. split.
        -- intros x Hx. apply Hdisj. exact Hx.
        -- now apply NoDup_cons.
    + apply IH. apply NoDup_app. split; [assumption|]. split; [|assumption].
      intros x Hx Hx'. apply (Hdisj x Hx). now right.
Qed.

Lemma availableVisualizations_filter (d : data_object A) :
  availableVisualizations VISUALIZATION_CONFIG (Some d)
  = List.filter (fun kv => passesTest d kv.1) (allVisualizations VISUALIZATION_CONFIG).
Proof.
  unfold availableVisualizations, entries.
  rewrite fold_addIfAvailable; [reflexivity|].
  simpl app. apply NoDup_keys_allVisualizations.
Qed.

Lemma elem_of_keys_filter {V} (f : string -> bool) (o : object V) key :
  key ∈ keys (List.filter (fun kv => f kv.1) o) <-> key ∈ keys o /\ f key = true.
Proof.
  unfold keys. induction o as [|[k v] o IH]; simpl.
  - split; [intros H | intros [H _]]; inversion H.
  - destruct (f k) eqn:Hf; simpl; rewrite ?elem_of_cons, IH; split.
    + intros [-> | [? ?]]; auto.
    + intros [[-> | ?] ?]; auto.
    + intros [? ?]; auto.
    + intros [[-> | ?] ?]; [congruence | auto].
Qed.


Lemma passesTest_spec (d : data_object A) key :
  passesTest d key = true <->
  nonempty_array (d !! (key +:+ "Data")) \/
  (key = "mealContents" /\ nonempty_array (d !! "mealData")).
Proof.
  unfold passesTest. rewrite orb_true_iff, <- andb_assoc, andb_true_iff.
  rewrite !length_gt_0_nonempty, String.eqb_eq. tauto.
Qed.

Example chartId_physician_12 : chartId "physician" 12 = "physician-chart-12".
Proof. vm_compute. reflexivity. Qed.

Lemma chartId_inj viewMode : Inj (=) (=) (chartId viewMode).
Proof.
  intros i j H. unfold chartId in H.
  apply String.app_inj in H. apply String.app_inj in H. now apply pretty_nat_inj in H.
Qed.

Lemma chartId_fresh viewMode n : chartId viewMode n ∉ map (chartId viewMode) (seq 0 n).
Proof.
  intros Hin. apply list_elem_of_fmap in Hin as (j & Heq & Hj).
  apply chartId_inj in Heq. subst j. apply elem_of_seq in Hj. lia.
Qed.

(** The [reduce] of [selectedVisualizations], from position [length pre]
    on: every chart id is new, so each step adds one property at the end. *)
Lemma selected_reduce viewMode (ks pre : list string) (acc : object (option string)) :
  keys acc = map (chartId viewMode) (seq 0 (length pre)) ->
  reduce_from (fun acc chartId index => prop_set acc chartId ((pre ++ ks) !! index))
              (map_from (fun _ index => chartId viewMode index) ks (length pre))
              (length pre) acc
  = acc ++ map_from (fun k index => (chartId viewMode index, Some k)) ks (length pre).
Proof.
  revert pre acc. induction ks as [|k ks IH]; intros pre acc Hacc; simpl.
  - now rewrite app_nil_r.
  - rewrite prop_set_fresh by (rewrite Hacc; apply chartId_fresh).
    rewrite list_lookup_middle by reflexivity.
    specialize (IH (pre ++ [k]) (acc ++ [(chartId viewMode (length pre), Some k)])).
    replace (length (pre ++ [k])) with (S (length pre)) in IH
      by (rewrite length_app; simpl; lia).
    replace ((pre ++ [k]) ++ ks) with (pre ++ k :: ks) in IH
      by (now rewrite <- app_assoc).
    rewrite IH.
    + now rewrite <- app_assoc.
    + rewrite keys_app, Hacc, seq_S, map_app. reflexivity.
Qed.

(** C4 (amended): the set of available visualizations is empty when the
    data object is null; otherwise it contains a key exactly when the key is
    in the registry and either data[key + 'Data'] is a non-empty array or
    the key is 'mealContents' and data.mealData is a non-empty array.  So
    for 'mealContents' two arrays are checked, data.mealData and then
    data.mealContentsData; on a data object whose mealContentsData is not a
    non-empty array the array checked for 'mealContents' is data.mealData
    alone. *)
Theorem availableVisualizations_spec (data : option (data_object A)) (key : string) :
  availableVisualizations VISUALIZATION_CONFIG (A := A) None = [] /\
  (key ∈ keys (availableVisualizations VISUALIZATION_CONFIG data) <->
   key ∈ keys (allVisualizations VISUALIZATION_CONFIG) /\
   exists d, data = Some d /\
     (nonempty_array (d !! (key +:+ "Data")) \/
      (key = "mealContents" /\ nonempty_array (d !! "mealData")))) /\
  (forall d, data = Some d -> ~ nonempty_array (d !! "mealContentsData") ->
   (key ∈ keys (availableVisualizations VISUALIZATION_CONFIG data) <->
    key ∈ keys (allVisualizations VISUALIZATION_CONFIG) /\
    nonempty_array (d !! dataArrayFor key))).
Proof.
  split; [reflexivity|].
  assert (Hiff : forall d : data_object A, key ∈ keys (availableVisualizations VISUALIZATION_CONFIG (Some d)) <->
                 key ∈ keys (allVisualizations VISUALIZATION_CONFIG) /\
                 (nonempty_array (d !! (key +:+ "Data")) \/
                  (key = "mealContents" /\ nonempty_array (d !! "mealData")))).
  { intros d. rewrite availableVisualizations_filter, elem_of_keys_filter, passesTest_spec.
    reflexivity. }
  split.
  - destruct data as [d|].
    + rewrite Hiff. split.
      * intros [Hk Hd]. split; [assumption|]. now exists d.
      * intros [Hk (d' & [= <-] & Hd)]. now split.
    + split.
      * intros H. inversion H.
      * intros [_ (d & Hd & _)]. discriminate Hd.
  - intros d -> Hno. rewrite Hiff. unfold dataArrayFor.
    destruct (String.eqb_spec key "mealContents") as [-> | Hne].
    + change ("mealContents" +:+ "Data") with "mealContentsData". tauto.
    + tauto.
Qed.


End RegistryFacts.

(** C4, as stated, fails: a data object whose only property is a non-empty
    mealContentsData makes 'mealContents' available although its mealData
    is not a non-empty array (it is undefined). *)
Lemma availableVisualizations_mealContentsData :
  let d : JS.data_object unit := {[ "mealContentsData" := JS.VArray [()] ]} in
  ~ ("mealContents" ∈ JS.keys (Visualizations.availableVisualizations (fun _ => ()) (Some d)) <->
     JS.nonempty_array (d !! Visualizations.dataArrayFor "mealContents")).
Proof.
  intros d [Hin _].
  assert (H : JS.nonempty_array (d !! Visualizations.dataArrayFor "mealContents")).
  { apply Hin. vm_compute. left. }
  destruct H as (x & items & H). vm_compute in H. discriminate H.
Qed.

Lemma availableVisualizations_spec_witness :
  let d : JS.data_object nat := {[ "mealData" := JS.VArray [1; 2]%nat ]} in
  "mealContents" ∈ JS.keys (Visualizations.availableVisualizations (fun _ => ()) (Some d)).
Proof.
  intros d.
  apply (proj2 (proj2 (availableVisualizations_spec (fun _ => ()) (Some d) "mealContents"))
           d eq_refl).
  - intros (x & items & H). vm_compute in H. discriminate H.
  - split.
    + vm_compute. do 4 right. left.
    + exists 1%nat, [2%nat]. vm_compute. reflexivity.
Defined.

(** ** Expanding charts and rendering *)

Section HelperFacts.
Import JS Visualizations Helpers.

Lemma isExpanded_true s itemId : isExpanded s itemId = true <-> s = Some itemId.
Proof. unfold isExpanded. apply bool_decide_eq_true. Qed.

(** C5: at most one chart id is expanded in any state (so also after any
    sequence of handleExpand calls from the initial null); handleExpand with
    the expanded id collapses it, with any other id makes that id the
    expanded one; two calls in a row with the same id leave no item expanded
    exactly when the first call expanded it, and put the state of that id
    back to what it was before the first call, each single call having
    flipped it. *)
Theorem handleExpand_toggle (s : expanded) (itemId : string) :
  (forall a b, isExpanded s a = true -> isExpanded s b = true -> a = b) /\
  (forall itemIds a b,
      isExpanded (expandAll itemIds None) a = true ->
      isExpanded (expandAll itemIds None) b = true -> a = b) /\
  (s = Some itemId -> handleExpand itemId s = None) /\
  (s <> Some itemId -> handleExpand itemId s = Some itemId) /\
  (handleExpand itemId (handleExpand itemId s) = None <-> handleExpand itemId s = Some itemId) /\
  isExpanded (handleExpand itemId s) itemId = negb (isExpanded s itemId) /\
  isExpanded (handleExpand itemId (handleExpand itemId s)) itemId = isExpanded s itemId.
Proof.
  assert (Hone : forall (s : expanded) a b,
             isExpanded s a = true -> isExpanded s b = true -> a = b).
  { intros s' a b Ha Hb. apply isExpanded_true in Ha, Hb. congruence. }
  split; [apply Hone|]. split; [intros itemIds; apply Hone|].
  unfold handleExpand, isExpanded.
  repeat split; intros; repeat case_bool_decide; simpl; congruence.
Qed.

Lemma handleExpand_toggle_witness :
  handleExpand "patient-chart-0" (Some "patient-chart-0") = None /\
  handleExpand "patient-chart-1" (Some "patient-chart-0") = Some "patient-chart-1".
Proof.
  split.
  - destruct (handleExpand_toggle (Some "patient-chart-0") "patient-chart-0")
      as (_ & _ & Hsame & _).
    apply Hsame. reflexivity.
  - destruct (handleExpand_toggle (Some "patient-chart-0") "patient-chart-1")
      as (_ & _ & _ & Hother & _).
    apply Hother. intros H. discriminate H.
Defined.

Lemma get_own {V} (o : object V) k v : prop_get o k = Some v -> get o k = Own v.
Proof. unfold get. now intros ->. Qed.

Lemma get_cases {V} (o : object V) k :
  (exists v, prop_get o k = Some v /\ get o k = Own v) \/
  ((k ∉ keys o) /\ k ∈ objectPrototype /\ get o k = Inherited) \/
  ((k ∉ keys o) /\ (k ∉ objectPrototype) /\ get o k = Undefined).
Proof.
  unfold get. destruct (prop_get o k) as [v|] eqn:Hget; [left; now exists v|].
  assert (Hout : k ∉ keys o).
  { intros Hin. unfold keys in Hin. apply list_elem_of_fmap in Hin as ([k' v] & -> & Hin).
    induction o as [|[k'' v'] o IH]; [inversion Hin|]. simpl in Hget.
    destruct (String.eqb_spec k'' k') as [-> | Hne]; [discriminate Hget|].
    apply elem_of_cons in Hin as [[= -> ->] | Hin]; [congruence | now apply IH]. }
  right. case_bool_decide; [left | right]; now repeat split.
Qed.

(** The decision of the two render functions on every input: the
    'select-patient' placeholder without a patient id; with one, the chart
    of a registered visualization type, the 'Invalid visualization'
    placeholder for a type that is neither registered nor a property name
    inherited from Object.prototype, and for an inherited name an element
    whose component is undefined.  So a placeholder is returned exactly when
    the patient id is absent or the type is neither registered nor
    inherited. *)
Lemma renderVisualization_cases {Cfg : Type}
    (patientId : option string) (selectedPatientId : string)
    (allVisualizations : object (visualization Cfg)) (expandedItem : expanded)
    (visualizationType itemId : string) :
  let rendered := renderVisualization patientId allVisualizations expandedItem
                                      visualizationType itemId in
  let physician := renderVisualizationWithMode selectedPatientId allVisualizations
                                               expandedItem visualizationType itemId in
  (absent patientId = true ->
   rendered = Placeholder "Please select a patient to view data." "select-patient") /\
  (selectedPatientId = "" ->
   physician = Placeholder "Please select a patient to view data." "select-patient") /\
  (absent patientId = false ->
   forall viz, prop_get allVisualizations visualizationType = Some viz ->
   rendered = Chart (component viz) patientId (isExpanded expandedItem itemId)
                    itemId "patient" None) /\
  (selectedPatientId <> "" ->
   forall viz, prop_get allVisualizations visualizationType = Some viz ->
   physician = ElementOf (Some (component viz)) (Some selectedPatientId)
                         (isExpanded expandedItem itemId) itemId "physician"
                         (get chartNavigation visualizationType)) /\
  ((visualizationType ∉ keys allVisualizations) -> (visualizationType ∉ objectPrototype) ->
   (absent patientId = false -> rendered = Placeholder "Invalid visualization" "error") /\
   (selectedPatientId <> "" -> physician = Placeholder "Invalid visualization" "error")) /\
  ((visualizationType ∉ keys allVisualizations) -> visualizationType ∈ objectPrototype ->
   (absent patientId = false ->
    rendered = ElementOf None patientId (isExpanded expandedItem itemId) itemId "patient"
                         Undefined) /\
   (selectedPatientId <> "" ->
    physician = ElementOf None (Some selectedPatientId) (isExpanded expandedItem itemId)
                          itemId "physician" (get chartNavigation visualizationType))) /\
  (is_placeholder rendered = true <->
   absent patientId = true \/
   ((visualizationType ∉ keys allVisualizations) /\ (visualizationType ∉ objectPrototype))) /\
  (is_placeholder physician = true <->
   selectedPatientId = "" \/
   ((visualizationType ∉ keys allVisualizations) /\ (visualizationType ∉ objectPrototype))).
Proof.
  intros rendered physician. unfold rendered, physician.
  unfold renderVisualization, renderVisualizationWithMode.
  assert (Habs : absent (Some selectedPatientId) = true <-> selectedPatientId = "").
  { simpl. apply String.eqb_eq. }
  assert (Hpres : selectedPatientId <> "" -> absent (Some selectedPatientId) = false).
  { intros Hne. apply not_true_is_false. intros Ha. apply Hne. now apply Habs. }
  assert (Hkey : forall viz, prop_get allVisualizations visualizationType = Some viz ->
                             visualizationType ∈ keys allVisualizations).
  { intros viz Hviz.
    destruct (get_cases allVisualizations visualizationType)
      as [_ | [(Hout & _) | (Hout & _)]]; try (rewrite prop_get_fresh in Hviz by exact Hout;
                                                 discriminate Hviz).
    destruct (decide (visualizationType ∈ keys allVisualizations)) as [Hin | Hout];
      [exact Hin|]. rewrite prop_get_fresh in Hviz by exact Hout. discriminate Hviz. }
  split; [intros ->; reflexivity|].
  split; [intros Hs; apply Habs in Hs; now rewrite Hs|].
  split; [intros -> viz Hviz; now rewrite (get_own _ _ _ Hviz)|].
  split; [intros Hs viz Hviz; now rewrite (Hpres Hs), (get_own _ _ _ Hviz)|].
  destruct (get_cases allVisualizations visualizationType)
    as [(viz & Hviz & ->) | [(Hout & Hproto & ->) | (Hout & Hproto & ->)]].
  - pose proof (Hkey viz Hviz) as Hin.
    split; [intros Hout; contradiction|]. split; [intros Hout; contradiction|].
    split.
    + destruct (absent patientId); simpl; split; auto; try discriminate.
      intros [Habs' | [Hout _]]; [discriminate Habs' | contradiction].
    + destruct (absent (Some selectedPatientId)) eqn:Ha; simpl; split; auto; try discriminate.
      * intros _. left. now apply Habs.
      * intros [Hs | [Hout _]]; [apply Habs in Hs; congruence | contradiction].
  - split; [intros _ Hno; contradiction|].
    split; [intros _ _; split; [intros ->; reflexivity | intros Hs; now rewrite (Hpres Hs)]|].
    split.
    + destruct (absent patientId); simpl; split; auto; try discriminate.
      intros [Habs' | [_ Hno]]; [discriminate Habs' | contradiction].
    + destruct (absent (Some selectedPatientId)) eqn:Ha; simpl; split; auto; try discriminate.
      * intros _. left. now apply Habs.
      * intros [Hs | [_ Hno]]; [apply Habs in Hs; congruence | contradiction].
  - split; [intros _ _; split; [intros ->; reflexivity | intros Hs; now rewrite (Hpres Hs)]|].
    split; [intros _ Hyes; contradiction|].
    split.
    + destruct (absent patientId); simpl; split; auto.
    + destruct (absent (Some selectedPatientId)) eqn:Ha; simpl; split; auto.
Qed.

(** C6: the claim fails for a visualization type that is a property name
    every object inherits, such as 'constructor'.  It is not in the
    registry, yet with a patient selected renderVisualization does not
    return the 'Invalid visualization' placeholder: the lookup in the
    registry finds the inherited function, the test for a missing entry does
    not fire, and the element returned has an undefined component.
    renderVisualizationWithMode of the physician dashboard does the same,
    and hands the inherited value on as navigation. *)
Theorem renderVisualization_inherited_key {Cfg : Type} (VISUALIZATION_CONFIG : string -> Cfg) :
  let all := allVisualizations VISUALIZATION_CONFIG in
  ("constructor" ∉ keys all) /\
  renderVisualization (Some "Patient_001") all None "constructor" "patient-chart-0"
  = ElementOf None (Some "Patient_001") false "patient-chart-0" "patient" Undefined /\
  renderVisualization (Some "Patient_001") all None "constructor" "patient-chart-0"
  <> Placeholder "Invalid visualization" "error" /\
  renderVisualizationWithMode "Patient_001" all None "constructor" "physician-chart-0"
  = ElementOf None (Some "Patient_001") false "physician-chart-0" "physician" Inherited /\
  renderVisualizationWithMode "Patient_001" all None "constructor" "physician-chart-0"
  <> Placeholder "Invalid visualization" "error".
Proof.
  intros all. split.
  - unfold all. rewrite keys_allVisualizations. apply (bool_decide_unpack _). vm_compute. exact I.
  - repeat split; discriminate.
Qed.

End HelperFacts.

(** ** Patient data *)

Section PatientDataFacts.
Import JS PatientData.
Context {A : Type}.
Implicit Types (s : state A) (o : outcome A).

Lemma accessor_spec name s :
  (data s = None \/ (exists d, data s = Some d /\ d !! name = None) ->
   accessor name s = Some (VArray [])) /\
  (forall d, data s = Some d -> d !! name = Some VNull -> accessor name s = Some (VArray [])) /\
  (forall d v, data s = Some d -> d !! name = Some v -> v <> VNull -> accessor name s = Some v) /\
  accessor name s <> None /\
  accessor name s <> Some VNull /\
  (hasItems name s = true <-> nonempty_array (accessor name s)) /\
  (hasItems name s = true <-> exists d, data s = Some d /\ nonempty_array (d !! name)).
Proof.
  unfold hasItems, accessor, or_else.
  split; [|split; [|split; [|split; [|split; [|split]]]]].
  - intros [-> | (d & -> & Hd)]; simpl; [reflexivity|]. now rewrite Hd.
  - intros d -> Hd. simpl. now rewrite Hd.
  - intros d v -> Hd Hv. simpl. rewrite Hd. destruct v; [congruence | reflexivity | reflexivity].
  - destruct (data s ≫= _) as [[| |items]|]; simpl; discriminate.
  - destruct (data s ≫= _) as [[| |items]|]; simpl; discriminate.
  - split.
    + destruct (data s ≫= _) as [[| |[|x items]]|]; simpl; try discriminate.
      intros _. now exists x, items.
    + intros (x & items & ->). reflexivity.
  - split.
    + destruct (data s) as [d|]; simpl; [|discriminate].
      destruct (d !! name) as [[| |[|x items]]|] eqn:Hd; simpl; try discriminate.
      intros _. exists d. split; [reflexivity|]. now exists x, items.
    + intros (d & -> & x & items & Hd). simpl. rewrite Hd. reflexivity.
Qed.

(** C9: each of the seven accessors is the empty array when the data object
    is null or lacks the field (or holds null there), and is never null or
    undefined; when the data object holds an array in the field, the
    accessor is that array; each hasXData flag is true exactly when the
    field of the data object holds a non-empty array, which is exactly when
    the accessor is a non-empty array; hasData is true exactly when the data
    object is non-null. *)
Theorem accessors_spec s :
  Forall (fun '(name, value, flag) =>
            (data s = None \/ (exists d, data s = Some d /\ d !! name = None) ->
             value = Some (VArray [])) /\
            (forall d, data s = Some d -> d !! name = Some VNull -> value = Some (VArray [])) /\
            (forall d v, data s = Some d -> d !! name = Some v -> v <> VNull -> value = Some v) /\
            value <> None /\
            value <> Some VNull /\
            (flag = true <-> nonempty_array value) /\
            (flag = true <-> exists d, data s = Some d /\ nonempty_array (d !! name)))
         (accessors s) /\
  map (fun '(name, _, _) => name) (accessors s)
  = ["glucoseData"; "bloodPressureData"; "exerciseData"; "moodData"; "painData";
     "mealData"; "sleepData"] /\
  (hasData s = true <-> data s <> None).
Proof.
  split; [|split].
  - unfold accessors. repeat constructor; apply accessor_spec.
  - reflexivity.
  - unfold hasData. rewrite bool_decide_eq_true. split.
    + intros [d Hd]. congruence.
    + destruct (data s) as [d|]; [eauto | congruence].
Qed.

Lemma loadData_settle_settled id o s :
  loading s = true -> error s = None -> settled (loadData_settle id o s).
Proof.
  intros Hl He. unfold settled, loadData_settle, loadData_catch.
  destruct o as [patientData | err]; [destruct (validData patientData)|]; simpl; auto.
Qed.

Lemma loadAttempt_settled patientId o s :
  s = initial \/ settled s -> settled (loadAttempt patientId o s).
Proof.
  intros Hs. unfold loadAttempt, useEffect.
  destruct (id_truthy patientId) eqn:Hid; [|simpl; split; auto].
  unfold loadData_begin.
  destruct (alreadyLoaded patientId s) eqn:Hal.
  - destruct Hs as [-> | Hs]; [|exact Hs].
    unfold alreadyLoaded in Hal. simpl in Hal.
    rewrite andb_false_r in Hal. discriminate Hal.
  - rewrite Hid. simpl negb. rewrite orb_false_l.
    destruct patientId as [| |i|n]; simpl; try (split; auto; fail).
    now apply loadData_settle_settled.
Qed.

Lemma sequential_settled s : sequential s -> s = initial \/ settled s.
Proof.
  induction 1 as [|s patientId o _ IH]; [now left|].
  right. now apply loadAttempt_settled.
Qed.

(** An attempt that nothing interrupts is the effect followed at once by
    the settlement of the fetch it started, if it started one. *)
Lemma loadAttempt_as_events s patientId o :
  let m1 := step {| hook := s; pending := [] |} (Effect patientId) in
  loadAttempt patientId o s
  = hook (match pending m1 with
          | [id] => step m1 (Settle id o)
          | _ => m1
          end).
Proof.
  unfold loadAttempt. cbn [step hook pending].
  destruct (useEffect patientId s) as [s' [id|]]; [|reflexivity].
  change (option_list (Some id)) with [id]. cbn [app pending hook step].
  rewrite bool_decide_eq_true_2 by (apply list_elem_of_singleton; reflexivity).
  reflexivity.
Qed.

(** C8 (amended): for every load attempt that runs from its start to its
    completion with no other attempt in between, starting from the initial
    state or from the state left by such attempts: loading is false once the
    attempt completes; when the patient id is absent or not a string, data
    and error are both null; when a fetch is made and fails, or returns a
    value without a patientInfo field, error is the failure message and data
    is null; when it succeeds, data is the fetched object and error is null;
    when the data for the id is already loaded nothing changes; and data and
    error are never both non-null afterwards. *)
Theorem loadAttempt_consistent s patientId o :
  sequential s ->
  let s' := loadAttempt patientId o s in
  loading s' = false /\
  ~ (data s' <> None /\ error s' <> None) /\
  (id_truthy patientId && is_string patientId = false ->
   data s' = None /\ error s' = None) /\
  (id_truthy patientId && is_string patientId = true ->
   if alreadyLoaded patientId s
   then s' = s
   else
     match o with
     | Rejected err => error s' = Some (errorMessage err) /\ data s' = None
     | Resolved patientData =>
         if validData patientData
         then data s' = patientData /\ error s' = None
         else error s' = Some "Invalid data structure received" /\ data s' = None
     end).
Proof.
  intros Hseq s'.
  pose proof (sequential_settled s Hseq) as Hs.
  destruct (loadAttempt_settled patientId o s Hs) as [Hload Hexcl]. fold s' in Hload, Hexcl.
  split; [exact Hload|]. split; [intros [Hd He]; destruct Hexcl; contradiction|].
  assert (Hfresh : alreadyLoaded patientId s = true -> settled s).
  { intros Hal. destruct Hs as [-> | Hs]; [|exact Hs].
    unfold alreadyLoaded in Hal. simpl in Hal. rewrite andb_false_r in Hal. discriminate Hal. }
  unfold s', loadAttempt, useEffect, loadData_begin.
  split.
  - intros Hbad. destruct (id_truthy patientId) eqn:Hid; [|simpl; auto].
    simpl in Hbad. destruct (alreadyLoaded patientId s) eqn:Hal.
    + unfold alreadyLoaded in Hal. destruct patientId; simpl in *; try discriminate.
    + rewrite Hbad. simpl. auto.
  - intros Hok. apply andb_true_iff in Hok as [Hid Hstr]. rewrite Hid, Hstr.
    destruct (alreadyLoaded patientId s); [reflexivity|].
    destruct patientId as [| |i|n]; try discriminate Hstr. simpl.
    unfold loadData_settle, loadData_catch.
    destruct o as [patientData | err]; [destruct (validData patientData)|]; simpl; auto.
Qed.

End PatientDataFacts.

Lemma accessors_spec_witness :
  let d : JS.data_object nat :=
    {[ "patientInfo" := JS.VObject; "glucoseData" := JS.VArray [5; 7]; "sleepData" := JS.VArray [] ]} in
  let s := PatientData.loadAttempt (PatientData.IdString "Patient_001")
             (PatientData.Resolved (Some d)) PatientData.initial in
  PatientData.glucoseData s = Some (JS.VArray [5; 7]) /\
  PatientData.hasGlucoseData s = true /\
  PatientData.painData s = Some (JS.VArray []).
Proof.
  intros d s.
  destruct (accessors_spec s) as [Hall _].
  pose proof (Forall_inv Hall) as (_ & _ & Hstored & _ & _ & _ & Hflag).
  do 4 apply Forall_inv_tail in Hall. apply Forall_inv in Hall. destruct Hall as (Hempty & _).
  split; [|split].
  - apply (Hstored d); [reflexivity | vm_compute; reflexivity | discriminate].
  - apply Hflag. exists d. split; [reflexivity|]. exists 5, [7]. vm_compute. reflexivity.
  - apply Hempty. right. exists d. split; [reflexivity | vm_compute; reflexivity].
Defined.

Lemma loadAttempt_consistent_witness :
  let d : JS.data_object unit := {[ "patientInfo" := JS.VObject ]} in
  let s' := PatientData.loadAttempt (PatientData.IdString "Patient_001")
              (PatientData.Resolved (Some d)) PatientData.initial in
  PatientData.loading s' = false /\
  PatientData.data s' = Some d /\
  PatientData.error s' = None.
Proof.
  intros d s'.
  destruct (loadAttempt_consistent PatientData.initial (PatientData.IdString "Patient_001")
              (PatientData.Resolved (Some d)) PatientData.sequential_initial)
    as (Hload & _ & _ & Hfetch).
  split; [exact Hload|]. exact (Hfetch eq_refl).
Defined.

(** C8, as stated, fails when attempts overlap.  A fetch for one patient
    is pending, the fetch for the next patient fails, and then the first
    fetch succeeds: that attempt completes with data and error both
    non-null.  And an attempt for a patient whose data is already loaded
    completes at once while another fetch is pending: loading is still
    true. *)
Lemma overlapping_attempts_inconsistent :
  let d : JS.data_object unit := {[ "patientInfo" := JS.VObject ]} in
  let late := PatientData.run
                [ PatientData.Effect (PatientData.IdString "Patient_001");
                  PatientData.Effect (PatientData.IdString "Patient_002");
                  PatientData.Settle "Patient_002"
                    (PatientData.Rejected (PatientData.ErrorObject "Failed to fetch"));
                  PatientData.Settle "Patient_001" (PatientData.Resolved (Some d)) ] in
  let cached := PatientData.run
                  [ PatientData.Effect (PatientData.IdString "Patient_001");
                    PatientData.Settle "Patient_001" (PatientData.Resolved (Some d));
                    PatientData.Effect (PatientData.IdString "Patient_002");
                    PatientData.Effect (PatientData.IdString "Patient_001") ] in
  (PatientData.pending late = [] /\
   PatientData.data (PatientData.hook late) = Some d /\
   PatientData.error (PatientData.hook late) = Some "Failed to fetch" /\
   ~ (PatientData.data (PatientData.hook late) = None \/
      PatientData.error (PatientData.hook late) = None)) /\
  (PatientData.pending cached = ["Patient_002"] /\
   PatientData.loading (PatientData.hook cached) = true).
Proof.
  intros d late cached.
  assert (Hd : PatientData.data (PatientData.hook late) = Some d) by (vm_compute; reflexivity).
  assert (He : PatientData.error (PatientData.hook late) = Some "Failed to fetch")
    by (vm_compute; reflexivity).
  repeat split; try assumption; try (vm_compute; reflexivity).
  rewrite Hd, He. intros [H | H]; discriminate H.
Qed.

(** ** The week summary *)

Section SortFacts.
Import JS Sleep.

Lemma insert_perm {X} (cmp : X -> X -> Z) x xs : insert cmp x xs ≡ₚ x :: xs.
Proof.
  induction xs as [|y xs IH]; simpl; [reflexivity|].
  destruct (cmp x y <=? 0)%Z; [reflexivity|].
  rewrite IH. apply Permutation_swap.
Qed.

Lemma sort_perm {X} (cmp : X -> X -> Z) xs : sort cmp xs ≡ₚ xs.
Proof.
  induction xs as [|x xs IH]; simpl; [reflexivity|].
  unfold sort in *. simpl. rewrite insert_perm. now rewrite IH.
Qed.

(** Sorting by descending count puts an entry of greatest count first. *)
Lemma sort_byCountDescending_head (xs : list (string * nat)) :
  xs <> [] ->
  exists top rest,
    sort byCountDescending xs = top :: rest /\
    top ∈ xs /\
    Forall (fun e => e.2 <= top.2) xs.
Proof.
  induction xs as [|x xs IH]; intros Hne; [congruence|].
  unfold sort in *. simpl.
  destruct xs as [|x' xs'].
  - simpl. exists x, []. repeat split; [left | repeat constructor].
  - destruct IH as (top & rest & Hsort & Hin & Hmax); [congruence|].
    rewrite Hsort. simpl. unfold byCountDescending at 1.
    destruct (Z.leb_spec (Z.of_nat top.2 - Z.of_nat x.2) 0).
    + exists x, (top :: rest). repeat split; [left|].
      constructor; [lia|].
      eapply Forall_impl; [exact Hmax|]. simpl. intros e He. lia.
    + exists top, (insert byCountDescending x rest). repeat split; [now right|].
      constructor; [lia | exact Hmax].
Qed.

End SortFacts.

Section SleepFacts.
Import JS Sleep.
Context {num : Type} `{Number num}.
Implicit Types (weekData : list (sleepRecord num)) (counts : object nat).

Lemma fold_left_hours weekData (z : num) :
  fold_left (fun sum day => num_add sum (hours day)) weekData z
  = fold_left num_add (map hours weekData) z.
Proof. revert z. induction weekData as [|day l IH]; intros z; simpl; [reflexivity | apply IH]. Qed.

Lemma fold_left_eta (xs : list num) (z : num) :
  fold_left (fun sum v => num_add sum v) xs z = fold_left num_add xs z.
Proof. reflexivity. Qed.

(** One more record of quality [q] adds one to the count kept for [q] and
    leaves the other counts; a quality without a count changes nothing. *)
Lemma countQuality_map counts (day : sleepRecord num) :
  NoDup (keys counts) ->
  countQuality counts day
  = map (fun e => (e.1, if String.eqb (quality day) e.1 then S e.2 else e.2)) counts.
Proof.
  unfold countQuality. induction counts as [|[k c] counts IH]; intros Hnd; [reflexivity|].
  simpl in Hnd. apply NoDup_cons in Hnd as [Hk Hnd]. simpl.
  destruct (String.eqb_spec k (quality day)) as [-> | Hne].
  - rewrite String.eqb_refl. f_equal.
    rewrite <- (map_id counts) at 1. apply map_ext_in. intros [k' c'] Hin. simpl.
    destruct (String.eqb_spec (quality day) k') as [<- | _]; [|reflexivity].
    exfalso. apply Hk. apply list_elem_of_In in Hin.
    change (quality day) with ((quality day, c').1). now apply list_elem_of_fmap_2.
  - destruct (String.eqb_spec (quality day) k) as [Heq | _]; [congruence|].
    specialize (IH Hnd).
    destruct (prop_get counts (quality day)) as [c'|].
    + simpl. destruct (String.eqb_spec k (quality day)); [congruence|]. now rewrite IH.
    + now rewrite <- IH.
Qed.

Lemma keys_countQuality counts (day : sleepRecord num) :
  NoDup (keys counts) -> keys (countQuality counts day) = keys counts.
Proof.
  intros Hnd. rewrite countQuality_map by assumption.
  unfold keys. rewrite map_map. reflexivity.
Qed.

(** After the [forEach] every count has grown by the number of records of
    its quality. *)
Lemma fold_countQuality weekData counts :
  NoDup (keys counts) ->
  fold_left countQuality weekData counts
  = map (fun e => (e.1, e.2 + countOf e.1 weekData)) counts.
Proof.
  revert counts. induction weekData as [|day l IH]; intros counts Hnd.
  - simpl. rewrite <- (map_id counts) at 1. apply map_ext. intros [k c]. simpl.
    unfold countOf. simpl. now rewrite Nat.add_0_r.
  - cbn [fold_left]. rewrite IH by (now rewrite keys_countQuality).
    rewrite countQuality_map by assumption. rewrite map_map.
    apply map_ext. intros [k c]. simpl. unfold countOf. simpl.
    destruct (String.eqb (quality day) k); simpl; f_equal; lia.
Qed.

(** C7: for an empty week window the summary is null.  For a non-empty one
    the summary exists and: avgHours is the sum of the records' hours
    divided by the record count, rounded to one decimal; avgVariation is the
    mean of the absolute differences between each record's hours and that
    rounded average, rounded to one decimal; mostCommonQuality is one of
    'Very good', 'Fairly good', 'Fairly bad', 'Very bad' and no other of
    these has more records.  Sum, quotient, absolute value and rounding are
    those of JavaScript numbers, whatever they compute. *)
Theorem weekSummary_spec weekData :
  (weekData = [] -> weekSummary weekData = Null) /\
  (weekData <> [] ->
   exists s,
     weekSummary weekData = Summary s /\
     avgHours s = toFixed1 (mean (map hours weekData)) /\
     avgVariation s
       = toFixed1 (mean (map (fun day => num_abs (num_sub (hours day) (parseFloat (avgHours s))))
                             weekData)) /\
     mostCommonQuality s ∈ ["Very good"; "Fairly good"; "Fairly bad"; "Very bad"] /\
     mostCommonQualityCount s = countOf (mostCommonQuality s) weekData /\
     Forall (fun q => countOf q weekData <= countOf (mostCommonQuality s) weekData)
            ["Very good"; "Fairly good"; "Fairly bad"; "Very bad"]).
Proof.
  split; [intros ->; reflexivity|].
  intros Hne. unfold weekSummary.
  rewrite bool_decide_eq_false_2 by (destruct weekData; [congruence | discriminate]).
  cbv zeta.
  set (counts0 := fold_left (fun counts quality => prop_set counts quality 0%nat)
                            (keys qualityLevels) []).
  assert (Hc0 : counts0 = [("Very good", 0); ("Fairly good", 0); ("Fairly bad", 0); ("Very bad", 0)]%nat)
    by reflexivity.
  assert (Hnd : NoDup (keys counts0)).
  { rewrite Hc0. apply (bool_decide_unpack _). vm_compute. exact I. }
  rewrite (fold_countQuality weekData counts0 Hnd).
  set (counts := map (fun e => (e.1, e.2 + countOf e.1 weekData)) counts0).
  assert (Hcounts : counts = map (fun q => (q, countOf q weekData))
                                 ["Very good"; "Fairly good"; "Fairly bad"; "Very bad"]).
  { unfold counts. rewrite Hc0. reflexivity. }
  destruct (sort_byCountDescending_head counts) as (top & rest & Hsort & Hin & Hmax).
  { rewrite Hcounts. discriminate. }
  unfold entries. rewrite Hsort. cbn [head].
  eexists. split; [reflexivity|]. cbn [avgHours avgVariation mostCommonQuality mostCommonQualityCount].
  rewrite Hcounts in Hin, Hmax.
  apply list_elem_of_fmap in Hin as (q & -> & Hq). cbn [fst snd].
  split; [|split; [|split; [|split]]].
  - unfold mean, sum. now rewrite fold_left_hours, length_map.
  - reflexivity.
  - exact Hq.
  - reflexivity.
  - rewrite Forall_fmap in Hmax. exact Hmax.
Qed.

End SleepFacts.

Section SleepExample.
Import Sleep.

Lemma weekSummary_spec_witness :
  let weekData : list (sleepRecord Q) :=
    [ {| date := 0; hours := 15 # 2; quality := "Very good" |};
      {| date := 1; hours := 6 # 1; quality := "Fairly bad" |};
      {| date := 2; hours := 8 # 1; quality := "Fairly bad" |} ] in
  exists s,
    weekSummary weekData = Summary s /\
    avgHours s = "7.2" /\
    avgVariation s = "0.8" /\
    mostCommonQuality s = "Fairly bad".
Proof.
  intros weekData.
  destruct (proj2 (weekSummary_spec weekData)) as (s & Hs & _); [discriminate|].
  exists s. split; [exact Hs|].
  vm_compute in Hs. injection Hs as <-. repeat split.
Defined.

End SleepExample.

(* ===================================================================== *)
(** * Part III: further properties of the code                            *)
(* ===================================================================== *)

(** ** Windows and navigation *)

(** A closed decidable proposition, by evaluation. *)
Ltac by_compute := apply (bool_decide_unpack _); vm_compute; exact I.

Section WindowFacts.
Import JSDate Nav.
Local Open Scope Z_scope.

(** The week window in closed form: it starts at midnight of the day
    [WeekDay t] days before the day of [t] and ends one millisecond before
    the midnight seven days later. *)
Lemma week_window_formula ct t :
  navigationType ct = week ->
  getDateRange ct t
  = {| start := (Day t - WeekDay t) * msPerDay;
       end_ := (Day t - WeekDay t) * msPerDay + 7 * msPerDay - 1 |}.
Proof.
  intros Hnav. unfold getDateRange. rewrite Hnav.
  replace (getDate t - getDay t) with (getDate t + - getDay t) by lia.
  rewrite setDate_shift.
  set (s := setHours (t + - getDay t * msPerDay) 0 0 0 0).
  rewrite (setDate_shift s 6).
  destruct (Day_decompose t) as [Ht Htod].
  assert (Hs : s = (Day t - WeekDay t) * msPerDay).
  { unfold s, setHours, MakeDate, MakeTime, getDay. unfold Day at 1.
    replace (t + - WeekDay t * msPerDay)
      with (TimeWithinDay t + (Day t - WeekDay t) * msPerDay) by lia.
    rewrite Z.div_add by (unfold msPerDay; lia).
    rewrite Z.div_small by assumption. lia. }
  f_equal; [exact Hs|].
  unfold setHours. rewrite Hs. unfold Day.
  rewrite <- Z.mul_add_distr_r, Z.div_mul by (unfold msPerDay; lia).
  unfold MakeDate, MakeTime, msPerDay, msPerHour, msPerMinute, msPerSecond. lia.
Qed.

(** A date lies in the week window of [t] exactly when it has the same
    Sunday. *)
Lemma in_week_window ct t t' :
  navigationType ct = week ->
  start (getDateRange ct t) <= t' <= end_ (getDateRange ct t)
  <-> Day t' - WeekDay t' = Day t - WeekDay t.
Proof.
  intros Hnav. rewrite week_window_formula by assumption. cbn [start end_].
  unfold WeekDay, Day, msPerDay. div_lia.
Qed.

(** On the local clock: for week navigation, the dates whose window is the
    window of the reference date are exactly the dates inside that window:
    the week windows cut time into weeks, and every date of a week gives the
    same window. *)
Lemma week_window_shared_local ct t t' :
  navigationType ct = week ->
  getDateRange ct t' = getDateRange ct t
  <-> start (getDateRange ct t) <= t' <= end_ (getDateRange ct t).
Proof.
  intros Hnav. rewrite in_week_window by assumption.
  rewrite !week_window_formula by assumption. split.
  - intros H. injection H as H _. unfold msPerDay in H. lia.
  - intros ->. reflexivity.
Qed.

Lemma Day_add_days t k : Day (t + k * msPerDay) = Day t + k.
Proof. unfold Day. rewrite Z.div_add by (unfold msPerDay; lia). reflexivity. Qed.

Lemma WeekDay_add_weeks t k : WeekDay (t + k * (7 * msPerDay)) = WeekDay t.
Proof.
  unfold WeekDay. replace (k * (7 * msPerDay)) with (7 * k * msPerDay) by lia.
  rewrite Day_add_days. div_lia.
Qed.

Lemma TimeWithinDay_add_days t k : TimeWithinDay (t + k * msPerDay) = TimeWithinDay t.
Proof. unfold TimeWithinDay. apply Z.mod_add. unfold msPerDay; lia. Qed.

(** The window of a date moved by whole weeks is the window moved by as
    many weeks. *)
Lemma week_window_add_weeks ct t k :
  navigationType ct = week ->
  getDateRange ct (t + k * (7 * msPerDay))
  = {| start := start (getDateRange ct t) + k * (7 * msPerDay);
       end_ := end_ (getDateRange ct t) + k * (7 * msPerDay) |}.
Proof.
  intros Hnav. rewrite !week_window_formula by assumption. cbn [start end_].
  rewrite WeekDay_add_weeks.
  replace (k * (7 * msPerDay)) with (7 * k * msPerDay) by lia.
  rewrite Day_add_days. f_equal; lia.
Qed.

(** On the local clock: for week navigation, goToNext moves the window
    forward by exactly seven days and goToPrevious moves it back by seven
    days; the window after goToNext starts one millisecond after the end of
    the current one, and the window after goToPrevious ends one millisecond
    before its start: successive windows neither overlap nor leave a gap. *)
Lemma week_windows_adjacent_local ct t :
  navigationType ct = week ->
  let r := getDateRange ct t in
  let next := getDateRange ct (goToNext ct t) in
  let previous := getDateRange ct (goToPrevious ct t) in
  start next = start r + 7 * msPerDay /\
  end_ next = end_ r + 7 * msPerDay /\
  start previous = start r - 7 * msPerDay /\
  end_ previous = end_ r - 7 * msPerDay /\
  start next = end_ r + 1 /\
  end_ previous + 1 = start r.
Proof.
  intros Hnav r next previous. unfold r, next, previous.
  rewrite goToNext_week, goToPrevious_week by assumption.
  replace (t + 7 * msPerDay) with (t + 1 * (7 * msPerDay)) by lia.
  replace (t - 7 * msPerDay) with (t + -1 * (7 * msPerDay)) by lia.
  rewrite !week_window_add_weeks by assumption. cbn [start end_].
  rewrite week_window_formula by assumption. cbn [start end_]. lia.
Qed.

Lemma navigate_cons ct next clicks t :
  navigate ct (next :: clicks) t
  = navigate ct clicks (if next then goToNext ct t else goToPrevious ct t).
Proof. reflexivity. Qed.

Lemma navigate_week ct clicks t :
  navigationType ct = week ->
  navigate ct clicks t = t + balance clicks * (7 * msPerDay).
Proof.
  intros Hnav. revert t. induction clicks as [|next clicks IH]; intros t.
  - simpl. lia.
  - rewrite navigate_cons, IH. cbn [balance fold_right]. fold (balance clicks).
    destruct next; [rewrite goToNext_week | rewrite goToPrevious_week]; try assumption; lia.
Qed.

Lemma balance_replicate (next : bool) (n : nat) :
  balance (replicate n next) = (if next then 1 else -1) * Z.of_nat n.
Proof.
  induction n as [|n IH]; [destruct next; reflexivity|].
  cbn [replicate balance fold_right]. fold (balance (replicate n next)). rewrite IH.
  destruct next; lia.
Qed.

(** On the local clock: for week navigation, the reference date after any
    sequence of clicks is the starting date moved by seven days times
    (clicks on next less clicks on previous): the order of the clicks does
    not matter, the day of the week and the time of day never change, and
    the window moves by the same number of weeks. *)
Lemma week_navigation_closed_form_local ct clicks t :
  navigationType ct = week ->
  let t' := navigate ct clicks t in
  t' = t + balance clicks * (7 * msPerDay) /\
  getDay t' = getDay t /\
  TimeWithinDay t' = TimeWithinDay t /\
  start (getDateRange ct t') = start (getDateRange ct t) + balance clicks * (7 * msPerDay).
Proof.
  intros Hnav t'.
  assert (Hform : t' = t + balance clicks * (7 * msPerDay)) by now apply navigate_week.
  rewrite Hform. split; [reflexivity|]. split; [apply WeekDay_add_weeks|]. split.
  - replace (balance clicks * (7 * msPerDay)) with (7 * balance clicks * msPerDay) by lia.
    apply TimeWithinDay_add_days.
  - rewrite week_window_add_weeks by assumption. reflexivity.
Qed.

Lemma MakeDay_reindex y M b d :
  MakeDay (y + M / 12) (M mod 12 + b) d = MakeDay y (M + b) d.
Proof.
  unfold MakeDay.
  replace (y + M / 12 + (M mod 12 + b) / 12) with (y + (M + b) / 12) by div_lia.
  replace ((M mod 12 + b) mod 12) with ((M + b) mod 12) by div_lia.
  reflexivity.
Qed.

Lemma setMonth_same t : setMonth t (getMonth t) = t.
Proof.
  unfold setMonth, getMonth.
  pose proof (MakeDay_civil t 0) as Hc. rewrite !Z.add_0_r in Hc. rewrite Hc.
  unfold MakeDate. destruct (Day_decompose t) as [Ht _]. lia.
Qed.

(** Two [setMonth] moves in a row from a day that every month has are one
    move by the sum. *)
Lemma setMonth_setMonth t a b :
  DateFromTime t <= 28 ->
  setMonth (setMonth t (getMonth t + a)) (getMonth (setMonth t (getMonth t + a)) + b)
  = setMonth t (getMonth t + (a + b)).
Proof.
  intros Hd.
  destruct (setMonth_civil t (getMonth t + a) Hd) as (HY & HM & HD & HT).
  set (t1 := setMonth t (getMonth t + a)) in *.
  change (setMonth t1 (getMonth t1 + b))
    with (MakeDate (MakeDay (YearFromTime t1) (MonthFromTime t1 + b) (DateFromTime t1))
                   (TimeWithinDay t1)).
  rewrite HY, HM, HD, HT, MakeDay_reindex.
  unfold setMonth. do 2 f_equal. lia.
Qed.

(** On the local clock: for month navigation from a reference date whose day
    of the month is at most 28 (the default reference date is the first of
    May 2025), the reference date after any sequence of clicks is the
    starting date moved by (clicks on next less clicks on previous) months:
    the order of the clicks does not matter, and the day of the month and
    the time of day never change. *)
Lemma month_navigation_closed_form_local ct clicks t :
  navigationType ct = month ->
  getDate t <= 28 ->
  let t' := navigate ct clicks t in
  t' = setMonth t (getMonth t + balance clicks) /\
  getDate t' = getDate t /\
  TimeWithinDay t' = TimeWithinDay t /\
  monthIndex t' = monthIndex t + balance clicks.
Proof.
  intros Hnav Hd t'.
  assert (Hform : t' = setMonth t (getMonth t + balance clicks)).
  { unfold t'. clear t'. revert t Hd. induction clicks as [|next clicks IH]; intros t Hd.
    - simpl. rewrite Z.add_0_r. symmetry. apply setMonth_same.
    - rewrite navigate_cons. cbn [balance fold_right]. fold (balance clicks).
      set (delta := if next then 1 else -1).
      assert (Hstep : (if next then goToNext ct t else goToPrevious ct t)
                      = setMonth t (getMonth t + delta)).
      { unfold delta. destruct next.
        - now apply goToNext_month.
        - rewrite goToPrevious_month by assumption. f_equal. }
      rewrite Hstep.
      destruct (setMonth_civil t (getMonth t + delta) Hd) as (_ & _ & HD & _).
      rewrite IH by (unfold getDate in *; lia).
      now apply setMonth_setMonth. }
  rewrite Hform.
  destruct (setMonth_one_month t (balance clicks) Hd) as (HI & HD & HT).
  repeat split; assumption.
Qed.

(** On the local clock: for month navigation and a reference date outside
    the years 0 to 99, the window of [getDateRange] starts on the first day
    of the reference date's month and ends on its last day, both at
    00:00:00.000; the reference date is never before the start, and it is
    not after the end exactly when it lies before the last day of the month
    or at 00:00:00.000 of that day. *)
Lemma month_window_local ct t :
  navigationType ct = month ->
  ~ (0 <= getFullYear t <= 99) ->
  let r := getDateRange ct t in
  (getFullYear (start r) = getFullYear t /\ getMonth (start r) = getMonth t /\
   getDate (start r) = 1 /\ TimeWithinDay (start r) = 0) /\
  (getFullYear (end_ r) = getFullYear t /\ getMonth (end_ r) = getMonth t /\
   getDate (end_ r + msPerDay) = 1 /\ TimeWithinDay (end_ r) = 0) /\
  start r <= t < end_ r + msPerDay /\
  (t <= end_ r <-> Day t < Day (end_ r) \/ TimeWithinDay t = 0).
Proof.
  intros Hnav Hyr r.
  destruct (getDateRange_month ct t Hnav Hyr) as (Hstart & Hend & Hin).
  pose proof (getDateRange_month_contains ct t Hnav Hyr) as Hiff.
  repeat split; try apply Hstart; try apply Hend; try apply Hin; apply Hiff.
Qed.

(** The window of [getThreeMonthRange] against the date three months
    back. *)
Lemma three_month_range_span ref :
  let back := setMonth ref (getMonth ref - 3) in
  let r := getThreeMonthRange ref in
  TimeWithinDay back = TimeWithinDay ref /\
  89 <= Day ref - Day back <= 92 /\
  back <= start r /\
  end_ r <= ref /\
  end_ r - start r <= 92 * msPerDay.
Proof.
  intros back r.
  destruct (Day_decompose ref) as [Href Htod].
  pose proof (MakeDay_civil ref 0) as Hself. rewrite !Z.add_0_r in Hself.
  destruct (MonthFromTime_spec ref) as [Hm _].
  assert (Hback : back = MakeDate (MakeDay (YearFromTime ref) (MonthFromTime ref - 3)
                                           (DateFromTime ref)) (TimeWithinDay ref))
    by reflexivity.
  assert (Htime : TimeWithinDay back = TimeWithinDay ref)
    by (rewrite Hback; now apply TimeWithinDay_MakeDate).
  assert (Hday : Day back = MakeDay (YearFromTime ref) (MonthFromTime ref - 3) (DateFromTime ref))
    by (rewrite Hback; now apply Day_MakeDate).
  assert (Hspan : 89 <= Day ref - Day back <= 92).
  { rewrite Hday. set (y := YearFromTime ref) in *. set (m := MonthFromTime ref) in *.
    set (d := DateFromTime ref) in *.
    assert (Hcivil : Day ref = DayFromYear y + MonthStart m (LeapOfYear y) + d - 1)
      by (rewrite <- Hself; now apply MakeDay_month).
    rewrite Hcivil, MakeDay_carry, MakeDay_month by div_lia.
    destruct (DaysInYear_cases y) as [_ Hl].
    clearbody m d. clear Hself Hback Hday Hcivil.
    destruct (Z.le_gt_cases 3 m) as [H3 | H3].
    - replace ((m - 3) / 12) with 0 by div_lia.
      replace ((m - 3) mod 12) with (m - 3) by div_lia.
      rewrite Z.add_0_r.
      each_month m; simpl; lia.
    - replace ((m - 3) / 12) with (-1) by div_lia.
      replace ((m - 3) mod 12) with (m + 9) by div_lia.
      replace (y + -1) with (y - 1) by lia.
      rewrite DayFromYear_pred.
      destruct (DaysInYear_cases (y - 1)) as [-> Hl'].
      each_month m; simpl; lia. }
  assert (Hdiff : ref - back = (Day ref - Day back) * msPerDay).
  { destruct (Day_decompose back) as [Hb _]. rewrite Htime in Hb. lia. }
  unfold r, getThreeMonthRange. cbn [start end_]. fold back.
  destruct (Z.ltb_spec back dataStartDate); destruct (Z.gtb_spec ref dataEndDate);
    repeat split; try assumption; try lia; unfold msPerDay in *; lia.
Qed.

End WindowFacts.

(** ** Navigation on time values, in a zone without clock changes

    With an offset that never changes, every method of [Host] is the
    function of [JSDate] moved by the offset, and what holds on the local
    clock holds of the time values. *)

Section HostBridge.
Import JSDate Nav.
Local Open Scope Z_scope.
Context (LocalTZA : Z -> bool -> Z) (c : Z) (Hfixed : Host.fixedOffset LocalTZA c).

Lemma LocalTime_fixed t : Host.LocalTime LocalTZA t = t + c.
Proof. unfold Host.LocalTime. now rewrite Hfixed. Qed.

Lemma UTC_fixed t : Host.UTC LocalTZA t = t - c.
Proof. unfold Host.UTC. now rewrite Hfixed. Qed.

Lemma host_getFullYear tv : Host.getFullYear LocalTZA tv = getFullYear (tv + c).
Proof. unfold Host.getFullYear. now rewrite LocalTime_fixed. Qed.

Lemma host_getMonth tv : Host.getMonth LocalTZA tv = getMonth (tv + c).
Proof. unfold Host.getMonth. now rewrite LocalTime_fixed. Qed.

Lemma host_getDate tv : Host.getDate LocalTZA tv = getDate (tv + c).
Proof. unfold Host.getDate. now rewrite LocalTime_fixed. Qed.

Lemma host_getDay tv : Host.getDay LocalTZA tv = getDay (tv + c).
Proof. unfold Host.getDay. now rewrite LocalTime_fixed. Qed.

Lemma host_timeOfDay tv : Host.timeOfDay LocalTZA tv = TimeWithinDay (tv + c).
Proof. unfold Host.timeOfDay. now rewrite LocalTime_fixed. Qed.

Lemma host_localDay tv : Host.localDay LocalTZA tv = Day (tv + c).
Proof. unfold Host.localDay. now rewrite LocalTime_fixed. Qed.

Lemma host_toDateString tv : Host.toDateString LocalTZA tv = toDateString (tv + c).
Proof. unfold Host.toDateString. now rewrite LocalTime_fixed. Qed.

Lemma host_monthIndex tv : Host.monthIndex LocalTZA tv = monthIndex (tv + c).
Proof. unfold Host.monthIndex, monthIndex. now rewrite host_getFullYear, host_getMonth. Qed.

Lemma host_setMonth tv month : Host.setMonth LocalTZA tv month = setMonth (tv + c) month - c.
Proof. unfold Host.setMonth. now rewrite LocalTime_fixed, UTC_fixed. Qed.

Lemma host_setDate tv date : Host.setDate LocalTZA tv date = setDate (tv + c) date - c.
Proof. unfold Host.setDate. now rewrite LocalTime_fixed, UTC_fixed. Qed.

Lemma host_setHours tv h m s ms :
  Host.setHours LocalTZA tv h m s ms = setHours (tv + c) h m s ms - c.
Proof. unfold Host.setHours. now rewrite LocalTime_fixed, UTC_fixed. Qed.

Lemma host_newDate y m d : Host.newDate LocalTZA y m d = newDate y m d - c.
Proof. unfold Host.newDate. now rewrite UTC_fixed. Qed.

Lemma host_initialDate : Host.initialDate LocalTZA = initialDate - c.
Proof. apply host_newDate. Qed.

Lemma host_goToPrevious ct tv :
  Host.goToPrevious LocalTZA ct tv = goToPrevious ct (tv + c) - c.
Proof.
  unfold Host.goToPrevious, goToPrevious. cbv zeta.
  destruct (navigationType ct).
  - now rewrite host_setDate, host_getDate.
  - now rewrite host_setMonth, host_getMonth.
Qed.

Lemma host_goToNext ct tv : Host.goToNext LocalTZA ct tv = goToNext ct (tv + c) - c.
Proof.
  unfold Host.goToNext, goToNext. cbv zeta.
  destruct (navigationType ct).
  - now rewrite host_setDate, host_getDate.
  - now rewrite host_setMonth, host_getMonth.
Qed.

Lemma host_navigate ct clicks tv :
  Host.navigate LocalTZA ct clicks tv = navigate ct clicks (tv + c) - c.
Proof.
  revert tv. induction clicks as [|next clicks IH]; intros tv; simpl; [lia|].
  destruct next; rewrite IH; [rewrite host_goToNext | rewrite host_goToPrevious];
    now rewrite Z.sub_add.
Qed.

Lemma host_getDateRange ct tv :
  Host.getDateRange LocalTZA ct tv
  = {| start := start (getDateRange ct (tv + c)) - c;
       end_ := end_ (getDateRange ct (tv + c)) - c |}.
Proof.
  unfold Host.getDateRange, getDateRange. destruct (navigationType ct); cbv zeta; cbn [start end_].
  - repeat first [ rewrite host_setHours | rewrite host_setDate | rewrite host_getDate
                 | rewrite host_getDay | rewrite Z.sub_add ].
    reflexivity.
  - now rewrite !host_newDate, !host_getFullYear, !host_getMonth.
Qed.

Lemma host_getThreeMonthRange tv :
  Host.getThreeMonthRange LocalTZA tv
  = {| start := start (getThreeMonthRange (tv + c)) - c;
       end_ := end_ (getThreeMonthRange (tv + c)) - c |}.
Proof.
  unfold Host.getThreeMonthRange, getThreeMonthRange, Host.dataStartDate, Host.dataEndDate,
    dataStartDate, dataEndDate.
  cbv zeta. cbn [start end_]. rewrite !host_newDate, host_setMonth, host_getMonth.
  f_equal.
  - destruct (Z.ltb_spec (setMonth (tv + c) (getMonth (tv + c) - 3) - c) (newDate 2024 6 1 - c)),
      (Z.ltb_spec (setMonth (tv + c) (getMonth (tv + c) - 3)) (newDate 2024 6 1)); lia.
  - rewrite !Z.gtb_ltb.
    destruct (Z.ltb_spec (newDate 2025 6 31 - c) tv), (Z.ltb_spec (newDate 2025 6 31) (tv + c)); lia.
Qed.

End HostBridge.

(** Rewrites the methods of [Host] into those of the local clock, with the
    proof [H] that the offset is fixed. *)
Ltac to_local H :=
  repeat first
    [ rewrite (host_getDateRange _ _ H) | rewrite (host_getThreeMonthRange _ _ H)
    | rewrite (host_navigate _ _ H) | rewrite (host_goToNext _ _ H)
    | rewrite (host_goToPrevious _ _ H) | rewrite (host_initialDate _ _ H)
    | rewrite (host_setMonth _ _ H) | rewrite (host_setDate _ _ H)
    | rewrite (host_setHours _ _ H) | rewrite (host_newDate _ _ H)
    | rewrite (host_monthIndex _ _ H) | rewrite (host_getFullYear _ _ H)
    | rewrite (host_getMonth _ _ H) | rewrite (host_getDate _ _ H)
    | rewrite (host_getDay _ _ H) | rewrite (host_timeOfDay _ _ H)
    | rewrite (host_localDay _ _ H) | rewrite (host_toDateString _ _ H)
    | rewrite Z.sub_add | progress cbn [Nav.start Nav.end_] ].

Section HostFacts.
Import JSDate Nav.
Local Open Scope Z_scope.
Context (LocalTZA : Z -> bool -> Z) (c : Z) (Hfixed : Host.fixedOffset LocalTZA c).


(** X1: in a host time zone whose offset from UTC never changes, for week
    navigation the window of getDateRange starts on the Sunday of the
    reference date's week at 00:00:00.000 local time, ends on the Saturday
    six days later at 23:59:59.999, spans seven days less a millisecond and
    contains the reference date. *)
Theorem getDateRange_week ct tv :
  navigationType ct = week ->
  let r := Host.getDateRange LocalTZA ct tv in
  Host.getDay LocalTZA (start r) = 0 /\
  Host.timeOfDay LocalTZA (start r) = MakeTime 0 0 0 0 /\
  Host.getDay LocalTZA (end_ r) = 6 /\
  Host.timeOfDay LocalTZA (end_ r) = MakeTime 23 59 59 999 /\
  Host.localDay LocalTZA (end_ r) = Host.localDay LocalTZA (start r) + 6 /\
  end_ r - start r = 7 * msPerDay - 1 /\
  start r <= tv <= end_ r.
Proof.
  intros Hnav r. unfold r.
  destruct (getDateRange_week_local ct (tv + c) Hnav) as (H1 & H2 & H3 & H4 & H5 & H6 & H7).
  to_local Hfixed. repeat split; try assumption; lia.
Qed.

(** X2: in a host time zone whose offset from UTC never changes, for week
    navigation the dates whose window is the window of the reference date
    are exactly the dates inside that window: the week windows cut time
    into weeks, and every date of a week gives the same window. *)
Theorem week_window_shared ct tv tv' :
  navigationType ct = week ->
  Host.getDateRange LocalTZA ct tv' = Host.getDateRange LocalTZA ct tv
  <-> start (Host.getDateRange LocalTZA ct tv) <= tv'
      /\ tv' <= end_ (Host.getDateRange LocalTZA ct tv).
Proof.
  intros Hnav.
  pose proof (week_window_shared_local ct (tv + c) (tv' + c) Hnav) as Hlocal.
  to_local Hfixed.
  assert (Hin : start (getDateRange ct (tv + c)) - c <= tv' /\
                tv' <= end_ (getDateRange ct (tv + c)) - c
                <-> start (getDateRange ct (tv + c)) <= tv' + c <= end_ (getDateRange ct (tv + c)))
    by lia.
  rewrite Hin, <- Hlocal. split.
  - intros [= Hs He].
    destruct (getDateRange ct (tv' + c)) as [s' e'], (getDateRange ct (tv + c)) as [s e].
    cbn [start end_] in *. f_equal; lia.
  - intros ->. reflexivity.
Qed.

(** X3: in a host time zone whose offset from UTC never changes, for week
    navigation goToNext moves the window forward by exactly seven days and
    goToPrevious moves it back by seven days; the window after goToNext
    starts one millisecond after the end of the current one, and the window
    after goToPrevious ends one millisecond before its start: successive
    windows neither overlap nor leave a gap. *)
Theorem week_windows_adjacent ct tv :
  navigationType ct = week ->
  let r := Host.getDateRange LocalTZA ct tv in
  let next := Host.getDateRange LocalTZA ct (Host.goToNext LocalTZA ct tv) in
  let previous := Host.getDateRange LocalTZA ct (Host.goToPrevious LocalTZA ct tv) in
  start next = start r + 7 * msPerDay /\
  end_ next = end_ r + 7 * msPerDay /\
  start previous = start r - 7 * msPerDay /\
  end_ previous = end_ r - 7 * msPerDay /\
  start next = end_ r + 1 /\
  end_ previous + 1 = start r.
Proof.
  intros Hnav r next previous. unfold r, next, previous.
  destruct (week_windows_adjacent_local ct (tv + c) Hnav) as (H1 & H2 & H3 & H4 & H5 & H6).
  to_local Hfixed. repeat split; lia.
Qed.

(** X4: in a host time zone whose offset from UTC never changes, for week
    navigation the reference date after any sequence of clicks is the
    starting date moved by seven days times (clicks on next less clicks on
    previous): the order of the clicks does not matter, the day of the week
    and the time of day never change, and the window moves by the same
    number of weeks. *)
Theorem week_navigation_closed_form ct clicks tv :
  navigationType ct = week ->
  let tv' := Host.navigate LocalTZA ct clicks tv in
  tv' = tv + balance clicks * (7 * msPerDay) /\
  Host.getDay LocalTZA tv' = Host.getDay LocalTZA tv /\
  Host.timeOfDay LocalTZA tv' = Host.timeOfDay LocalTZA tv /\
  start (Host.getDateRange LocalTZA ct tv')
  = start (Host.getDateRange LocalTZA ct tv) + balance clicks * (7 * msPerDay).
Proof.
  intros Hnav tv'. unfold tv'.
  destruct (week_navigation_closed_form_local ct clicks (tv + c) Hnav) as (H1 & H2 & H3 & H4).
  to_local Hfixed. repeat split; try assumption; lia.
Qed.

(** X5: in a host time zone whose offset from UTC never changes, for month
    navigation from a reference date whose day of the month is at most 28
    (the default reference date is the first of May 2025), the reference
    date after any sequence of clicks is the starting date moved by (clicks
    on next less clicks on previous) months: the order of the clicks does
    not matter, and the day of the month and the time of day never
    change. *)
Theorem month_navigation_closed_form ct clicks tv :
  navigationType ct = month ->
  Host.getDate LocalTZA tv <= 28 ->
  let tv' := Host.navigate LocalTZA ct clicks tv in
  tv' = Host.setMonth LocalTZA tv (Host.getMonth LocalTZA tv + balance clicks) /\
  Host.getDate LocalTZA tv' = Host.getDate LocalTZA tv /\
  Host.timeOfDay LocalTZA tv' = Host.timeOfDay LocalTZA tv /\
  Host.monthIndex LocalTZA tv' = Host.monthIndex LocalTZA tv + balance clicks.
Proof.
  intros Hnav Hd tv'. unfold tv'. revert Hd. to_local Hfixed. intros Hd.
  destruct (month_navigation_closed_form_local ct clicks (tv + c) Hnav Hd) as (H1 & H2 & H3 & H4).
  repeat split; try assumption; lia.
Qed.

(** X6: in a host time zone whose offset from UTC never changes, for month
    navigation and a reference date outside the years 0 to 99, the window
    of getDateRange starts on the first day of the reference date's month
    and ends on its last day, both at 00:00:00.000 local time; the
    reference date is never before the start, and it is not after the end
    exactly when it lies before the last day of the month or at
    00:00:00.000 of that day. *)
Theorem month_window ct tv :
  navigationType ct = month ->
  ~ (0 <= Host.getFullYear LocalTZA tv <= 99) ->
  let r := Host.getDateRange LocalTZA ct tv in
  (Host.getFullYear LocalTZA (start r) = Host.getFullYear LocalTZA tv /\
   Host.getMonth LocalTZA (start r) = Host.getMonth LocalTZA tv /\
   Host.getDate LocalTZA (start r) = 1 /\ Host.timeOfDay LocalTZA (start r) = 0) /\
  (Host.getFullYear LocalTZA (end_ r) = Host.getFullYear LocalTZA tv /\
   Host.getMonth LocalTZA (end_ r) = Host.getMonth LocalTZA tv /\
   Host.getDate LocalTZA (end_ r + msPerDay) = 1 /\ Host.timeOfDay LocalTZA (end_ r) = 0) /\
  start r <= tv < end_ r + msPerDay /\
  (tv <= end_ r <->
   Host.localDay LocalTZA tv < Host.localDay LocalTZA (end_ r) \/ Host.timeOfDay LocalTZA tv = 0).
Proof.
  intros Hnav Hyr r. unfold r. revert Hyr. to_local Hfixed. intros Hyr.
  destruct (month_window_local ct (tv + c) Hnav Hyr) as ((S1 & S2 & S3 & S4) & (E1 & E2 & E3 & E4) & Hin & Hiff).
  replace (end_ (getDateRange ct (tv + c)) - c + msPerDay + c)
    with (end_ (getDateRange ct (tv + c)) + msPerDay) by lia.
  repeat split; try assumption; lia.
Qed.

(** X7: in a host time zone whose offset from UTC never changes, the date
    three months back that getThreeMonthRange starts from has the time of
    day of the reference date and lies between 89 and 92 days before it; so
    the returned window, which never starts before that date nor ends after
    the reference date, never spans more than 92 days. *)
Theorem three_months_back_span ref :
  let back := Host.setMonth LocalTZA ref (Host.getMonth LocalTZA ref - 3) in
  let r := Host.getThreeMonthRange LocalTZA ref in
  Host.timeOfDay LocalTZA back = Host.timeOfDay LocalTZA ref /\
  89 <= Host.localDay LocalTZA ref - Host.localDay LocalTZA back <= 92 /\
  ref - back <= 92 * msPerDay /\
  back <= start r /\
  end_ r <= ref /\
  end_ r - start r <= 92 * msPerDay.
Proof.
  intros back r. unfold back, r.
  destruct (three_month_range_span (ref + c)) as (H1 & H2 & H3 & H4 & H5).
  cbv zeta in *. to_local Hfixed.
  assert (Hdiff : ref + c - setMonth (ref + c) (getMonth (ref + c) - 3) <= 92 * msPerDay).
  { destruct (Day_decompose (ref + c)) as [Hr _].
    destruct (Day_decompose (setMonth (ref + c) (getMonth (ref + c) - 3))) as [Hb _].
    rewrite H1 in Hb. unfold msPerDay in *. lia. }
  repeat split; try assumption; lia.
Qed.

End HostFacts.

(** ** The days of a week window *)

Section WeekWindowFacts.
Import JSDate Nav.
Local Open Scope Z_scope.

(** On the local clock: the seven days of a week window, and the day of
    the window a date of the window falls on. *)
Lemma week_columns ct t :
  navigationType ct = week ->
  let r := getDateRange ct t in
  (forall i, 0 <= i < 7 ->
     setDate (start r) (getDate (start r) + i) = start r + i * msPerDay /\
     getDay (start r + i * msPerDay) = i /\
     TimeWithinDay (start r + i * msPerDay) = 0) /\
  (forall date, inRange r date = true ->
     let day := start r + getDay date * msPerDay in
     0 <= getDay date < 7 /\
     toDateString day = toDateString date /\
     getDate day = getDate date /\
     day <= date < day + msPerDay).
Proof.
  intros Hnav r. unfold r. rewrite week_window_formula by assumption.
  cbn [start end_]. set (D := Day t - WeekDay t).
  assert (HD : (D + 4) mod 7 = 0).
  { unfold D, WeekDay. div_lia. }
  assert (Hday : forall i, Day (D * msPerDay + i * msPerDay) = D + i).
  { intros i. rewrite <- Z.mul_add_distr_r. unfold Day. apply Z.div_mul. unfold msPerDay. lia. }
  split.
  - intros i Hi. split; [apply setDate_shift|]. split.
    + unfold getDay, WeekDay. rewrite Hday. div_lia.
    + unfold TimeWithinDay. rewrite <- Z.mul_add_distr_r. apply Z.mod_mul.
      unfold msPerDay. lia.
  - intros date Hin. set (day := D * msPerDay + getDay date * msPerDay).
    unfold inRange in Hin. cbn [start end_] in Hin.
    apply andb_true_iff in Hin as [Hlo Hhi]. apply Z.leb_le in Hlo, Hhi.
    assert (Hdd : D <= Day date <= D + 6).
    { unfold Day, msPerDay in *. div_lia. }
    assert (Hwd : getDay date = Day date - D).
    { unfold getDay, WeekDay. div_lia. }
    assert (Hsame : Day day = Day date).
    { unfold day. rewrite Hwd, Hday. lia. }
    split; [lia|]. split; [exact Hsame|]. split.
    + unfold getDate, DateFromTime, MonthFromTime, InLeapYear, DayWithinYear, YearFromTime.
      now rewrite Hsame.
    + destruct (Day_decompose date) as [Hdec Htod].
      assert (Hdayeq : day = Day date * msPerDay) by (unfold day; rewrite Hwd; lia).
      lia.
Qed.

(** On the local clock: the window reached by a sequence of clicks
    contains a date exactly when the balance of the clicks is the number of
    weeks between the Sunday of the reference date and the Sunday of the
    date. *)
Lemma date_in_one_week ct t date clicks :
  navigationType ct = week ->
  inRange (getDateRange ct (navigate ct clicks t)) date = true
  <-> balance clicks = (Day date - WeekDay date - (Day t - WeekDay t)) / 7.
Proof.
  intros Hnav. unfold inRange.
  rewrite andb_true_iff, !Z.leb_le, (in_week_window ct _ _ Hnav).
  rewrite navigate_week by assumption.
  rewrite WeekDay_add_weeks.
  replace (balance clicks * (7 * msPerDay)) with (7 * balance clicks * msPerDay) by lia.
  rewrite Day_add_days. unfold WeekDay. div_lia.
Qed.

Context (LocalTZA : Z -> bool -> Z) (c : Z) (Hfixed : Host.fixedOffset LocalTZA c).

Lemma host_inRange ct tv date :
  inRange (Host.getDateRange LocalTZA ct tv) date = inRange (getDateRange ct (tv + c)) (date + c).
Proof.
  unfold inRange. to_local Hfixed.
  destruct (Z.leb_spec (start (getDateRange ct (tv + c)) - c) date),
    (Z.leb_spec (start (getDateRange ct (tv + c))) (date + c)); try lia;
  destruct (Z.leb_spec date (end_ (getDateRange ct (tv + c)) - c)),
    (Z.leb_spec (date + c) (end_ (getDateRange ct (tv + c)))); try lia; reflexivity.
Qed.

Lemma host_setDate_shift tv k :
  Host.setDate LocalTZA tv (Host.getDate LocalTZA tv + k) = tv + k * msPerDay.
Proof. to_local Hfixed. rewrite setDate_shift. lia. Qed.

(** The same on time values, in a zone whose offset is fixed. *)
Lemma host_week_columns ct tv :
  navigationType ct = week ->
  let r := Host.getDateRange LocalTZA ct tv in
  (forall i, 0 <= i < 7 ->
     Host.setDate LocalTZA (start r) (Host.getDate LocalTZA (start r) + i)
     = start r + i * msPerDay /\
     Host.getDay LocalTZA (start r + i * msPerDay) = i /\
     Host.timeOfDay LocalTZA (start r + i * msPerDay) = 0) /\
  (forall date, inRange r date = true ->
     let day := start r + Host.getDay LocalTZA date * msPerDay in
     0 <= Host.getDay LocalTZA date < 7 /\
     Host.toDateString LocalTZA day = Host.toDateString LocalTZA date /\
     Host.getDate LocalTZA day = Host.getDate LocalTZA date /\
     day <= date < day + msPerDay).
Proof.
  intros Hnav r. destruct (week_columns ct (tv + c) Hnav) as [Hcol Hin]. cbv zeta in Hcol, Hin.
  assert (Hstart : start r = start (getDateRange ct (tv + c)) - c).
  { unfold r. now rewrite (host_getDateRange _ _ Hfixed). }
  split.
  - intros i Hi. destruct (Hcol i Hi) as (_ & Hwd & Htod).
    split; [apply host_setDate_shift|].
    rewrite (host_getDay _ _ Hfixed), (host_timeOfDay _ _ Hfixed), Hstart.
    replace (start (getDateRange ct (tv + c)) - c + i * msPerDay + c)
      with (start (getDateRange ct (tv + c)) + i * msPerDay) by lia.
    now split.
  - intros date Hdate day. unfold day. unfold r in Hdate. rewrite host_inRange in Hdate.
    destruct (Hin (date + c) Hdate) as (Hwd & Hkey & Hd & Hbounds).
    rewrite !(host_toDateString _ _ Hfixed), !(host_getDate _ _ Hfixed),
      !(host_getDay _ _ Hfixed), Hstart.
    replace (start (getDateRange ct (tv + c)) - c + getDay (date + c) * msPerDay + c)
      with (start (getDateRange ct (tv + c)) + getDay (date + c) * msPerDay) by lia.
    repeat split; try assumption; lia.
Qed.

Lemma host_date_in_one_week ct tv date clicks :
  navigationType ct = week ->
  inRange (Host.getDateRange LocalTZA ct (Host.navigate LocalTZA ct clicks tv)) date = true
  <-> balance clicks
      = (Host.localDay LocalTZA date - Host.getDay LocalTZA date
         - (Host.localDay LocalTZA tv - Host.getDay LocalTZA tv)) / 7.
Proof.
  intros Hnav. rewrite host_inRange. to_local Hfixed. now apply date_in_one_week.
Qed.

End WeekWindowFacts.

(** ** The state of the patient data hook *)

Section HookStateFacts.
Import JS PatientData.
Context {A : Type}.
Implicit Types (s : state A) (o : outcome A) (m : machine (A := A)).

(** X8: after every load attempt that nothing overlaps, from whatever
    state it starts (also one left behind by earlier attempts that did
    overlap), exactly one of hasData, isError and isEmpty is true (a failure
    whose message is the empty string counts as empty, not as an error); in
    the initial state, before the first attempt, none of them is. *)
Theorem flags_after_attempt s patientId o :
  (hasData (A := A) initial = false /\ isError (A := A) initial = false /\
   isEmpty (A := A) initial = false) /\
  (let s' := loadAttempt patientId o s in
   (hasData s' = true /\ isError s' = false /\ isEmpty s' = false) \/
   (hasData s' = false /\ isError s' = true /\ isEmpty s' = false) \/
   (hasData s' = false /\ isError s' = false /\ isEmpty s' = true)).
Proof.
  split; [repeat split|].
  assert (Hcatch : forall err s0,
            let s' := loadData_catch (A := A) err s0 in
            (hasData s' = true /\ isError s' = false /\ isEmpty s' = false) \/
            (hasData s' = false /\ isError s' = true /\ isEmpty s' = false) \/
            (hasData s' = false /\ isError s' = false /\ isEmpty s' = true)).
  { intros err s0. unfold loadData_catch, hasData, isError, isEmpty, hasData. simpl.
    destruct (String.eqb (errorMessage err) ""); simpl; auto. }
  unfold loadAttempt, useEffect.
  destruct (id_truthy patientId); [|right; right; repeat split].
  unfold loadData_begin.
  destruct (alreadyLoaded patientId s) eqn:Hcached.
  - left. unfold alreadyLoaded in Hcached.
    apply andb_true_iff in Hcached as [Hcached Herr].
    apply andb_true_iff in Hcached as [_ Hdata].
    unfold hasData, isError, isEmpty, hasData. rewrite Hdata, Herr. repeat split.
    now rewrite andb_false_r.
  - destruct (negb (id_truthy patientId) || negb (is_string patientId)) eqn:Hbad;
      [right; right; repeat split|].
    destruct patientId as [| |id|n]; simpl in Hbad;
      try (rewrite orb_true_r in Hbad); try discriminate Hbad.
    cbn [id_string]. unfold loadData_settle.
    destruct o as [patientData | err]; [|apply Hcatch].
    destruct (validData patientData) eqn:Hvalid; [|apply Hcatch].
    left. destruct patientData as [d|]; [|discriminate Hvalid].
    unfold hasData, isError, isEmpty, hasData. simpl. repeat split.
Qed.

Lemma id_truthy_string i : i <> "" -> id_truthy (IdString i) = true.
Proof. intros Hi. simpl. now destruct (String.eqb_spec i ""). Qed.

Lemma useEffect_fetches s i :
  i <> "" -> alreadyLoaded (IdString i) s = false ->
  useEffect (IdString i) s = (setError None (setLoading true s), Some i).
Proof.
  intros Hi Hal. unfold useEffect, loadData_begin.
  rewrite (id_truthy_string i Hi), Hal. reflexivity.
Qed.

Lemma useEffect_cached s i :
  i <> "" -> alreadyLoaded (IdString i) s = true -> useEffect (IdString i) s = (s, None).
Proof.
  intros Hi Hal. unfold useEffect, loadData_begin.
  rewrite (id_truthy_string i Hi), Hal. reflexivity.
Qed.

(** X9: a successful load is cached and a failed one is not.  After an
    attempt for a patient id that found valid data, a further attempt for
    the same id fetches nothing and leaves the state as it is, whatever the
    data service would answer; an attempt for another id does fetch.  After
    an attempt that fetched and failed, a further attempt for the same id
    fetches again. *)
Theorem load_cached_until_patient_changes s i j d o o' err :
  i <> "" -> j <> "" -> validData (Some d) = true ->
  let loaded := loadAttempt (IdString i) (Resolved (Some d)) s in
  loadAttempt (IdString i) o loaded = loaded /\
  (j <> i -> (useEffect (IdString j) loaded).2 = Some j) /\
  (alreadyLoaded (IdString i) s = false ->
   let failed := loadAttempt (IdString i) (Rejected err) s in
   (useEffect (IdString i) failed).2 = Some i /\
   loadAttempt (IdString i) o' failed
   = loadData_settle i o' (setError None (setLoading true failed))).
Proof.
  intros Hi Hj Hvalid loaded.
  assert (Hloaded : alreadyLoaded (IdString i) loaded = true /\
                    lastFetchedId loaded = Some i).
  { unfold loaded, loadAttempt.
    destruct (alreadyLoaded (IdString i) s) eqn:Hal.
    - rewrite useEffect_cached by assumption. split; [exact Hal|].
      unfold alreadyLoaded in Hal. simpl in Hal.
      destruct (lastFetchedId s) as [l|]; [|discriminate Hal].
      destruct (String.eqb_spec i l); [congruence | discriminate Hal].
    - rewrite useEffect_fetches by assumption. unfold loadData_settle. rewrite Hvalid.
      unfold alreadyLoaded. simpl. rewrite String.eqb_refl. split; reflexivity. }
  destruct Hloaded as [Hcached Hlast].
  split; [|split].
  - unfold loadAttempt at 1. now rewrite useEffect_cached.
  - intros Hne. rewrite useEffect_fetches; [reflexivity | assumption |].
    unfold alreadyLoaded. rewrite Hlast. simpl.
    destruct (String.eqb_spec j i); [contradiction | reflexivity].
  - intros Hal failed.
    assert (Hfailed : alreadyLoaded (IdString i) failed = false).
    { unfold failed, loadAttempt. rewrite useEffect_fetches by assumption.
      unfold alreadyLoaded. simpl. now rewrite andb_false_r. }
    split.
    + now rewrite useEffect_fetches.
    + unfold loadAttempt at 1. now rewrite useEffect_fetches.
Qed.

(** X10: clearData empties the hook: afterwards isEmpty is true, hasData
    and isError are false, every accessor is the empty array and every
    hasXData flag is false; clearing again changes nothing; and the next
    attempt for any non-empty patient id fetches, whatever had been loaded
    before. *)
Theorem clearData_resets s :
  let c := clearData s in
  isEmpty c = true /\ hasData c = false /\ isError c = false /\
  patientInfo c = Some VNull /\
  Forall (fun '(name, value, flag) => value = Some (VArray []) /\ flag = false) (accessors c) /\
  clearData c = c /\
  (forall i, i <> "" -> useEffect (IdString i) c = (setError None (setLoading true c), Some i)).
Proof.
  intros c. repeat split.
  - unfold c, accessors. repeat constructor.
  - intros i Hi. apply useEffect_fetches; [assumption | reflexivity].
Qed.

Lemma step_consistent m ev : consistent m -> consistent (step m ev).
Proof.
  intros [Hload Hdata]. destruct ev as [patientId | id o]; unfold step.
  - unfold useEffect.
    destruct (id_truthy patientId) eqn:Hid; [|split; simpl; [discriminate | discriminate]].
    unfold loadData_begin.
    destruct (alreadyLoaded patientId (hook m)).
    { cbn [option_list]. rewrite app_nil_r. destruct m. split; assumption. }
    destruct (negb (id_truthy patientId) || negb (is_string patientId)) eqn:Hbad.
    { split; simpl; discriminate. }
    destruct patientId as [| |i|n]; simpl in Hid, Hbad;
      try discriminate Hid; try discriminate Hbad;
      try (rewrite orb_true_r in Hbad; discriminate Hbad).
    split; cbn [hook pending option_list id_string].
    + intros _. left. intros Hnil. apply app_eq_nil in Hnil as [_ Hnil]. discriminate Hnil.
    + simpl. exact Hdata.
  - case_bool_decide; [|split; assumption].
    unfold loadData_settle, loadData_catch. split; cbn [hook pending].
    + destruct o as [patientData | err]; [destruct (validData patientData)|]; simpl; discriminate.
    + intros d. destruct o as [patientData | err];
        [destruct (validData patientData) eqn:Hvalid|]; simpl; try discriminate.
      intros ->. split; [exact Hvalid | discriminate].
Qed.

Lemma run_consistent events : consistent (run (A := A) events).
Proof.
  unfold run.
  assert (Hinit : consistent {| hook := initial (A := A); pending := [] |}).
  { split; cbn [hook pending]; [intros _; now right | discriminate]. }
  revert Hinit. generalize {| hook := initial (A := A); pending := [] |}.
  induction events as [|ev events IH]; intros m Hm; [exact Hm|].
  simpl. apply IH. now apply step_consistent.
Qed.

(** X11: however the effects and the settlements of fetches interleave, the
    hook is never left loading once every fetch has settled: with no fetch
    pending, loading is true only in the initial state, before the first
    effect has run. *)
Theorem loading_only_while_pending events :
  let m := run (A := A) events in
  pending m = [] -> loading (hook m) = true -> hook m = initial.
Proof.
  intros m Hnone Hload.
  destruct (run_consistent events) as [H _]. fold m in H.
  destruct (H Hload) as [Hpending | Hinit]; [contradiction | exact Hinit].
Qed.

Lemma remove_first_subset id (ids : list string) x :
  x ∈ remove_first id ids -> x ∈ ids.
Proof.
  induction ids as [|i ids IH]; simpl; [trivial|].
  destruct (String.eqb i id); [now right|].
  intros Hx. apply elem_of_cons in Hx as [-> | Hx]; [left | right; now apply IH].
Qed.

Lemma run_snoc (events : list (@event A)) ev : run (events ++ [ev]) = step (run events) ev.
Proof. unfold run. now rewrite fold_left_app. Qed.

(** Where the data of the hook comes from: every pending fetch was started
    by an effect for its id, and the data the hook holds is the result of a
    settlement that resolved for the id recorded in lastFetchedId. *)
Lemma run_provenance (events : list (@event A)) :
  let m := run events in
  (forall id, id ∈ pending m -> Effect (IdString id) ∈ events) /\
  (forall d, data (hook m) = Some d ->
     exists id, lastFetchedId (hook m) = Some id /\
                Settle id (Resolved (Some d)) ∈ events /\
                Effect (IdString id) ∈ events).
Proof.
  induction events as [|ev events IH] using rev_ind.
  - split; [intros id Hid; inversion Hid | intros d Hd; discriminate Hd].
  - cbv zeta in *. rewrite run_snoc. destruct IH as [Hpending Hdata].
    set (m := run events) in *.
    assert (Hkeep : forall d, data (hook m) = Some d ->
              exists id, lastFetchedId (hook m) = Some id /\
                         Settle id (Resolved (Some d)) ∈ events ++ [ev] /\
                         Effect (IdString id) ∈ events ++ [ev]).
    { intros d Hd. destruct (Hdata d Hd) as (id & Hid & Hs & He).
      exists id. rewrite !elem_of_app. auto. }
    destruct ev as [patientId | id o]; unfold step.
    + unfold useEffect.
      destruct (id_truthy patientId) eqn:Htruthy.
      * unfold loadData_begin.
        destruct (alreadyLoaded patientId (hook m)).
        { cbn [hook pending option_list]. rewrite app_nil_r. split; [|exact Hkeep].
          intros id Hid. apply elem_of_app. left. now apply Hpending. }
        destruct (negb (id_truthy patientId) || negb (is_string patientId)) eqn:Hbad.
        { cbn [hook pending option_list]. rewrite app_nil_r. split.
          - intros id Hid. apply elem_of_app. left. now apply Hpending.
          - intros d Hd. discriminate Hd. }
        destruct patientId as [| |i|n]; simpl in Htruthy, Hbad;
          try discriminate Htruthy; try (rewrite orb_true_r in Hbad); try discriminate Hbad.
        cbn [hook pending option_list id_string]. split; [|exact Hkeep].
        intros id Hid. apply elem_of_app in Hid as [Hid | Hid].
        { apply elem_of_app. left. now apply Hpending. }
        apply list_elem_of_singleton in Hid. subst id. apply elem_of_app. right. left.
      * cbn [hook pending option_list]. rewrite app_nil_r. split.
        -- intros id Hid. apply elem_of_app. left. now apply Hpending.
        -- intros d Hd. discriminate Hd.
    + case_bool_decide as Hin.
      * cbn [hook pending]. split.
        -- intros id' Hid'. apply remove_first_subset in Hid'.
           apply elem_of_app. left. now apply Hpending.
        -- intros d. unfold loadData_settle, loadData_catch.
           destruct o as [patientData | err];
             [destruct (validData patientData) eqn:Hvalid|]; simpl; try discriminate.
           intros ->. exists id. split; [reflexivity|]. split.
           ++ apply elem_of_app. right. left.
           ++ apply elem_of_app. left. now apply Hpending.
      * split; [|exact Hkeep].
        intros id' Hid'. apply elem_of_app. left. now apply Hpending.
Qed.

(** X12: however the effects and the settlements of fetches interleave,
    whenever the hook has data (hasData is true) the data is the object that
    a fetch resolved with, it has a patientInfo, so the patientInfo the hook
    returns is that one and is not null, and lastFetchedId is the id that
    fetch was for: the id of the settlement that delivered the data, which
    an effect had asked for. *)
Theorem data_has_patientInfo events :
  let s := hook (run (A := A) events) in
  hasData s = true ->
  exists d id,
    data s = Some d /\
    lastFetchedId s = Some id /\
    Settle id (Resolved (Some d)) ∈ events /\
    Effect (IdString id) ∈ events /\
    patientInfo s = d !! "patientInfo" /\
    patientInfo s <> Some VNull /\ patientInfo s <> None /\
    truthy (patientInfo s) = true.
Proof.
  intros s Hhas. apply bool_decide_eq_true in Hhas as [d Hd].
  destruct (run_consistent events) as [_ H]. fold s in H.
  destruct (H d Hd) as [Hvalid _].
  destruct (run_provenance events) as [_ Hprov]. cbv zeta in Hprov. fold s in Hprov.
  destruct (Hprov d Hd) as (id & Hid & Hsettle & Heffect).
  exists d, id. split; [exact Hd|]. split; [exact Hid|]. split; [exact Hsettle|].
  split; [exact Heffect|].
  unfold patientInfo, or_else. rewrite Hd. simpl in *. rewrite Hvalid.
  destruct (d !! "patientInfo") as [[| |items]|]; simpl in *; try discriminate;
    repeat split; try discriminate; assumption.
Qed.

End HookStateFacts.

Lemma load_cached_until_patient_changes_witness :
  let d : JS.data_object unit := {[ "patientInfo" := JS.VObject ]} in
  let loaded := PatientData.loadAttempt (PatientData.IdString "Patient_001")
                  (PatientData.Resolved (Some d)) PatientData.initial in
  PatientData.loadAttempt (PatientData.IdString "Patient_001")
    (PatientData.Rejected PatientData.NotAnError) loaded = loaded.
Proof.
  intros d loaded.
  assert (H1 : "Patient_001" <> "") by discriminate.
  destruct (load_cached_until_patient_changes (A := unit) PatientData.initial
              "Patient_001" "Patient_001" d (PatientData.Rejected PatientData.NotAnError)
              (PatientData.Rejected PatientData.NotAnError) PatientData.NotAnError
              H1 H1 eq_refl) as (H & _).
  exact H.
Defined.

Lemma clearData_resets_witness :
  let c := PatientData.clearData (A := unit) PatientData.initial in
  (PatientData.useEffect (PatientData.IdString "Patient_001") c).2 = Some "Patient_001".
Proof.
  intros c.
  destruct (clearData_resets (A := unit) PatientData.initial) as (_ & _ & _ & _ & _ & _ & H).
  assert (H1 : "Patient_001" <> "") by discriminate.
  fold c in H. rewrite (H "Patient_001" H1). reflexivity.
Defined.

Lemma loading_only_while_pending_witness :
  PatientData.hook (PatientData.run (A := unit) []) = PatientData.initial.
Proof.
  apply (loading_only_while_pending (A := unit) []); reflexivity.
Defined.

Lemma data_has_patientInfo_witness :
  let d : JS.data_object unit := {[ "patientInfo" := JS.VObject ]} in
  let s := PatientData.hook
             (PatientData.run
                [ PatientData.Effect (PatientData.IdString "Patient_001");
                  PatientData.Effect (PatientData.IdString "Patient_002");
                  PatientData.Settle "Patient_002" (PatientData.Rejected PatientData.NotAnError);
                  PatientData.Settle "Patient_001" (PatientData.Resolved (Some d)) ]) in
  PatientData.lastFetchedId s = Some "Patient_001" /\ PatientData.data s = Some d.
Proof.
  intros d s.
  destruct (data_has_patientInfo
              [ PatientData.Effect (PatientData.IdString "Patient_001");
                PatientData.Effect (PatientData.IdString "Patient_002");
                PatientData.Settle "Patient_002" (PatientData.Rejected PatientData.NotAnError);
                PatientData.Settle "Patient_001" (PatientData.Resolved (Some d)) ])
    as (d' & id & Hd & Hid & _); [vm_compute; reflexivity|].
  split; reflexivity.
Defined.

(** ** The dashboards *)

Section DashboardFacts.
Import JS Visualizations Helpers PatientData.
Context {Cfg : Type} (VISUALIZATION_CONFIG : string -> Cfg) {A : Type}.

Lemma elem_of_map_from {X Y} (f : X -> nat -> Y) (xs : list X) (n : nat) (y : Y) :
  y ∈ map_from f xs n <-> exists i x, xs !! i = Some x /\ y = f x (n + i).
Proof.
  revert n. induction xs as [|x xs IH]; intros n; simpl.
  - split; [intros Hin; inversion Hin | intros (i & x & Hx & _); destruct i; discriminate Hx].
  - rewrite elem_of_cons, IH. split.
    + intros [-> | (i & x' & Hx & ->)].
      * exists 0, x. split; [reflexivity | now rewrite Nat.add_0_r].
      * exists (S i), x'. split; [exact Hx | f_equal; lia].
    + intros ([|i] & x' & Hx & ->).
      * left. injection Hx as <-. now rewrite Nat.add_0_r.
      * right. exists i, x'. split; [exact Hx | f_equal; lia].
Qed.

Lemma selectedVisualizations_map viewMode (data : option (data_object A)) :
  selectedVisualizations VISUALIZATION_CONFIG viewMode data
  = map_index (fun key index => (chartId viewMode index, Some key))
              (keys (availableVisualizations VISUALIZATION_CONFIG data)).
Proof.
  unfold selectedVisualizations, reduce, map_index.
  exact (selected_reduce viewMode _ [] [] eq_refl).
Qed.

Lemma available_key_registered (data : option (data_object A)) key :
  key ∈ keys (availableVisualizations VISUALIZATION_CONFIG data) ->
  key ∈ keys (allVisualizations VISUALIZATION_CONFIG).
Proof.
  destruct data as [d|]; [|intros Hin; inversion Hin].
  rewrite availableVisualizations_filter, elem_of_keys_filter. now intros [Hin _].
Qed.

(** Every key of the registry has a component and a navigation of its
    own. *)
Lemma registered_key key :
  key ∈ keys (allVisualizations VISUALIZATION_CONFIG) ->
  (exists viz, prop_get (allVisualizations VISUALIZATION_CONFIG) key = Some viz) /\
  prop_get chartNavigation key = Some key.
Proof.
  rewrite keys_allVisualizations. intros Hin.
  repeat (apply elem_of_cons in Hin as [-> | Hin]; [split; [eexists|]; reflexivity|]).
  inversion Hin.
Qed.

(** X13: every entry of selectedVisualizations names a visualization that
    is available and registered, so the grid never shows 'Invalid
    visualization' for it: the patient dashboard renders its chart with the
    navigation of its type, for any patient id, and with a patient selected
    the physician dashboard does the same (never the 'select-patient'
    placeholder) and the shared renderVisualization renders the same
    component without a navigation. *)
Theorem selected_visualizations_render viewMode (data : option (data_object A))
    (patientId : option string) (selectedPatientId : string)
    (expandedItem : expanded) (chartId : string) (value : option string) :
  (chartId, value) ∈ selectedVisualizations VISUALIZATION_CONFIG viewMode data ->
  let all := allVisualizations VISUALIZATION_CONFIG in
  exists key viz,
    value = Some key /\
    key ∈ keys (availableVisualizations VISUALIZATION_CONFIG data) /\
    prop_get all key = Some viz /\
    PatientDashboard.renderVisualizationWithMode patientId all expandedItem key chartId
    = PatientDashboard.Element
        (Chart (component viz) patientId (isExpanded expandedItem chartId) chartId
               "patient" (Some key)) /\
    (PhysicianDashboard.showsContent selectedPatientId = true ->
     renderVisualizationWithMode selectedPatientId all expandedItem key chartId
     = Chart (component viz) (Some selectedPatientId) (isExpanded expandedItem chartId) chartId
             "physician" (Some key)) /\
    (absent patientId = false ->
     renderVisualization patientId all expandedItem key chartId
     = Chart (component viz) patientId (isExpanded expandedItem chartId) chartId
             "patient" None).
Proof.
  intros Hin all. rewrite selectedVisualizations_map in Hin.
  apply elem_of_map_from in Hin as (i & key & Hkey & [= -> ->]).
  apply list_elem_of_lookup_2 in Hkey.
  destruct (registered_key key (available_key_registered data key Hkey)) as [[viz Hviz] Hnav].
  exists key, viz. fold all in Hviz.
  split; [reflexivity|]. split; [exact Hkey|]. split; [exact Hviz|].
  split; [|split].
  - unfold PatientDashboard.renderVisualizationWithMode.
    now rewrite (get_own _ _ _ Hviz), (get_own _ _ _ Hnav).
  - unfold PhysicianDashboard.showsContent, renderVisualizationWithMode. intros Hsel.
    apply negb_true_iff in Hsel.
    now rewrite Hsel, (get_own _ _ _ Hviz), (get_own _ _ _ Hnav).
  - unfold renderVisualization. intros ->. now rewrite (get_own _ _ _ Hviz).
Qed.

(** X14: the grid of the physician dashboard is disabled exactly when
    selectedVisualizations is empty, and that is exactly when the data is
    null or no key of the registry passes the test on the data: no
    data[key + 'Data'] is a non-empty array and data.mealData is not one
    either. *)
Theorem disabled_iff_nothing_to_show (data : option (data_object A)) :
  let available := availableVisualizations VISUALIZATION_CONFIG data in
  (PhysicianDashboard.disabled available = true <->
   selectedVisualizations VISUALIZATION_CONFIG "physician" data = []) /\
  (PhysicianDashboard.disabled available = true <->
   forall d, data = Some d ->
     ~ nonempty_array (d !! "mealData") /\
     Forall (fun key => ~ nonempty_array (d !! (key +:+ "Data")))
            (keys (allVisualizations VISUALIZATION_CONFIG))).
Proof.
  intros available. unfold PhysicianDashboard.disabled. rewrite bool_decide_eq_true.
  split.
  - rewrite selectedVisualizations_map. fold available. unfold map_index.
    destruct (keys available) as [|k ks]; simpl; [tauto|].
    split; intros Habs; discriminate Habs.
  - rewrite length_zero_iff_nil. split.
    + intros Hnil d ->. unfold available in Hnil.
      assert (Hnone : forall key, key ∈ keys (allVisualizations VISUALIZATION_CONFIG) ->
                                  passesTest d key = false).
      { intros key Hkey. destruct (passesTest d key) eqn:Hpass; [|reflexivity].
        assert (Hin : key ∈ keys (availableVisualizations VISUALIZATION_CONFIG (Some d))).
        { rewrite availableVisualizations_filter, elem_of_keys_filter. now split. }
        rewrite Hnil in Hin. inversion Hin. }
      split.
      * intros Hmeal. specialize (Hnone "mealContents").
        rewrite keys_allVisualizations in Hnone.
        assert (Hpass : passesTest d "mealContents" = true).
        { apply (proj2 (passesTest_spec VISUALIZATION_CONFIG d "mealContents")). right. now split. }
        rewrite Hnone in Hpass; [discriminate Hpass|].
        apply (bool_decide_unpack _). vm_compute. exact I.
      * apply Forall_forall. intros key Hkey Harr.
        assert (Hpass : passesTest d key = true)
          by (apply (proj2 (passesTest_spec VISUALIZATION_CONFIG d key)); now left).
        rewrite Hnone in Hpass by assumption. discriminate Hpass.
    + intros Hall. unfold available. destruct data as [d|]; [|reflexivity].
      destruct (Hall d eq_refl) as [Hmeal Hkeys].
      rewrite availableVisualizations_filter.
      destruct (keys (List.filter _ _)) as [|key ks] eqn:Hks; [reflexivity|].
      exfalso.
      assert (Hin : key ∈ keys (List.filter (fun kv : string * visualization Cfg => passesTest d kv.1)
                                            (allVisualizations VISUALIZATION_CONFIG)))
        by (rewrite Hks; left).
      apply elem_of_keys_filter in Hin as [Hkey Hpass].
      apply (proj1 (passesTest_spec VISUALIZATION_CONFIG d key)) in Hpass as [Harr | [_ Harr]];
        [|now apply Hmeal].
      rewrite Forall_forall in Hkeys. now apply (Hkeys key).
Qed.

(** X15: whatever effects and settlements the hook has seen, the patient
    dashboard shows its grid either for data that has a patientInfo, which
    it hands to the patient card, or with no data, and then the card gets
    undefined and the grid has no chart at all; the loading screen is shown
    only while a fetch is pending or before the first effect, and the error
    screen only with a non-empty message. *)
Theorem patient_dashboard_screens (events : list (@event A)) :
  let m := run events in
  match PatientDashboard.render VISUALIZATION_CONFIG (hook m) with
  | PatientDashboard.LoadingScreen => pending m <> [] \/ hook m = initial
  | PatientDashboard.ErrorScreen message => error (hook m) = Some message /\ message <> ""
  | PatientDashboard.Dashboard patientInfo selected =>
      (exists d, data (hook m) = Some d /\ patientInfo = d !! "patientInfo" /\
                 truthy patientInfo = true) \/
      (data (hook m) = None /\ patientInfo = None /\ selected = [])
  end.
Proof.
  intros m. destruct (run_consistent events) as [Hload Hdata]. fold m in Hload, Hdata.
  unfold PatientDashboard.render.
  destruct (loading (hook m)); [now apply Hload|].
  assert (Hdash : (exists d, data (hook m) = Some d /\
                     data (hook m) ≫= (fun d => d !! "patientInfo") = d !! "patientInfo" /\
                     truthy (data (hook m) ≫= (fun d => d !! "patientInfo")) = true) \/
                  (data (hook m) = None /\
                   data (hook m) ≫= (fun d => d !! "patientInfo") = None /\
                   selectedVisualizations VISUALIZATION_CONFIG "patient" (data (hook m)) = [])).
  { destruct (data (hook m)) as [d|] eqn:Hd.
    - left. exists d. destruct (Hdata d eq_refl) as [Hvalid _]. now repeat split.
    - right. now repeat split. }
  destruct (error (hook m)) as [message|]; [|exact Hdash].
  destruct (String.eqb_spec message ""); [exact Hdash|]. now split.
Qed.

End DashboardFacts.

Lemma selected_visualizations_render_witness :
  let d : JS.data_object unit := {[ "patientInfo" := JS.VObject; "sleepData" := JS.VArray [()] ]} in
  exists key (viz : Visualizations.visualization unit),
    Helpers.renderVisualizationWithMode "Patient_001"
      (Visualizations.allVisualizations (fun _ => ())) None key "physician-chart-0"
    = Helpers.Chart (Visualizations.component viz) (Some "Patient_001") false "physician-chart-0"
                    "physician" (Some key).
Proof.
  intros d.
  destruct (selected_visualizations_render (fun _ => ()) "physician" (Some d)
              (Some "Patient_001") "Patient_001" None "physician-chart-0" (Some "sleep"))
    as (key & viz & _ & _ & _ & _ & Hphysician & _).
  { vm_compute. left. }
  exists key, viz. apply Hphysician. reflexivity.
Defined.

(** ** The role switch *)

Section AppFacts.
Import App.

(** X16: the role is always 'patient' or 'physician' after a toggle, a
    toggle changes it, two toggles restore a role that is one of the two,
    and after n toggles from the initial role the switch is checked exactly
    when n is odd. *)
Theorem toggleRole_parity (prev : string) (n : nat) :
  toggleRole prev ∈ ["patient"; "physician"] /\
  toggleRole prev <> prev /\
  toggleRole (toggleRole (toggleRole prev)) = toggleRole prev /\
  Nat.iter n toggleRole initialRole = (if Nat.even n then "patient" else "physician") /\
  checked (Nat.iter n toggleRole initialRole) = Nat.odd n.
Proof.
  assert (Hiter : Nat.iter n toggleRole initialRole
                  = if Nat.even n then "patient" else "physician").
  { induction n as [|n IH]; [reflexivity|].
    change (Nat.iter (S n) toggleRole initialRole)
      with (toggleRole (Nat.iter n toggleRole initialRole)).
    rewrite Nat.even_succ, <- Nat.negb_even, IH.
    now destruct (Nat.even n). }
  assert (Hchecked : checked (Nat.iter n toggleRole initialRole) = Nat.odd n).
  { rewrite Hiter, <- Nat.negb_even. now destruct (Nat.even n). }
  split; [|split; [|split; [|split; assumption]]].
  - unfold toggleRole. destruct (String.eqb prev "patient"); [right; left | left].
  - unfold toggleRole. destruct (String.eqb_spec prev "patient") as [-> | Hne];
      [discriminate | congruence].
  - unfold toggleRole. now destruct (String.eqb prev "patient").
Qed.

End AppFacts.

(** ** The error boundary *)

Section ErrorBoundaryFacts.
Import ErrorBoundary.
Context {E I C : Type} (truthy : E -> bool) (toString : E -> string)
        (componentStack : I -> string).

Lemma boundary_invariant (events : list (event (E := E) (I := I))) :
  let s := fold_left step events initial in
  (is_Some (error s) -> is_Some (errorInfo s)) /\
  hasError s = existsb is_Derived events.
Proof.
  induction events as [|ev events IH] using rev_ind; [split; [intros [? [=]] | reflexivity]|].
  rewrite fold_left_app, existsb_app. cbn [fold_left existsb]. destruct IH as [IHinfo IHhas].
  destruct ev as [err | err info]; simpl.
  - split; [exact IHinfo|]. now rewrite orb_true_r.
  - split; [intros _; now eexists|]. now rewrite IHhas, orb_false_r.
Qed.

(** X17: in whatever order React calls getDerivedStateFromError and
    componentDidCatch, render never reads the component stack of a null
    errorInfo, and it shows the children exactly as long as
    getDerivedStateFromError has not been called: after that it is the
    fallback for good, with the details only in development mode, for a
    truthy error that componentDidCatch has stored. *)
Theorem boundary_render (events : list (event (E := E) (I := I)))
    (development : bool) (children : C) :
  let s := fold_left step events initial in
  let out := render truthy toString componentStack development children s in
  out <> TypeError /\
  (out = Children children <-> existsb is_Derived events = false) /\
  (forall details, out = Fallback (Some details) ->
     development = true /\
     exists err info, error s = Some err /\ errorInfo s = Some info /\ truthy err = true /\
                      details = (toString err, componentStack info)).
Proof.
  intros s out. destruct (boundary_invariant events) as [Hinfo Hhas].
  fold s in Hinfo, Hhas. unfold out, render. rewrite Hhas.
  destruct (existsb is_Derived events).
  - destruct (error s) as [err|] eqn:Herr.
    + destruct (Hinfo ltac:(now eexists)) as [info Hi]. rewrite Hi.
      destruct development, (truthy err) eqn:Ht; simpl;
        (split; [discriminate|]); (split; [split; discriminate|]);
        intros details [= <-] || intros details [=].
      split; [reflexivity|]. now exists err, info.
    + split; [discriminate|]. split; [split; discriminate|]. intros details [=].
  - split; [discriminate|]. split; [split; reflexivity|]. intros details [=].
Qed.

End ErrorBoundaryFacts.

(** ** The sleep chart *)

Section SleepChartFacts.
Import JSDate Nav JS Sleep.
Context {num : Type} `{Number num}.

(** The quality counts after the two loops. *)
Lemma qualityCounts_levels (data : list (sleepRecord num)) :
  fold_left countQuality data
    (fold_left (fun counts quality => prop_set counts quality 0%nat) (keys qualityLevels) [])
  = map (fun q => (q, countOf q data)) levels.
Proof.
  rewrite fold_countQuality; [reflexivity|].
  apply (bool_decide_unpack _). vm_compute. exact I.
Qed.

Lemma head_insert (x : string * nat) (xs : list (string * nat)) :
  head (insert byCountDescending x xs)
  = match head xs with
    | Some y => if (y.2 <=? x.2)%nat then Some x else Some y
    | None => Some x
    end.
Proof.
  destruct xs as [|y xs]; [reflexivity|]. simpl. unfold byCountDescending.
  destruct (Z.leb_spec (Z.of_nat y.2 - Z.of_nat x.2) 0), (Nat.leb_spec y.2 x.2);
    try reflexivity; lia.
Qed.

Lemma head_sort_elem (xs : list (string * nat)) top :
  head (sort byCountDescending xs) = Some top -> top ∈ xs.
Proof.
  intros Hhead. rewrite <- (sort_perm byCountDescending xs).
  destruct (sort byCountDescending xs); [discriminate Hhead|].
  injection Hhead as ->. left.
Qed.

(** The stable sort by descending count puts first the first entry of
    greatest count. *)
Lemma sort_first_max (pre post : list (string * nat)) (top : string * nat) :
  Forall (fun e => e.2 < top.2) pre ->
  Forall (fun e => e.2 <= top.2) post ->
  head (sort byCountDescending (pre ++ top :: post)) = Some top.
Proof.
  intros Hpre Hpost. induction Hpre as [|p pre Hp Hpre IH].
  - change (sort byCountDescending ([] ++ top :: post))
      with (insert byCountDescending top (sort byCountDescending post)).
    rewrite head_insert.
    destruct (head (sort byCountDescending post)) as [y|] eqn:Hy; [|reflexivity].
    apply head_sort_elem in Hy. rewrite Forall_forall in Hpost.
    specialize (Hpost y Hy). simpl in Hpost.
    destruct (Nat.leb_spec y.2 top.2); [reflexivity | lia].
  - change (sort byCountDescending ((p :: pre) ++ top :: post))
      with (insert byCountDescending p (sort byCountDescending (pre ++ top :: post))).
    rewrite head_insert, IH.
    destruct (Nat.leb_spec top.2 p.2); [lia | reflexivity].
Qed.

Lemma first_max_exists (xs : list (string * nat)) :
  xs <> [] ->
  exists pre top post,
    xs = pre ++ top :: post /\
    Forall (fun e => e.2 < top.2) pre /\
    Forall (fun e => e.2 <= top.2) post.
Proof.
  induction xs as [|x xs IH]; intros Hne; [congruence|].
  destruct xs as [|x' xs'].
  - exists [], x, []. repeat split; constructor.
  - destruct IH as (pre & top & post & Hxs & Hpre & Hpost); [congruence|].
    destruct (Nat.leb_spec top.2 x.2) as [Hle | Hlt].
    + exists [], x, (x' :: xs'). split; [reflexivity|]. split; [constructor|].
      rewrite Hxs. apply Forall_app. split.
      * eapply Forall_impl; [exact Hpre|]. simpl. intros e He. lia.
      * constructor; [exact Hle|].
        eapply Forall_impl; [exact Hpost|]. simpl. intros e He. lia.
    + exists (x :: pre), top, post. split; [now rewrite Hxs|].
      split; [now constructor | exact Hpost].
Qed.

(** The most common quality of a non-empty list of records: the first
    level that no other level beats. *)
Lemma most_common_level (data : list (sleepRecord num)) :
  exists pre q post,
    levels = pre ++ q :: post /\
    Forall (fun q' => countOf q' data < countOf q data) pre /\
    Forall (fun q' => countOf q' data <= countOf q data) post /\
    head (sort byCountDescending (map (fun q => (q, countOf q data)) levels))
    = Some (q, countOf q data).
Proof.
  destruct (first_max_exists (map (fun q => (q, countOf q data)) levels))
    as (pre & top & post & Heq & Hpre & Hpost); [discriminate|].
  rewrite Heq, (sort_first_max pre post top Hpre Hpost).
  apply fmap_app_inv in Heq as (qs1 & qs2' & -> & Hrest & Hlevels).
  symmetry in Hrest. apply fmap_cons_inv in Hrest as (q & qs2 & -> & -> & ->).
  exists qs1, q, qs2. rewrite Forall_fmap in Hpre, Hpost.
  repeat split; assumption.
Qed.


Lemma countOf_zero q (data : list (sleepRecord num)) :
  Forall (fun day => quality day <> q) data -> countOf q data = 0.
Proof.
  unfold countOf. induction 1 as [|day data' Hday _ IH]; [reflexivity|]. simpl.
  destruct (String.eqb_spec (quality day) q); [contradiction | exact IH].
Qed.

(** X18: the most common quality of a non-empty window is the first of
    'Very good', 'Fairly good', 'Fairly bad', 'Very bad' with the greatest
    count: every level listed before it has strictly fewer records and no
    level has more.  A tie goes to the level listed first, and when no
    record has one of the four qualities the summary says 'Very good' with
    a count of 0. *)
Theorem weekSummary_most_common_first (data : list (sleepRecord num)) :
  data <> [] ->
  exists s pre post,
    weekSummary data = Summary s /\
    levels = pre ++ mostCommonQuality s :: post /\
    mostCommonQualityCount s = countOf (mostCommonQuality s) data /\
    Forall (fun q => countOf q data < mostCommonQualityCount s) pre /\
    Forall (fun q => countOf q data <= mostCommonQualityCount s) post /\
    (Forall (fun day => quality day ∉ levels) data ->
     mostCommonQuality s = "Very good" /\ mostCommonQualityCount s = 0).
Proof.
  intros Hne. unfold weekSummary.
  rewrite bool_decide_eq_false_2 by (destruct data; [congruence | discriminate]).
  cbv zeta. unfold entries. rewrite qualityCounts_levels.
  destruct (most_common_level data) as (pre & q & post & Hlevels & Hpre & Hpost & ->).
  eexists. exists pre, post. split; [reflexivity|].
  cbn [mostCommonQuality mostCommonQualityCount fst snd].
  split; [exact Hlevels|]. split; [reflexivity|]. split; [exact Hpre|]. split; [exact Hpost|].
  intros Hnone.
  assert (Hzero : forall q', q' ∈ levels -> countOf q' data = 0).
  { intros q' Hq'. apply countOf_zero.
    eapply Forall_impl; [exact Hnone|]. simpl. intros day Hday Heq. apply Hday. rewrite Heq. exact Hq'. }
  destruct pre as [|p pre].
  - injection Hlevels as <- _. split; [reflexivity|]. apply Hzero. left.
  - exfalso. apply Forall_cons in Hpre as [Hp _].
    rewrite (Hzero q) in Hp; [lia|]. rewrite Hlevels. apply elem_of_app. right. left.
Qed.





(** X20: the three-month summary is the week summary of the same records
    without the quality assessment and the adequate nights: the two are null
    together, and the six fields they share are equal. *)
Theorem threeMonthSummary_weekSummary (data : list (sleepRecord num)) :
  ThreeMonth.threeMonthSummary data
  = match weekSummary data with
    | Null => ThreeMonth.Null
    | TypeError => ThreeMonth.TypeError
    | Summary s =>
        ThreeMonth.Summary
          {| ThreeMonth.totalHours := totalHours s;
             ThreeMonth.avgHours := avgHours s;
             ThreeMonth.mostCommonQuality := mostCommonQuality s;
             ThreeMonth.mostCommonQualityCount := mostCommonQualityCount s;
             ThreeMonth.avgVariation := avgVariation s;
             ThreeMonth.daysTracked := daysTracked s |}
    end.
Proof.
  unfold ThreeMonth.threeMonthSummary, weekSummary.
  destruct (bool_decide (length data = 0)); [reflexivity|].
  cbv zeta. unfold entries.
  destruct (head (sort byCountDescending _)); reflexivity.
Qed.

Local Open Scope Z_scope.

End SleepChartFacts.

Section SleepWindowFacts.
Import JSDate Nav JS Sleep.
Local Open Scope Z_scope.
Context {num : Type} `{Number num}.
Context (LocalTZA : Z -> bool -> Z) (c : Z) (Hfixed : Host.fixedOffset LocalTZA c).

(** X21: in a host time zone whose offset from UTC never changes, with
    week navigation every date is shown at exactly one position of the
    navigation: the window reached after a sequence of clicks contains the
    date exactly when the clicks on next exceed the clicks on previous by
    the number of weeks between the Sunday of the reference date and the
    Sunday of the date, and some sequence of clicks does.  So every sleep
    record is in the week data of exactly one position. *)
Theorem record_in_one_week ct tv (sleepData : list (sleepRecord num)) (d : sleepRecord num) :
  navigationType ct = week ->
  let weeks := (Host.localDay LocalTZA (date d) - Host.getDay LocalTZA (date d)
                - (Host.localDay LocalTZA tv - Host.getDay LocalTZA tv)) / 7 in
  (forall clicks,
     inRange (Host.getDateRange LocalTZA ct (Host.navigate LocalTZA ct clicks tv)) (date d) = true
     <-> balance clicks = weeks) /\
  (exists clicks,
     inRange (Host.getDateRange LocalTZA ct (Host.navigate LocalTZA ct clicks tv)) (date d)
     = true) /\
  (d ∈ sleepData ->
   forall clicks,
     d ∈ weekData (Host.getDateRange LocalTZA ct (Host.navigate LocalTZA ct clicks tv)) sleepData
     <-> balance clicks = weeks).
Proof.
  intros Hnav weeks.
  assert (Hin : forall clicks,
             inRange (Host.getDateRange LocalTZA ct (Host.navigate LocalTZA ct clicks tv))
                     (date d) = true
             <-> balance clicks = weeks).
  { intros clicks. now apply (host_date_in_one_week _ _ Hfixed). }
  split; [exact Hin|]. split.
  - destruct (Z.le_gt_cases 0 weeks).
    + exists (replicate (Z.to_nat weeks) true). apply Hin. rewrite balance_replicate. lia.
    + exists (replicate (Z.to_nat (- weeks)) false). apply Hin. rewrite balance_replicate. lia.
  - intros Hd clicks. rewrite <- Hin. unfold weekData.
    rewrite list_elem_of_In, filter_In, <- list_elem_of_In. tauto.
Qed.

End SleepWindowFacts.

Section SleepChartExamples.
Import Sleep.

Lemma weekSummary_most_common_first_witness :
  let data : list (sleepRecord Q) :=
    [ {| date := 0; hours := 15 # 2; quality := "Fairly bad" |};
      {| date := 1; hours := 6 # 1; quality := "Very bad" |};
      {| date := 2; hours := 8 # 1; quality := "Fairly good" |};
      {| date := 3; hours := 8 # 1; quality := "Very bad" |};
      {| date := 4; hours := 8 # 1; quality := "Fairly bad" |} ] in
  exists s, weekSummary data = Summary s /\ mostCommonQuality s = "Fairly bad".
Proof.
  intros data.
  destruct (weekSummary_most_common_first data) as (s & pre & post & Hs & _); [discriminate|].
  exists s. split; [exact Hs|].
  vm_compute in Hs. injection Hs as <-. reflexivity.
Defined.


End SleepChartExamples.

(** ** The blood pressure chart *)

Section BloodPressureFacts.
Import JSDate Nav JS BloodPressure.
Local Open Scope Z_scope.

Section Week.
Context (LocalTZA : Z -> bool -> Z) (c : Z) (Hfixed : Host.fixedOffset LocalTZA c).

Lemma weekDays_shift weekStart :
  weekDays LocalTZA weekStart = map (fun i => weekStart + Z.of_nat i * msPerDay) (seq 0 7).
Proof.
  unfold weekDays. apply map_ext. intros i. apply (host_setDate_shift _ _ Hfixed).
Qed.

Lemma weekDays_lookup weekStart i :
  0 <= i < 7 -> weekDays LocalTZA weekStart !! Z.to_nat i = Some (weekStart + i * msPerDay).
Proof.
  intros Hi. rewrite weekDays_shift.
  change (map ?f ?l) with (f <$> l). rewrite list_lookup_fmap.
  rewrite lookup_seq_lt by lia. simpl. now rewrite Z2Nat.id by lia.
Qed.

(** X22: in a host time zone whose offset from UTC never changes, for week
    navigation, weekDays holds the seven days of the window in order, each
    at 00:00:00.000 local time: day i is i days after the start, its week
    day is i, so the labels read Sun to Sat.  A reading of the window is
    drawn in the column of its week day, and that column is the day the
    reading was taken: the column's date label is the reading's date. *)
Theorem weekDays_columns ct tv :
  navigationType ct = week ->
  let r := Host.getDateRange LocalTZA ct tv in
  let days := weekDays LocalTZA (start r) in
  length days = 7%nat /\
  (forall i, 0 <= i < 7 ->
     days !! Z.to_nat i = Some (start r + i * msPerDay) /\
     Host.getDay LocalTZA (start r + i * msPerDay) = i /\
     Host.timeOfDay LocalTZA (start r + i * msPerDay) = 0 /\
     formatDayLabel LocalTZA (start r + i * msPerDay) = dayNames !! Z.to_nat i) /\
  (forall date, inRange r date = true ->
     exists day,
       days !! Z.to_nat (Host.getDay LocalTZA date) = Some day /\
       Host.toDateString LocalTZA day = Host.toDateString LocalTZA date /\
       Host.getDate LocalTZA day = Host.getDate LocalTZA date /\
       day <= date < day + msPerDay).
Proof.
  intros Hnav r days.
  destruct (host_week_columns _ _ Hfixed ct tv Hnav) as [Hcol Hin]. fold r in Hcol, Hin.
  split; [reflexivity|]. split.
  - intros i Hi. destruct (Hcol i Hi) as (_ & Hwd & Htod).
    split; [now apply weekDays_lookup|]. split; [exact Hwd|]. split; [exact Htod|].
    unfold formatDayLabel. now rewrite Hwd.
  - intros date Hdate. destruct (Hin date Hdate) as (Hwd & Hkey & Hd & Hbounds).
    exists (start r + Host.getDay LocalTZA date * msPerDay).
    split; [now apply weekDays_lookup|]. split; [exact Hkey|]. split; [exact Hd|exact Hbounds].
Qed.

(** X23: in a host time zone whose offset from UTC never changes,
    getWeekStart moves a date back by its week day, to the Sunday of its
    week, and keeps the time of day; for week navigation it is the day on
    which the window of getDateRange starts, later than the start by the
    time of day of the date. *)
Theorem getWeekStart_sunday ct tv :
  navigationType ct = week ->
  getWeekStart LocalTZA tv = tv - Host.getDay LocalTZA tv * msPerDay /\
  Host.getDay LocalTZA (getWeekStart LocalTZA tv) = 0 /\
  Host.timeOfDay LocalTZA (getWeekStart LocalTZA tv) = Host.timeOfDay LocalTZA tv /\
  getWeekStart LocalTZA tv = start (Host.getDateRange LocalTZA ct tv) + Host.timeOfDay LocalTZA tv /\
  getWeekStart LocalTZA (getWeekStart LocalTZA tv) = getWeekStart LocalTZA tv.
Proof.
  intros Hnav.
  assert (Hshift : forall u,
             getWeekStart LocalTZA u = u + - Host.getDay LocalTZA u * msPerDay).
  { intros u. unfold getWeekStart. cbv zeta.
    replace (Host.getDate LocalTZA u - Host.getDay LocalTZA u)
      with (Host.getDate LocalTZA u + - Host.getDay LocalTZA u) by lia.
    apply (host_setDate_shift _ _ Hfixed). }
  assert (Hsunday : forall u, Host.getDay LocalTZA (getWeekStart LocalTZA u) = 0).
  { intros u. rewrite Hshift, !(host_getDay _ _ Hfixed).
    replace (u + - getDay (u + c) * msPerDay + c) with (u + c + - getDay (u + c) * msPerDay) by lia.
    unfold getDay, WeekDay. rewrite Day_add_days. div_lia. }
  split; [rewrite Hshift; lia|]. split; [apply Hsunday|]. split.
  - rewrite Hshift, !(host_timeOfDay _ _ Hfixed), (host_getDay _ _ Hfixed).
    replace (tv + - getDay (tv + c) * msPerDay + c)
      with (tv + c + - getDay (tv + c) * msPerDay) by lia.
    apply TimeWithinDay_add_days.
  - split.
    + rewrite Hshift, (host_getDateRange _ _ Hfixed), (host_timeOfDay _ _ Hfixed),
        (host_getDay _ _ Hfixed), week_window_formula by assumption. cbn [start].
      destruct (Day_decompose (tv + c)) as [Hdec _]. unfold getDay. lia.
    + rewrite (Hshift (getWeekStart LocalTZA tv)), Hsunday. lia.
Qed.

End Week.

Lemma systolic_label (value : Q) :
  legendLabel (getSystolicColor value)
  = Some (if lt value 90 then "Low" else if lt value 120 then "Ideal"
          else if lt value 140 then "Pre-high" else "High").
Proof.
  unfold getSystolicColor.
  destruct (lt value 90); [reflexivity|]. destruct (lt value 120); [reflexivity|].
  destruct (lt value 140); reflexivity.
Qed.

Lemma diastolic_label (value : Q) :
  legendLabel (getDiastolicColor value)
  = Some (if lt value 60 then "Low" else if lt value 80 then "Ideal"
          else if lt value 90 then "Pre-high" else "High").
Proof.
  unfold getDiastolicColor.
  destruct (lt value 60); [reflexivity|]. destruct (lt value 80); [reflexivity|].
  destruct (lt value 90); reflexivity.
Qed.

Lemma lt_spec (x y : Q) : reflect (x < y)%Q (lt x y).
Proof.
  unfold lt. destruct (Qle_bool y x) eqn:Hle; constructor.
  - apply Qle_bool_iff in Hle. lra.
  - apply Qnot_le_lt. intros Hyx. apply Qle_bool_iff in Hyx. congruence.
Qed.

Lemma ge_spec (x y : Q) : reflect (y <= x)%Q (ge x y).
Proof.
  unfold ge. destruct (Qle_bool y x) eqn:Hle; constructor.
  - now apply Qle_bool_iff.
  - intros Hyx. apply Qle_bool_iff in Hyx. congruence.
Qed.

(** X24: the colour of a bar is always one of the four colours of the
    legend, and the bars agree with the risk category computed from the
    same two values: a bar labelled 'High' means 'High Risk', two bars
    labelled 'Low' or 'Ideal' mean 'Low Risk', 'High Risk' comes with a bar
    labelled 'Pre-high' or 'High', 'Medium Risk' with a bar labelled
    'Pre-high', and 'Low Risk' with a systolic bar that is 'Pre-high' only
    for a value from 120 up to 121. *)
Theorem colours_agree_with_risk (systolic diastolic : Q) :
  let s := legendLabel (getSystolicColor systolic) in
  let d := legendLabel (getDiastolicColor diastolic) in
  let risk := getRiskCategory systolic diastolic in
  s ∈ [Some "Low"; Some "Ideal"; Some "Pre-high"; Some "High"] /\
  d ∈ [Some "Low"; Some "Ideal"; Some "Pre-high"; Some "High"] /\
  risk ∈ ["High Risk"; "Medium Risk"; "Low Risk"] /\
  (s = Some "High" \/ d = Some "High" -> risk = "High Risk") /\
  (s ∈ [Some "Low"; Some "Ideal"] -> d ∈ [Some "Low"; Some "Ideal"] -> risk = "Low Risk") /\
  (risk = "High Risk" -> s ∈ [Some "Pre-high"; Some "High"] \/ d ∈ [Some "Pre-high"; Some "High"]) /\
  (risk = "Medium Risk" -> s = Some "Pre-high" \/ d = Some "Pre-high") /\
  (risk = "Low Risk" ->
   d ∈ [Some "Low"; Some "Ideal"] /\
   (s ∈ [Some "Low"; Some "Ideal"] \/ (s = Some "Pre-high" /\ 120 <= systolic < 121)%Q)).
Proof.
  intros s d risk. unfold s, d, risk. rewrite systolic_label, diastolic_label.
  unfold getRiskCategory.
  destruct (lt_spec systolic 90), (lt_spec systolic 120), (lt_spec systolic 140),
    (ge_spec systolic 135), (ge_spec systolic 121); try (exfalso; lra);
  destruct (lt_spec diastolic 60), (lt_spec diastolic 80), (lt_spec diastolic 90),
    (ge_spec diastolic 85), (ge_spec diastolic 80); try (exfalso; lra);
  cbn [orb];
  (split; [by_compute|]); (split; [by_compute|]); (split; [by_compute|]);
  (split; [by_compute|]); (split; [by_compute|]); (split; [by_compute|]);
  (split; [by_compute|]);
  (intros Hr; first
     [ discriminate Hr
     | split; [by_compute | first [left; by_compute | right; split; [reflexivity | lra]]] ]).
Qed.

Lemma remove_dups_length_le {X} `{EqDecision X} (l : list X) :
  (length (remove_dups l) <= length l)%nat.
Proof.
  apply submseteq_length, NoDup_submseteq; [apply NoDup_remove_dups|].
  intros x. now rewrite elem_of_remove_dups.
Qed.

Lemma remove_dups_length_eq {X} `{EqDecision X} (l : list X) :
  length (remove_dups l) = length l <-> NoDup l.
Proof.
  split.
  - intros Hlen.
    assert (Hperm : remove_dups l ≡ₚ l).
    { apply submseteq_length_Permutation; [|lia].
      apply NoDup_submseteq; [apply NoDup_remove_dups|].
      intros x. now rewrite elem_of_remove_dups. }
    rewrite <- Hperm. apply NoDup_remove_dups.
  - induction 1 as [|x l Hx Hl IH]; [reflexivity|]. simpl.
    destruct (decide_rel elem_of x l); [contradiction|]. simpl. now rewrite IH.
Qed.

(** Distinct integers of an interval of [n] values are at most [n]. *)
Lemma NoDup_interval_length (l : list Z) (a : Z) (n : nat) :
  NoDup l -> (forall x, x ∈ l -> a <= x < a + Z.of_nat n) -> (length l <= n)%nat.
Proof.
  intros Hnd Hin.
  assert (Hsub : l ⊆+ seqZ a (Z.of_nat n)).
  { apply NoDup_submseteq; [exact Hnd|]. intros x Hx. apply elem_of_seqZ. now apply Hin. }
  apply submseteq_length in Hsub. rewrite length_seqZ in Hsub. lia.
Qed.

(** X25: for week navigation the summary of the readings of the window
    counts at most 7 days with readings and at most as many days as
    readings, at least one day when there is a reading, and as many days as
    readings exactly when no two readings of the window were taken on the
    same day. *)
Theorem daysWithReadings_bounds ct t (bloodPressureData : list reading) :
  navigationType ct = week ->
  let week := weekData (getDateRange ct t) bloodPressureData in
  (daysWithReadings week <= 7)%nat /\
  (daysWithReadings week <= totalReadings week)%nat /\
  (week <> [] -> (1 <= daysWithReadings week)%nat) /\
  (daysWithReadings week = totalReadings week
   <-> NoDup (map (fun d => toDateString (date d)) week)).
Proof.
  intros Hnav week. unfold daysWithReadings, totalReadings.
  set (keys := map (fun d => toDateString (date d)) week).
  assert (Hlen : length keys = length week) by apply length_map.
  split; [|split; [|split]].
  - apply (NoDup_interval_length _ (Day t - WeekDay t)); [apply NoDup_remove_dups|].
    intros x Hx. apply (proj1 (elem_of_remove_dups _ _)) in Hx. unfold keys in Hx.
    apply list_elem_of_fmap in Hx as (d & -> & Hd).
    unfold week, weekData in Hd. apply list_elem_of_In, filter_In in Hd as [_ Hd].
    unfold inRange in Hd. rewrite week_window_formula in Hd by assumption.
    cbn [start end_] in Hd. apply andb_true_iff in Hd as [Hlo Hhi].
    apply Z.leb_le in Hlo, Hhi. unfold toDateString, Day, msPerDay in *. div_lia.
  - rewrite <- Hlen. apply remove_dups_length_le.
  - intros Hne. destruct week as [|d week']; [congruence|].
    destruct (remove_dups keys) as [|k ks] eqn:Hk; [|simpl; lia].
    exfalso. assert (Hin : toDateString (date d) ∈ remove_dups keys).
    { apply elem_of_remove_dups. left. }
    rewrite Hk in Hin. inversion Hin.
  - rewrite <- Hlen. apply remove_dups_length_eq.
Qed.

End BloodPressureFacts.

Lemma colours_agree_with_risk_witness :
  BloodPressure.getRiskCategory 142 78 = "High Risk".
Proof.
  destruct (colours_agree_with_risk 142 78) as (_ & _ & _ & H & _).
  apply H. left. reflexivity.
Defined.

Lemma daysWithReadings_bounds_witness :
  let data :=
    [ {| BloodPressure.date := JSDate.newDateTime 2025 4 1 8 0;
         BloodPressure.systolic := Some 128%Q; BloodPressure.diastolic := Some 82%Q |};
      {| BloodPressure.date := JSDate.newDateTime 2025 4 1 20 0;
         BloodPressure.systolic := Some 131%Q; BloodPressure.diastolic := None |};
      {| BloodPressure.date := JSDate.newDateTime 2025 4 9 8 0;
         BloodPressure.systolic := Some 120%Q; BloodPressure.diastolic := Some 80%Q |} ] in
  let week := BloodPressure.weekData (Nav.getDateRange "bloodPressure" Nav.initialDate) data in
  (1 <= BloodPressure.daysWithReadings week <= 7)%nat.
Proof.
  intros data week.
  destruct (daysWithReadings_bounds "bloodPressure" Nav.initialDate data eq_refl)
    as (Hle & _ & Hge & _).
  split; [apply Hge; vm_compute; discriminate | exact Hle].
Defined.

(** ** The pain chart *)

Section PainFacts.
Import JSDate Nav JS Pain.
Local Open Scope Z_scope.

Lemma getPainColor_level (n : nat) :
  (n <= 10)%nat -> getPainColor (Z.of_nat n) = painColors !! n.
Proof.
  intros Hn. unfold getPainColor. cbv zeta.
  rewrite Z.min_l by lia.
  destruct (Z.ltb_spec (Z.of_nat n) 0); [lia|]. now rewrite Nat2Z.id.
Qed.

Lemma painColors_NoDup : NoDup painColors.
Proof. by_compute. Qed.

(** X26: getPainColor gives a colour exactly for the levels from 0 up (a
    negative level gives undefined); the levels 0 to 10 have eleven distinct
    colours, every level above 10 has the colour of 10, and the legend has
    eleven items, item i carrying the colour of level i and the label i. *)
Theorem getPainColor_scale (level level' : Z) :
  (is_Some (getPainColor level) <-> 0 <= level) /\
  (10 <= level -> getPainColor level = Some "#662506") /\
  (0 <= level <= 10 -> 0 <= level' <= 10 ->
   getPainColor level = getPainColor level' -> level = level') /\
  length painLegendItems = 11%nat /\
  (0 <= level <= 10 ->
   painLegendItems !! Z.to_nat level
   = Some {| LegendItem.color := getPainColor level; LegendItem.label := pretty level |}).
Proof.
  split; [|split; [|split; [|split]]].
  - unfold getPainColor. cbv zeta. destruct (Z.ltb_spec (Z.min level 10) 0) as [Hneg | Hpos].
    + split; [intros [c Hc]; discriminate Hc | lia].
    + split; [lia|]. intros _. apply lookup_lt_is_Some. simpl. lia.
  - intros Hhigh. unfold getPainColor. cbv zeta. rewrite Z.min_r by lia. reflexivity.
  - intros Hl Hl' Heq.
    rewrite <- (Z2Nat.id level), <- (Z2Nat.id level') in Heq by lia.
    rewrite !getPainColor_level in Heq by lia.
    destruct (painColors !! Z.to_nat level) as [c|] eqn:Hc.
    + symmetry in Heq.
      pose proof (NoDup_lookup _ _ _ _ painColors_NoDup Hc Heq) as Hsame. lia.
    + apply lookup_ge_None in Hc. simpl in Hc. lia.
  - reflexivity.
  - intros Hl. unfold painLegendItems.
    change (map ?f ?l) with (f <$> l). rewrite !list_lookup_fmap.
    rewrite lookup_seq_lt by lia. simpl. now rewrite Z2Nat.id by lia.
Qed.

Section Week.
Context (LocalTZA : Z -> bool -> Z) (c : Z) (Hfixed : Host.fixedOffset LocalTZA c).

(** The level the map holds for a day after the [forEach]: the level of
    the last record of that day. *)
Lemma dateMap_lookup (data : list painRecord) (dateMap : gmap Z Z) (dateKey : Z) :
  fold_left (setLevel LocalTZA) data dateMap !! dateKey
  = match last (List.filter
                  (fun item => Host.toDateString LocalTZA (date item) =? dateKey) data) with
    | Some item => Some (level item)
    | None => dateMap !! dateKey
    end.
Proof.
  revert dateMap. induction data as [|item data IH]; intros dateMap; [reflexivity|].
  cbn [fold_left List.filter]. rewrite IH. unfold setLevel. cbv zeta.
  destruct (Z.eqb_spec (Host.toDateString LocalTZA (date item)) dateKey) as [<- | Hne].
  - destruct (List.filter _ data) as [|item' rest] eqn:Hrest.
    + simpl. apply lookup_insert_eq.
    + change (last (item :: item' :: rest)) with (last (item' :: rest)).
      destruct (last (item' :: rest)) eqn:Hlast; [reflexivity|].
      apply last_None in Hlast. discriminate Hlast.
  - destruct (last _); [reflexivity|]. now apply lookup_insert_ne.
Qed.

(** X27: in a host time zone whose offset from UTC never changes, for week
    navigation and a window with records, chartData has seven points, one
    per day of the window from Sunday to Saturday; point i is dated i days
    after the start of the window, its level is the level of the last
    record of that day in the data, or 0 when the day has none, and its
    colour is the colour of that level.  Every record of the window falls
    on the day of the point at the index of its week day.  With no record
    in the window chartData is empty. *)
Theorem chartData_points ct tv (painData : list painRecord) :
  navigationType ct = week ->
  let r := Host.getDateRange LocalTZA ct tv in
  let week := weekPainData r painData in
  let points := chartData LocalTZA (start r) week in
  (week = [] -> points = []) /\
  (week <> [] ->
   length points = 7%nat /\
   (forall i, 0 <= i < 7 ->
      exists p,
        points !! Z.to_nat i = Some p /\
        Point.date p = start r + i * msPerDay /\
        Point.day p = dayLabels !! Z.to_nat i /\
        Point.level p
        = default 0 (level <$> last (List.filter
                                       (fun item => Host.toDateString LocalTZA (date item)
                                                    =? Host.toDateString LocalTZA (Point.date p))
                                       week)) /\
        Point.color p = getPainColor (Point.level p)) /\
   (forall item, item ∈ week ->
      exists p,
        points !! Z.to_nat (Host.getDay LocalTZA (date item)) = Some p /\
        Host.toDateString LocalTZA (Point.date p) = Host.toDateString LocalTZA (date item))).
Proof.
  intros Hnav r week points.
  split; [intros Hnil; unfold points; now rewrite Hnil|].
  intros Hne.
  destruct (host_week_columns _ _ Hfixed ct tv Hnav) as [Hcol Hin]. fold r in Hcol, Hin.
  assert (Hpoints : forall i, 0 <= i < 7 ->
    points !! Z.to_nat i
    = Some {| Point.date := start r + i * msPerDay;
              Point.day := dayLabels !! Z.to_nat i;
              Point.level := default 0 (fold_left (setLevel LocalTZA) week ∅
                                          !! Host.toDateString LocalTZA
                                               (start r + i * msPerDay));
              Point.color := getPainColor
                               (default 0 (fold_left (setLevel LocalTZA) week ∅
                                             !! Host.toDateString LocalTZA
                                                  (start r + i * msPerDay))) |}).
  { intros i Hi. unfold points, chartData.
    rewrite bool_decide_eq_false_2 by (destruct week; [congruence | discriminate]).
    cbv zeta. change (map ?f ?l) with (f <$> l). rewrite list_lookup_fmap.
    rewrite lookup_seq_lt by lia. cbn [fmap option_fmap option_map Nat.add].
    rewrite Z2Nat.id by lia. destruct (Hcol i Hi) as (-> & -> & _). reflexivity. }
  split; [|split].
  - unfold points, chartData.
    rewrite bool_decide_eq_false_2 by (destruct week; [congruence | discriminate]).
    reflexivity.
  - intros i Hi. eexists. split; [now apply Hpoints|].
    cbn [Point.date Point.day Point.level Point.color].
    split; [reflexivity|]. split; [reflexivity|]. split; [|reflexivity].
    rewrite dateMap_lookup. destruct (last _); reflexivity.
  - intros item Hitem.
    assert (Hrange : inRange r (date item) = true).
    { unfold week, weekPainData in Hitem. now apply list_elem_of_In, filter_In in Hitem as [_ ?]. }
    destruct (Hin (date item) Hrange) as (Hwd & Hkey & _).
    eexists. split; [now apply Hpoints|]. exact Hkey.
Qed.

(** X28: in a host time zone whose offset from UTC never changes, in the
    three-month summary of a window with records, the days with pain are at
    least 1, at most the number of entries and at most daysInThreeMonths,
    and daysInThreeMonths is at most 93 whatever the reference date. *)
Theorem daysWithPain_bounds ref (painData : list painRecord) :
  let r := Host.getThreeMonthRange LocalTZA ref in
  let data := threeMonthPainData r painData in
  data <> [] ->
  (1 <= daysWithPain LocalTZA data <= totalEntries data)%nat /\
  Z.of_nat (daysWithPain LocalTZA data) <= daysInThreeMonths r <= 93.
Proof.
  intros r data Hne. unfold daysWithPain, totalEntries.
  set (keys := map (fun d => Host.toDateString LocalTZA (date d)) data).
  assert (Hlen : length keys = length data) by apply length_map.
  assert (Hr : r = {| start := start (getThreeMonthRange (ref + c)) - c;
                      end_ := end_ (getThreeMonthRange (ref + c)) - c |}).
  { unfold r. apply (host_getThreeMonthRange _ _ Hfixed). }
  set (rl := getThreeMonthRange (ref + c)) in *.
  assert (Hrange : forall d, d ∈ data -> start rl <= date d + c <= end_ rl).
  { intros d Hd. unfold data, threeMonthPainData in Hd.
    apply list_elem_of_In, filter_In in Hd as [_ Hd]. unfold inRange in Hd.
    rewrite Hr in Hd. cbn [start end_] in Hd.
    apply andb_true_iff in Hd as [Hlo Hhi]. apply Z.leb_le in Hlo, Hhi. lia. }
  destruct (three_month_range_span (ref + c)) as (_ & _ & _ & _ & Hspan). fold rl in Hspan.
  assert (Hdays : daysInThreeMonths r = daysInThreeMonths rl).
  { unfold daysInThreeMonths. rewrite Hr. cbn [start end_]. f_equal. f_equal. f_equal. lia. }
  assert (Hsome : exists d, d ∈ data) by (destruct data as [|d ?]; [congruence | exists d; left]).
  destruct Hsome as [d0 Hd0]. pose proof (Hrange d0 Hd0) as Hd0r.
  split; [split|split].
  - destruct (remove_dups keys) as [|k ks] eqn:Hk; [|simpl; lia].
    exfalso. assert (Hin : Host.toDateString LocalTZA (date d0) ∈ remove_dups keys).
    { apply elem_of_remove_dups. unfold keys.
      apply (list_elem_of_fmap_2 (fun d => Host.toDateString LocalTZA (date d))). exact Hd0. }
    rewrite Hk in Hin. inversion Hin.
  - rewrite <- Hlen. apply remove_dups_length_le.
  - rewrite Hdays.
    assert (Hd : 0 <= daysInThreeMonths rl - (Day (end_ rl) - Day (start rl) + 1)).
    { unfold daysInThreeMonths, Day, msPerDay. div_lia. }
    assert (Hcount : (length (remove_dups keys)
                      <= Z.to_nat (Day (end_ rl) - Day (start rl) + 1))%nat).
    { apply (NoDup_interval_length _ (Day (start rl))); [apply NoDup_remove_dups|].
      intros x Hx. apply (proj1 (elem_of_remove_dups _ _)) in Hx. unfold keys in Hx.
      apply list_elem_of_fmap in Hx as (d & -> & Hd'). pose proof (Hrange d Hd') as Hdr.
      rewrite (host_toDateString _ _ Hfixed).
      unfold toDateString, Day, msPerDay in *. div_lia. }
    assert (Hpos : 0 <= Day (end_ rl) - Day (start rl)).
    { unfold Day, msPerDay. div_lia. }
    lia.
  - rewrite Hdays. unfold daysInThreeMonths. unfold msPerDay in Hspan. div_lia.
Qed.

End Week.

Section Locations.
Context (toLowerCase : string -> string).

Lemma fold_countLocation (data : list painRecord) (counts : object nat) :
  fold_left (countLocation toLowerCase) data counts
  = fold_left bump (locations toLowerCase data) counts.
Proof.
  revert counts. induction data as [|item data IH]; intros counts; [reflexivity|].
  simpl. now rewrite IH.
Qed.

Lemma prop_get_tabulate {V} (g : string -> V) (ks : list string) (k : string) :
  k ∈ ks -> prop_get (map (fun k => (k, g k)) ks) k = Some (g k).
Proof.
  induction ks as [|k' ks IH]; intros Hin; [inversion Hin|]. simpl.
  destruct (String.eqb_spec k' k) as [-> | Hne]; [reflexivity|].
  apply IH. apply elem_of_cons in Hin as [-> | Hin]; [congruence | exact Hin].
Qed.

Lemma prop_set_tabulate {V} (g : string -> V) (ks : list string) (l : string) (v : V) :
  NoDup ks -> l ∈ ks ->
  prop_set (map (fun k => (k, g k)) ks) l v
  = map (fun k => (k, if String.eqb k l then v else g k)) ks.
Proof.
  induction ks as [|k ks IH]; intros Hnd Hin; [inversion Hin|].
  apply NoDup_cons in Hnd as [Hk Hnd]. simpl.
  destruct (String.eqb_spec k l) as [-> | Hne].
  - f_equal. apply map_ext_in. intros k' Hk'. apply list_elem_of_In in Hk'.
    destruct (String.eqb_spec k' l) as [-> | _]; [contradiction | reflexivity].
  - f_equal. apply IH; [exact Hnd|].
    apply elem_of_cons in Hin as [-> | Hin]; [congruence | exact Hin].
Qed.

Lemma keys_tabulate {V} (g : string -> V) (ks : list string) :
  keys (map (fun k => (k, g k)) ks) = ks.
Proof. unfold keys. rewrite map_map. apply map_id. Qed.

Lemma count_occ_snoc (locs : list string) (l k : string) :
  count_occ String.string_dec (locs ++ [l]) k
  = (count_occ String.string_dec locs k + if String.eqb k l then 1 else 0)%nat.
Proof.
  rewrite count_occ_app. f_equal. simpl.
  destruct (String.string_dec l k) as [-> | Hne]; [now rewrite String.eqb_refl|].
  destruct (String.eqb_spec k l); [congruence | reflexivity].
Qed.

(** After the counting loop the map holds, for every location met, the
    number of its records, the locations in the order of their first
    record. *)
Lemma locationCounts_spec (locs : list string) :
  exists ks,
    fold_left bump locs [] = map (fun k => (k, count_occ String.string_dec locs k)) ks /\
    NoDup ks /\
    (forall k, k ∈ ks <-> k ∈ locs) /\
    (forall ks1 k ks2, ks = ks1 ++ k :: ks2 ->
       exists pre post, locs = pre ++ k :: post /\ (k ∉ pre) /\ forall x, x ∈ pre -> x ∈ ks1).
Proof.
  induction locs as [|l locs IH] using rev_ind.
  - exists []. split; [reflexivity|]. split; [constructor|]. split; [reflexivity|].
    intros ks1 k ks2 Habs. destruct ks1; discriminate Habs.
  - destruct IH as (ks & Hfold & Hnd & Hkeys & Horder).
    rewrite fold_left_app. cbn [fold_left]. rewrite Hfold. unfold bump.
    destruct (decide (l ∈ ks)) as [Hin | Hnew].
    + exists ks. rewrite prop_get_tabulate by assumption. cbn [default].
      rewrite prop_set_tabulate by assumption.
      split; [|split; [exact Hnd|split]].
      * apply map_ext. intros k. rewrite count_occ_snoc.
        destruct (String.eqb_spec k l) as [-> | _]; f_equal; lia.
      * intros k. rewrite Hkeys, elem_of_app, list_elem_of_singleton.
        split; [now left|]. intros [Hk | ->]; [exact Hk | now apply Hkeys].
      * intros ks1 k ks2 Hsplit.
        destruct (Horder ks1 k ks2 Hsplit) as (pre & post & -> & Hk & Hpre).
        exists pre, (post ++ [l]). rewrite <- app_assoc. now repeat split.
    + exists (ks ++ [l]).
      rewrite prop_get_fresh by (now rewrite keys_tabulate).
      rewrite prop_set_fresh by (now rewrite keys_tabulate). cbn [default].
      assert (Hl : l ∉ locs) by (now rewrite <- Hkeys).
      split; [|split; [|split]].
      * rewrite map_app. f_equal.
        -- apply map_ext_in. intros k Hk. apply list_elem_of_In in Hk.
           rewrite count_occ_snoc.
           destruct (String.eqb_spec k l) as [-> | _]; [contradiction | f_equal; lia].
        -- simpl. rewrite count_occ_snoc, String.eqb_refl.
           rewrite (proj1 (count_occ_not_In String.string_dec locs l)); [reflexivity|].
           now rewrite <- list_elem_of_In.
      * apply NoDup_app. split; [exact Hnd|]. split; [|apply NoDup_singleton].
        intros x Hx Hx'. apply list_elem_of_singleton in Hx'. now subst x.
      * intros k. rewrite !elem_of_app, Hkeys. reflexivity.
      * intros ks1 k ks2 Hsplit.
        destruct ks2 as [|k2 ks2 _] using rev_ind.
        -- apply app_inj_tail in Hsplit as [-> ->].
           exists locs, []. split; [reflexivity|]. split; [exact Hl|].
           intros x Hx. now apply Hkeys.
        -- change (ks1 ++ k :: ks2 ++ [k2]) with (ks1 ++ (k :: ks2) ++ [k2]) in Hsplit.
           rewrite app_assoc in Hsplit. apply app_inj_tail in Hsplit as [Hks ->].
           destruct (Horder ks1 k ks2 Hks) as (pre & post & -> & Hk & Hpre).
           exists pre, (post ++ [k2]). rewrite <- app_assoc. now repeat split.
Qed.

Lemma moreCommon_stays (es : list (string * nat)) (acc : option string * nat) :
  Forall (fun e => (e.2 <= acc.2)%nat) es -> fold_left moreCommon es acc = acc.
Proof.
  induction 1 as [|[k c] es Hle _ IH]; [reflexivity|]. simpl in *.
  destruct (Nat.ltb_spec acc.2 c); [lia | exact IH].
Qed.

(** The loop keeps the first entry of greatest count. *)
Lemma moreCommon_first_max (pre post : list (string * nat)) (top : string * nat)
    (acc : option string * nat) :
  (acc.2 < top.2)%nat ->
  Forall (fun e => (e.2 < top.2)%nat) pre ->
  Forall (fun e => (e.2 <= top.2)%nat) post ->
  fold_left moreCommon (pre ++ top :: post) acc = (Some top.1, top.2).
Proof.
  intros Hacc Hpre Hpost. revert acc Hacc.
  induction Hpre as [|[k c] pre Hlt _ IH]; intros acc Hacc.
  - destruct top as [k c]. simpl in *.
    destruct (Nat.ltb_spec acc.2 c); [|lia]. now apply moreCommon_stays.
  - simpl in *. destruct (Nat.ltb_spec acc.2 c); apply IH; simpl; lia.
Qed.

(** X29: the most common location of a window with records is the
    lower-cased location with the most records, and among locations with
    as many records the one whose first record comes first in the data:
    every location met before it has strictly fewer records, and no location
    has more.  With no record it is null. *)
Theorem mostCommonLocation_first (data : list painRecord) :
  (data = [] -> mostCommonLocation toLowerCase data = None) /\
  (data <> [] ->
   exists l pre post,
     mostCommonLocation toLowerCase data = Some l /\
     locations toLowerCase data = pre ++ l :: post /\
     (l ∉ pre) /\
     (forall l', l' ∈ pre -> (occurrences toLowerCase l' data < occurrences toLowerCase l data)%nat) /\
     (forall l', (occurrences toLowerCase l' data <= occurrences toLowerCase l data)%nat)).
Proof.
  split; [intros ->; reflexivity|]. intros Hne.
  unfold mostCommonLocation, occurrences.
  rewrite bool_decide_eq_false_2 by (destruct data; [congruence | discriminate]).
  cbv zeta. unfold entries. rewrite fold_countLocation.
  set (locs := locations toLowerCase data).
  assert (Hlocs : locs <> []) by (unfold locs, locations; destruct data; [congruence | discriminate]).
  destruct (locationCounts_spec locs) as (ks & -> & Hnd & Hkeys & Horder).
  set (c := fun k => count_occ String.string_dec locs k).
  destruct (first_max_exists (map (fun k => (k, c k)) ks))
    as (pre_e & top & post_e & Hsplit & Hpre & Hpost).
  { destruct locs as [|l0 locs']; [congruence|].
    destruct ks; [|discriminate]. exfalso.
    assert (Hin : l0 ∈ @nil string) by (apply Hkeys; left). inversion Hin. }
  apply fmap_app_inv in Hsplit as (ks1 & ks2' & -> & Hrest & ->).
  symmetry in Hrest. apply fmap_cons_inv in Hrest as (l & ks2 & -> & -> & ->).
  rewrite Forall_fmap in Hpre, Hpost. rewrite Forall_forall in Hpre, Hpost.
  assert (Hl : l ∈ locs) by (apply Hkeys, elem_of_app; right; left).
  assert (Hpos : (0 < c l)%nat).
  { unfold c. apply count_occ_In. now apply list_elem_of_In. }
  change (map ?f ?l) with (f <$> l).
  rewrite fmap_app, fmap_cons, moreCommon_first_max.
  - destruct (Horder ks1 l ks2 eq_refl) as (pre & post & Hdata & Hfirst & Hbefore).
    exists l, pre, post. cbn [fst snd].
    split; [reflexivity|]. split; [exact Hdata|]. split; [exact Hfirst|]. split.
    + intros l' Hl'. apply (Hpre l'). now apply Hbefore.
    + intros l'. destruct (decide (l' ∈ locs)) as [Hin | Hout].
      * apply Hkeys in Hin. apply elem_of_app in Hin as [Hin | Hin].
        -- specialize (Hpre l' Hin). simpl in Hpre. fold (c l') (c l). lia.
        -- apply elem_of_cons in Hin as [-> | Hin]; [lia|]. exact (Hpost l' Hin).
      * unfold c. rewrite (proj1 (count_occ_not_In String.string_dec locs l')); [lia|].
        now rewrite <- list_elem_of_In.
  - exact Hpos.
  - apply Forall_fmap, Forall_forall. exact Hpre.
  - apply Forall_fmap, Forall_forall. exact Hpost.
Qed.

End Locations.
End PainFacts.

Lemma getPainColor_scale_witness :
  Pain.getPainColor 12 = Some "#662506" /\
  Pain.painLegendItems !! 7%nat
  = Some {| Pain.LegendItem.color := Some "#cc4c02"; Pain.LegendItem.label := "7" |}.
Proof.
  destruct (getPainColor_scale 7 12) as (_ & _ & _ & _ & Hitem).
  destruct (getPainColor_scale 12 0) as (_ & Hhigh & _).
  split; [apply Hhigh; lia|]. apply Hitem. lia.
Defined.

Lemma mostCommonLocation_first_witness :
  let data :=
    [ {| Pain.date := 0; Pain.level := 3; Pain.location := "back" |};
      {| Pain.date := 1; Pain.level := 6; Pain.location := "knee" |};
      {| Pain.date := 2; Pain.level := 6; Pain.location := "knee" |};
      {| Pain.date := 3; Pain.level := 9; Pain.location := "back" |} ] in
  Pain.mostCommonLocation (fun s => s) data = Some "back".
Proof.
  intros data.
  destruct (proj2 (mostCommonLocation_first (fun s => s) data)) as (l & pre & post & Hl & _);
    [discriminate|].
  rewrite Hl. vm_compute in Hl. exact (eq_sym Hl).
Defined.

(** ** The patient selected in the physician dashboard *)

Section PhysicianFacts.
Import Helpers PhysicianDashboard.

(** X30: the physician dashboard starts with the patient of its prop, or
    with none when the prop is empty or missing; the effect that follows the
    prop makes the selected patient equal to a prop that is not empty and
    leaves it alone otherwise, and running it again changes nothing.  So
    after the effect the content below the header is shown whenever the prop
    names a patient. *)
Theorem followProp_selected (initialPatientId : option string) (selectedPatientId : string) :
  let selected := followProp initialPatientId selectedPatientId in
  (absent initialPatientId = false -> Some selected = initialPatientId /\ showsContent selected = true) /\
  (absent initialPatientId = true -> selected = selectedPatientId) /\
  followProp initialPatientId selected = selected /\
  followProp initialPatientId (initialSelected initialPatientId) = initialSelected initialPatientId /\
  showsContent (initialSelected initialPatientId) = negb (absent initialPatientId).
Proof.
  assert (Hfin : forall P Q R S T : Prop, P -> Q -> R -> S -> T -> P /\ Q /\ R /\ S /\ T)
    by tauto.
  unfold followProp, initialSelected, showsContent.
  destruct initialPatientId as [i|]; cbn [absent default]; unfold id.
  - destruct (String.eqb_spec i "") as [-> | Hne]; cbn [negb andb].
    + apply Hfin; intros; try discriminate; reflexivity.
    + destruct (String.eqb_spec i selectedPatientId) as [<- | Hsel]; cbn [negb];
        rewrite ?String.eqb_refl; cbn [negb];
        destruct (String.eqb_spec i ""); try contradiction; cbn [negb];
        apply Hfin; intros; try discriminate; try (split; reflexivity); reflexivity.
  - apply Hfin; intros; try discriminate; reflexivity.
Qed.

End PhysicianFacts.

Lemma followProp_selected_witness :
  PhysicianDashboard.followProp (Some "Patient_002") "Patient_001" = "Patient_002".
Proof.
  destruct (followProp_selected (Some "Patient_002") "Patient_001") as ((H & _) & _);
    [reflexivity|].
  exact (f_equal (default "") H).
Defined.

Lemma disabled_iff_nothing_to_show_witness :
  let d : JS.data_object unit := {[ "patientInfo" := JS.VObject; "sleepData" := JS.VArray [] ]} in
  PhysicianDashboard.disabled (Visualizations.availableVisualizations (fun _ => ()) (Some d)) = true.
Proof.
  intros d.
  destruct (disabled_iff_nothing_to_show (fun _ => ()) (Some d)) as (_ & Hiff).
  apply Hiff. intros d' [= <-]. split.
  - intros (x & items & Hx). vm_compute in Hx. discriminate Hx.
  - repeat constructor; intros (x & items & Hx); vm_compute in Hx; discriminate Hx.
Defined.

Lemma boundary_render_witness :
  ErrorBoundary.render (C := unit) (fun _ : string => true) (fun e => e) (fun i : string => i)
    true ()
    (fold_left ErrorBoundary.step
       [ErrorBoundary.Derived "boom"; ErrorBoundary.Caught "boom" "at Chart"]
       ErrorBoundary.initial)
  = ErrorBoundary.Fallback (Some ("boom", "at Chart")).
Proof.
  destruct (boundary_render (C := unit) (fun _ : string => true) (fun e => e) (fun i : string => i)
              [ErrorBoundary.Derived "boom"; ErrorBoundary.Caught "boom" "at Chart"] true ())
    as (_ & _ & H).
  destruct (H ("boom", "at Chart") eq_refl) as (_ & err & info & _).
  reflexivity.
Defined.

(** ** Examples in two time zones *)

Section HostExamples.
Import JSDate Nav JS.
Local Open Scope Z_scope.

(** Japan has no clock change. *)
Lemma japan_fixedOffset : Host.fixedOffset Host.japan (9 * msPerHour).
Proof. intros t isUTC. reflexivity. Defined.

(** The Eastern time of the United States has: the bound of 93 days on
    [daysInThreeMonths] does not hold there.  From 5 November 2024 at noon
    the window starts on 5 August at noon, 92 days and one hour earlier,
    and the days come to 94. *)
Example daysInThreeMonths_clock_change :
  let ref := Host.newDateTime Host.newYork 2024 10 5 12 0 in
  let r := Host.getThreeMonthRange Host.newYork ref in
  start r = Host.newDateTime Host.newYork 2024 7 5 12 0 /\
  end_ r = ref /\
  end_ r - start r = 92 * msPerDay + msPerHour /\
  Pain.daysInThreeMonths r = 94.
Proof. vm_compute. repeat split. Qed.

(** There, a week window that holds a clock change is an hour shorter or
    longer than seven days: the week of 9 March 2025 has 167 hours. *)
Example week_window_clock_change :
  let r := Host.getDateRange Host.newYork "sleep" (Host.newDateTime Host.newYork 2025 2 12 12 0) in
  start r = Host.newDate Host.newYork 2025 2 9 /\
  end_ r - start r = 7 * msPerDay - msPerHour - 1.
Proof. vm_compute. split; reflexivity. Qed.

End HostExamples.


Lemma getDateRange_week_witness :
  let ref := Host.initialDate Host.japan in
  let r := Host.getDateRange Host.japan "sleep" ref in
  Host.getDay Host.japan (Nav.start r) = 0%Z /\ Host.getDay Host.japan (Nav.end_ r) = 6%Z /\
  (Nav.start r <= ref <= Nav.end_ r)%Z.
Proof.
  intros ref r.
  destruct (getDateRange_week Host.japan _ japan_fixedOffset "sleep" ref eq_refl)
    as (Hs & _ & He & _ & _ & _ & Hlo & Hhi).
  split; [exact Hs|]. split; [exact He|]. split; [exact Hlo | exact Hhi].
Defined.

Lemma week_window_shared_witness :
  Host.getDateRange Host.japan "sleep" (Host.newDateTime Host.japan 2025 4 3 22 30)
  = Host.getDateRange Host.japan "sleep" (Host.initialDate Host.japan).
Proof.
  apply (week_window_shared Host.japan _ japan_fixedOffset "sleep" (Host.initialDate Host.japan)
           (Host.newDateTime Host.japan 2025 4 3 22 30)).
  - reflexivity.
  - vm_compute. split; discriminate.
Defined.

Lemma week_windows_adjacent_witness :
  let ref := Host.initialDate Host.japan in
  Nav.start (Host.getDateRange Host.japan "glucose" (Host.goToNext Host.japan "glucose" ref))
  = (Nav.end_ (Host.getDateRange Host.japan "glucose" ref) + 1)%Z.
Proof.
  intros ref.
  destruct (week_windows_adjacent Host.japan _ japan_fixedOffset "glucose" ref eq_refl)
    as (_ & _ & _ & _ & H & _).
  exact H.
Defined.

Lemma week_navigation_closed_form_witness :
  let ref := Host.initialDate Host.japan in
  Host.navigate Host.japan "pain" [true; false; true; true] ref
  = (ref + 2 * (7 * JSDate.msPerDay))%Z.
Proof.
  intros ref.
  destruct (week_navigation_closed_form Host.japan _ japan_fixedOffset "pain"
              [true; false; true; true] ref eq_refl) as (H & _).
  exact H.
Defined.

Lemma month_navigation_closed_form_witness :
  Host.navigate Host.japan "mood" [true; true; false] (Host.initialDate Host.japan)
  = Host.newDate Host.japan 2025 5 1.
Proof.
  assert (Hd : (Host.getDate Host.japan (Host.initialDate Host.japan) <= 28)%Z)
    by (vm_compute; discriminate).
  destruct (month_navigation_closed_form Host.japan _ japan_fixedOffset "mood"
              [true; true; false] (Host.initialDate Host.japan) eq_refl Hd) as (H & _).
  rewrite H. vm_compute. reflexivity.
Defined.

Lemma month_window_witness :
  let ref := Host.initialDate Host.japan in
  let r := Host.getDateRange Host.japan "mood" ref in
  Nav.start r = ref /\ Nav.end_ r = Host.newDate Host.japan 2025 4 31 /\ (ref <= Nav.end_ r)%Z.
Proof.
  intros ref r.
  assert (Hyr : ~ (0 <= Host.getFullYear Host.japan ref <= 99)%Z).
  { vm_compute. intros [_ H]. apply H. reflexivity. }
  destruct (month_window Host.japan _ japan_fixedOffset "mood" ref eq_refl Hyr)
    as (_ & _ & _ & Hiff).
  split; [vm_compute; reflexivity|]. split; [vm_compute; reflexivity|].
  apply Hiff. right. vm_compute. reflexivity.
Defined.

Lemma three_months_back_span_witness :
  let r := Host.getThreeMonthRange Host.japan (Host.initialDate Host.japan) in
  (Nav.end_ r - Nav.start r <= 92 * JSDate.msPerDay)%Z.
Proof.
  intros r.
  destruct (three_months_back_span Host.japan _ japan_fixedOffset (Host.initialDate Host.japan))
    as (_ & _ & _ & _ & _ & H).
  exact H.
Defined.

Lemma record_in_one_week_witness :
  let d : Sleep.sleepRecord Q :=
    {| Sleep.date := Host.newDateTime Host.japan 2025 4 14 23 15; Sleep.hours := 7 # 1;
       Sleep.quality := "Very good" |} in
  d ∈ Sleep.weekData
        (Host.getDateRange Host.japan "sleep"
           (Host.navigate Host.japan "sleep" [true; true; false; true] (Host.initialDate Host.japan)))
        [d].
Proof.
  intros d.
  destruct (record_in_one_week Host.japan _ japan_fixedOffset "sleep" (Host.initialDate Host.japan)
              [d] d eq_refl) as (_ & _ & Hd).
  apply Hd; [left | vm_compute; reflexivity].
Defined.

Lemma weekDays_columns_witness :
  let r := Host.getDateRange Host.japan "bloodPressure" (Host.initialDate Host.japan) in
  BloodPressure.weekDays Host.japan (Nav.start r) !! 4%nat = Some (Host.newDate Host.japan 2025 4 1) /\
  BloodPressure.formatDayLabel Host.japan (Host.newDate Host.japan 2025 4 1) = Some "Thu".
Proof.
  intros r.
  destruct (weekDays_columns Host.japan _ japan_fixedOffset "bloodPressure"
              (Host.initialDate Host.japan) eq_refl) as (_ & Hdays & _).
  destruct (Hdays 4%Z ltac:(lia)) as (Hday & _ & _ & Hlabel).
  split; [exact Hday | exact Hlabel].
Defined.

Lemma getWeekStart_sunday_witness :
  BloodPressure.getWeekStart Host.japan (Host.newDateTime Host.japan 2025 4 1 9 30)
  = Host.newDateTime Host.japan 2025 3 27 9 30.
Proof.
  destruct (getWeekStart_sunday Host.japan _ japan_fixedOffset "bloodPressure"
              (Host.newDateTime Host.japan 2025 4 1 9 30) eq_refl) as (H & _).
  rewrite H. vm_compute. reflexivity.
Defined.

Lemma chartData_points_witness :
  let painData :=
    [ {| Pain.date := Host.newDateTime Host.japan 2025 4 1 8 0; Pain.level := 3;
         Pain.location := "Knee" |};
      {| Pain.date := Host.newDateTime Host.japan 2025 4 1 21 0; Pain.level := 6;
         Pain.location := "knee" |};
      {| Pain.date := Host.newDateTime Host.japan 2025 4 12 8 0; Pain.level := 9;
         Pain.location := "Back" |} ] in
  let r := Host.getDateRange Host.japan "pain" (Host.initialDate Host.japan) in
  exists p,
    Pain.chartData Host.japan (Nav.start r) (Pain.weekPainData r painData) !! 4%nat = Some p /\
    Pain.Point.level p = 6%Z /\ Pain.Point.day p = Some "Thu".
Proof.
  intros painData r.
  destruct (chartData_points Host.japan _ japan_fixedOffset "pain" (Host.initialDate Host.japan)
              painData eq_refl) as [_ Hpoints].
  destruct Hpoints as (_ & Hpoint & _); [vm_compute; discriminate|].
  destruct (Hpoint 4%Z ltac:(lia)) as (p & Hp & _).
  exists p. split; [exact Hp|].
  vm_compute in Hp. injection Hp as <-. split; reflexivity.
Defined.

Lemma daysWithPain_bounds_witness :
  let painData :=
    [ {| Pain.date := Host.newDateTime Host.japan 2025 2 3 8 0; Pain.level := 3;
         Pain.location := "Knee" |};
      {| Pain.date := Host.newDateTime Host.japan 2025 2 3 21 0; Pain.level := 6;
         Pain.location := "knee" |};
      {| Pain.date := Host.newDateTime Host.japan 2025 3 12 8 0; Pain.level := 9;
         Pain.location := "Back" |} ] in
  let r := Host.getThreeMonthRange Host.japan (Host.initialDate Host.japan) in
  (Z.of_nat (Pain.daysWithPain Host.japan (Pain.threeMonthPainData r painData))
   <= Pain.daysInThreeMonths r)%Z.
Proof.
  intros painData r.
  destruct (daysWithPain_bounds Host.japan _ japan_fixedOffset (Host.initialDate Host.japan)
              painData) as (_ & H & _);
    [vm_compute; discriminate | exact H].
Defined.
